(** * xray-knife: subscription retrieval, link decoding and the fetch orchestrator

    A shallow embedding of the Go sources of the [subs] command
    (retrieval in [Subscription.FetchAll], de-duplication in
    [Subscription.RemoveDuplicate], the orchestrator in [FetchCommand])
    and of the Wireguard link decoder, together with the part of Go's
    standard library these functions call ([strings], [net/url]).

    Go strings are byte sequences: they are modelled by [string], whose
    characters are the 256 values of [ascii].  Go's [int] and [int64]
    values are modelled by [Z]; the code compares and counts them but
    never overflows them.  Calls that leave the process (HTTP, database,
    files, log) append an event to a trace and take their answer from an
    environment that may depend on the whole history; the clock is read
    off the same environment. *)

From Stdlib Require Import ZArith NArith Lia Ascii String List Bool.
From stdpp Require Import base list strings gmap.

Local Open Scope Z_scope.

(** ** Results, errors and panics *)

(** Go errors, and the arguments of a format string.  A formatted
    message is kept as its format and its arguments: [Errorf] is
    [fmt.Errorf], [ASprintf] is a string built by [fmt.Sprintf]. *)
Unset Elimination Schemes.
Inductive error : Type :=
| errors_New (msg : string)
| Errorf (format : string) (args : list farg)
| url_Error (Op URL : string) (Err : error)
| url_EscapeError (s : string)
| url_InvalidHostError (s : string)
with farg : Type :=
| AInt (n : Z)
| AStr (s : string)
| AErr (e : error)
| ASprintf (format : string) (args : list farg).
Set Elimination Schemes.

(** A Go function returning [(T, error)]. *)
Inductive result (A : Type) : Type :=
| Ok (a : A)
| Err (e : error).
Arguments Ok {A} a.
Arguments Err {A} e.

(** A call that either returns or panics. *)
Inductive outcome (A : Type) : Type :=
| Returns (a : A)
| Panics.
Arguments Returns {A} a.
Arguments Panics {A}.

Definition is_Ok {A} (r : result A) : bool :=
  match r with Ok _ => true | Err _ => false end.

Definition len {A} (l : list A) : Z := Z.of_nat (length l).

(** ** Package [strings] *)

Module strings.

Definition byte (c : ascii) : N := N_of_ascii c.

Definition between (lo hi c : ascii) : bool :=
  ((byte lo <=? byte c) && (byte c <=? byte hi))%N.

Definition eqb (s t : string) : bool := String.eqb s t.

Fixpoint HasPrefix (s prefix : string) : bool :=
  match prefix, s with
  | EmptyString, _ => true
  | String p prefix', String c s' => Ascii.eqb c p && HasPrefix s' prefix'
  | String _ _, EmptyString => false
  end.

(** [s[len(prefix):]] when [HasPrefix s prefix]. *)
Fixpoint drop (n : nat) (s : string) : string :=
  match n, s with
  | O, _ => s
  | S n', String _ s' => drop n' s'
  | S _, EmptyString => EmptyString
  end.

Definition rev (s : string) : string :=
  string_of_list_ascii (List.rev (list_ascii_of_string s)).

Definition HasSuffix (s suffix : string) : bool :=
  HasPrefix (rev s) (rev suffix).

(** [strings.Index(s, sep)]; [None] stands for -1. *)
Fixpoint Index (s sep : string) : option nat :=
  if HasPrefix s sep then Some O
  else match s with
       | EmptyString => None
       | String _ s' => match Index s' sep with
                        | Some i => Some (S i)
                        | None => None
                        end
       end.

(** [strings.LastIndex(s, sep)]. *)
Fixpoint LastIndex (s sep : string) : option nat :=
  match s with
  | EmptyString => if HasPrefix s sep then Some O else None
  | String _ s' =>
      match LastIndex s' sep with
      | Some i => Some (S i)
      | None => if HasPrefix s sep then Some O else None
      end
  end.

Definition Contains (s sep : string) : bool :=
  match Index s sep with Some _ => true | None => false end.

(** [s[:n]]. *)
Fixpoint take (n : nat) (s : string) : string :=
  match n, s with
  | O, _ => EmptyString
  | S n', String c s' => String c (take n' s')
  | S _, EmptyString => EmptyString
  end.

(** [strings.Cut(s, sep)]: before, after, found. *)
Definition Cut (s sep : string) : string * string * bool :=
  match Index s sep with
  | Some i => (take i s, drop (i + String.length sep) s, true)
  | None => (s, EmptyString, false)
  end.

(** [strings.Count(s, sep)] for a one-byte separator. *)
Fixpoint CountByte (s : string) (sep : ascii) : nat :=
  match s with
  | EmptyString => O
  | String c s' => (if Ascii.eqb c sep then 1 else 0) + CountByte s' sep
  end%nat.

Definition lower (c : ascii) : ascii :=
  if between "A" "Z" c then ascii_of_N (byte c + 32) else c.

(** [strings.ToLower] on the ASCII strings it is applied to (a scheme
    holds letters, digits, [+], [-] and [.] only). *)
Fixpoint ToLower (s : string) : string :=
  match s with
  | EmptyString => EmptyString
  | String c s' => String (lower c) (ToLower s')
  end.

(** [strings.Split(s, sep)] for a one-byte separator: the code only
    splits on a newline.  The result is never empty. *)
Fixpoint Split (s : string) (sep : ascii) : list string :=
  match s with
  | EmptyString => [EmptyString]
  | String c s' =>
      if Ascii.eqb c sep then EmptyString :: Split s' sep
      else match Split s' sep with
           | x :: xs => String c x :: xs
           | [] => [String c EmptyString]
           end
  end.

(** [strings.Join(elems, sep)]. *)
Fixpoint Join (elems : list string) (sep : string) : string :=
  match elems with
  | [] => EmptyString
  | [x] => x
  | x :: rest => x +:+ sep +:+ Join rest sep
  end.

(** White space as [unicode.IsSpace] sees it in a UTF-8 string: the six
    ASCII characters, U+0085 and U+00A0 (two bytes each), and the
    three-byte encodings of U+1680, U+2000..U+200A, U+2028, U+2029,
    U+202F, U+205F and U+3000.  [TrimLeftSpace] strips the leading
    white-space runes one at a time. *)
Definition ascii_space (c : ascii) : bool :=
  let n := byte c in ((9 <=? n) && (n <=? 13) || (n =? 32))%N.

Definition space2 (a b : ascii) : bool :=
  ((byte a =? 194) && ((byte b =? 133) || (byte b =? 160)))%N.

Definition space3 (a b c : ascii) : bool :=
  let '(x, y, z) := (byte a, byte b, byte c) in
  ((x =? 225) && (y =? 154) && (z =? 128)
   || (x =? 226) && (y =? 128)
      && ((128 <=? z) && (z <=? 138) || (z =? 168) || (z =? 169) || (z =? 175))
   || (x =? 226) && (y =? 129) && (z =? 159)
   || (x =? 227) && (y =? 128) && (z =? 128))%N.

(** Strip white-space runes from the front: one ASCII byte, or the two
    or three bytes of an encoding, recognised by [sp2] and [sp3]. *)
Fixpoint trim_runes (sp2 : ascii -> ascii -> bool)
    (sp3 : ascii -> ascii -> ascii -> bool) (s : string) : string :=
  match s with
  | EmptyString => EmptyString
  | String a s1 =>
      if ascii_space a then trim_runes sp2 sp3 s1
      else match s1 with
           | EmptyString => s
           | String b s2 =>
               if sp2 a b then trim_runes sp2 sp3 s2
               else match s2 with
                    | EmptyString => s
                    | String c s3 =>
                        if sp3 a b c then trim_runes sp2 sp3 s3 else s
                    end
           end
  end.

Definition TrimLeftSpace : string -> string := trim_runes space2 space3.

(** The same on the reversed string, where the bytes of a rune come in
    reverse order. *)
Definition TrimLeftSpace_rev : string -> string :=
  trim_runes (fun a b => space2 b a) (fun a b c => space3 c b a).

Definition TrimSpace (s : string) : string :=
  rev (TrimLeftSpace_rev (rev (TrimLeftSpace s))).

End strings.

(** ** Package [net/url] (Go 1.24, the toolchain the repository builds with)

    [Wireguard.Parse] and [Subscription.FetchAll] both start with
    [url.Parse]; the decoder also uses [Userinfo.String], [URL.Query]
    and [url.PathUnescape]. *)

Module url.

Import strings.

Inductive encoding : Set :=
| encodePath | encodePathSegment | encodeHost | encodeZone
| encodeUserPassword | encodeQueryComponent | encodeFragment.

Definition encoding_eqb (a b : encoding) : bool :=
  match a, b with
  | encodePath, encodePath | encodePathSegment, encodePathSegment
  | encodeHost, encodeHost | encodeZone, encodeZone
  | encodeUserPassword, encodeUserPassword
  | encodeQueryComponent, encodeQueryComponent
  | encodeFragment, encodeFragment => true
  | _, _ => false
  end.

Definition dquote : ascii := ascii_of_N 34.

Definition is_one_of (c : ascii) (cs : list ascii) : bool :=
  existsb (Ascii.eqb c) cs.

Definition ishex (c : ascii) : bool :=
  between "0" "9" c || between "a" "f" c || between "A" "F" c.

Definition unhex (c : ascii) : N :=
  if between "0" "9" c then byte c - 48
  else if between "a" "f" c then byte c - 97 + 10
  else if between "A" "F" c then byte c - 65 + 10
  else 0.

Definition shouldEscape (c : ascii) (mode : encoding) : bool :=
  if between "a" "z" c || between "A" "Z" c || between "0" "9" c then false
  else if (encoding_eqb mode encodeHost || encoding_eqb mode encodeZone)
          && is_one_of c ["!"; "$"; "&"; "'"; "("; ")"; "*"; "+"; ","; ";";
                          "="; ":"; "["; "]"; "<"; ">"; dquote]%char
  then false
  else if is_one_of c ["-"; "_"; "."; "~"]%char then false
  else if is_one_of c ["$"; "&"; "+"; ","; "/"; ":"; ";"; "="; "?"; "@"]%char
  then match mode with
       | encodePath => Ascii.eqb c "?"
       | encodePathSegment => is_one_of c ["/"; ";"; ","; "?"]%char
       | encodeUserPassword => is_one_of c ["@"; "/"; "?"; ":"]%char
       | encodeQueryComponent => true
       | encodeFragment => false
       | encodeHost | encodeZone => true
       end
  else if encoding_eqb mode encodeFragment
          && is_one_of c ["!"; "("; ")"; "*"]%char
  then false
  else true.

(** [unescape]: Go validates in a first pass and rewrites in a second;
    the first malformed position decides the error in both. *)
Fixpoint unescape (s : string) (mode : encoding) : result string :=
  match s with
  | EmptyString => Ok EmptyString
  | String c s1 =>
      if Ascii.eqb c "%" then
        match s1 with
        | String h1 (String h2 rest) =>
            if negb (ishex h1 && ishex h2) then
              Err (url_EscapeError (take 3 s))
            else if encoding_eqb mode encodeHost && (unhex h1 <? 8)%N
                    && negb (eqb (take 3 s) "%25") then
              Err (url_EscapeError (take 3 s))
            else
              let v := ascii_of_N (unhex h1 * 16 + unhex h2) in
              if encoding_eqb mode encodeZone
                 && negb (eqb (take 3 s) "%25")
                 && negb (Ascii.eqb v " ") && shouldEscape v encodeHost then
                Err (url_EscapeError (take 3 s))
              else
                match unescape rest mode with
                | Ok t => Ok (String v t)
                | Err e => Err e
                end
        | _ => Err (url_EscapeError (take 3 s))
        end
      else if Ascii.eqb c "+" then
        match unescape s1 mode with
        | Ok t => Ok (String (if encoding_eqb mode encodeQueryComponent
                              then " "%char else "+"%char) t)
        | Err e => Err e
        end
      else if (encoding_eqb mode encodeHost || encoding_eqb mode encodeZone)
              && (byte c <? 128)%N && shouldEscape c encodeHost then
        Err (url_InvalidHostError (String c EmptyString))
      else
        match unescape s1 mode with
        | Ok t => Ok (String c t)
        | Err e => Err e
        end
  end.

Definition QueryUnescape (s : string) : result string :=
  unescape s encodeQueryComponent.

Definition PathUnescape (s : string) : result string :=
  unescape s encodePathSegment.

Definition upperhex (n : N) : ascii :=
  if (n <? 10)%N then ascii_of_N (48 + n) else ascii_of_N (65 + n - 10).

Fixpoint escape (s : string) (mode : encoding) : string :=
  match s with
  | EmptyString => EmptyString
  | String c s' =>
      if shouldEscape c mode then
        if Ascii.eqb c " " && encoding_eqb mode encodeQueryComponent then
          String "+" (escape s' mode)
        else
          String "%" (String (upperhex (byte c / 16))
                        (String (upperhex (byte c mod 16)) (escape s' mode)))
      else String c (escape s' mode)
  end.

Record Userinfo : Set := mkUserinfo {
  username : string;
  password : string;
  passwordSet : bool }.

Definition User (username : string) : Userinfo :=
  mkUserinfo username EmptyString false.

Definition UserPassword (username password : string) : Userinfo :=
  mkUserinfo username password true.

(** [Userinfo.String]; the receiver may be nil. *)
Definition Userinfo_String (u : option Userinfo) : string :=
  match u with
  | None => EmptyString
  | Some u =>
      let s := escape (username u) encodeUserPassword in
      if passwordSet u
      then s +:+ ":" +:+ escape (password u) encodeUserPassword
      else s
  end.

Record URL : Set := mkURL {
  Scheme : string;
  Opaque : string;
  User_ : option Userinfo;
  Host : string;
  Path : string;
  RawPath : string;
  OmitHost : bool;
  ForceQuery : bool;
  RawQuery : string;
  Fragment : string;
  RawFragment : string }.

Definition new_URL : URL :=
  mkURL EmptyString EmptyString None EmptyString EmptyString EmptyString
        false false EmptyString EmptyString EmptyString.

(** [URL.IsAbs]. *)
Definition IsAbs (u : URL) : bool := negb (eqb (Scheme u) EmptyString).

Definition stringContainsCTLByte (s : string) : bool :=
  existsb (fun c => (byte c <? 32)%N || (byte c =? 127)%N)
          (list_ascii_of_string s).

(** [getScheme]: the index of the colon that ends the scheme, if any. *)
Fixpoint getScheme_from (i : nat) (s : string) : result (option nat) :=
  match s with
  | EmptyString => Ok None
  | String c s' =>
      if between "a" "z" c || between "A" "Z" c then getScheme_from (S i) s'
      else if between "0" "9" c || is_one_of c ["+"; "-"; "."]%char then
        match i with O => Ok None | S _ => getScheme_from (S i) s' end
      else if Ascii.eqb c ":" then
        match i with
        | O => Err (errors_New "missing protocol scheme")
        | S _ => Ok (Some i)
        end
      else Ok None
  end.

Definition getScheme (rawURL : string) : result (string * string) :=
  match getScheme_from O rawURL with
  | Err e => Err e
  | Ok None => Ok (EmptyString, rawURL)
  | Ok (Some i) => Ok (take i rawURL, drop (S i) rawURL)
  end.

Definition validOptionalPort (port : string) : bool :=
  match port with
  | EmptyString => true
  | String c digits =>
      Ascii.eqb c ":"
      && forallb (between "0" "9") (list_ascii_of_string digits)
  end.

Definition validUserinfo (s : string) : bool :=
  forallb (fun r =>
             between "A" "Z" r || between "a" "z" r || between "0" "9" r
             || is_one_of r ["-"; "."; "_"; ":"; "~"; "!"; "$"; "&"; "'";
                             "("; ")"; "*"; "+"; ","; ";"; "="; "%"; "@"]%char)
          (list_ascii_of_string s).

Definition parseHost (host : string) : result string :=
  let plain := unescape host encodeHost in
  if HasPrefix host "[" then
    match LastIndex host "]" with
    | None => Err (errors_New "missing ']' in host")
    | Some i =>
        let colonPort := drop (S i) host in
        if negb (validOptionalPort colonPort) then
          Err (Errorf "invalid port %q after host" [AStr colonPort])
        else
          match Index (take i host) "%25" with
          | Some zone =>
              match unescape (take zone host) encodeHost with
              | Err e => Err e
              | Ok host1 =>
                  match unescape (take (i - zone) (drop zone host)) encodeZone with
                  | Err e => Err e
                  | Ok host2 =>
                      match unescape (drop i host) encodeHost with
                      | Err e => Err e
                      | Ok host3 => Ok (host1 +:+ host2 +:+ host3)
                      end
                  end
              end
          | None => plain
          end
    end
  else
    match LastIndex host ":" with
    | Some i =>
        let colonPort := drop i host in
        if negb (validOptionalPort colonPort) then
          Err (Errorf "invalid port %q after host" [AStr colonPort])
        else plain
    | None => plain
    end.

Definition parseAuthority (authority : string)
  : result (option Userinfo * string) :=
  let i := LastIndex authority "@" in
  match parseHost (match i with
                   | None => authority
                   | Some i => drop (S i) authority
                   end) with
  | Err e => Err e
  | Ok host =>
      match i with
      | None => Ok (None, host)
      | Some i =>
          let userinfo := take i authority in
          if negb (validUserinfo userinfo) then
            Err (errors_New "net/url: invalid userinfo")
          else if negb (Contains userinfo ":") then
            match unescape userinfo encodeUserPassword with
            | Err e => Err e
            | Ok userinfo => Ok (Some (User userinfo), host)
            end
          else
            let '(username, password, _) := Cut userinfo ":" in
            match unescape username encodeUserPassword with
            | Err e => Err e
            | Ok username =>
                match unescape password encodeUserPassword with
                | Err e => Err e
                | Ok password => Ok (Some (UserPassword username password), host)
                end
            end
      end
  end.

Definition setPath (u : URL) (p : string) : result URL :=
  match unescape p encodePath with
  | Err e => Err e
  | Ok path =>
      Ok (mkURL (Scheme u) (Opaque u) (User_ u) (Host u) path
                (if eqb p (escape path encodePath) then EmptyString else p)
                (OmitHost u) (ForceQuery u) (RawQuery u)
                (Fragment u) (RawFragment u))
  end.

Definition setFragment (u : URL) (f : string) : result URL :=
  match unescape f encodeFragment with
  | Err e => Err e
  | Ok frag =>
      Ok (mkURL (Scheme u) (Opaque u) (User_ u) (Host u) (Path u) (RawPath u)
                (OmitHost u) (ForceQuery u) (RawQuery u) frag
                (if eqb f (escape frag encodeFragment) then EmptyString else f))
  end.

(** The unexported [parse(rawURL, viaRequest)]. *)
Definition parse (rawURL : string) (viaRequest : bool) : result URL :=
  if stringContainsCTLByte rawURL then
    Err (errors_New "net/url: invalid control character in URL")
  else if eqb rawURL EmptyString && viaRequest then
    Err (errors_New "empty url")
  else if eqb rawURL "*" then
    Ok (mkURL EmptyString EmptyString None EmptyString "*" EmptyString
              false false EmptyString EmptyString EmptyString)
  else
    match getScheme rawURL with
    | Err e => Err e
    | Ok (scheme, rest) =>
        let scheme := ToLower scheme in
        let '(rest, forceQuery, rawQuery) :=
          if HasSuffix rest "?" && Nat.eqb (CountByte rest "?") 1 then
            (take (String.length rest - 1) rest, true, EmptyString)
          else
            let '(before, after, _) := Cut rest "?" in (before, false, after) in
        let u0 := mkURL scheme EmptyString None EmptyString EmptyString
                        EmptyString false forceQuery rawQuery
                        EmptyString EmptyString in
        let rootless := negb (HasPrefix rest "/") in
        if rootless && negb (eqb scheme EmptyString) then
          (* rootless paths are opaque *)
          Ok (mkURL scheme rest None EmptyString EmptyString EmptyString
                    false forceQuery rawQuery EmptyString EmptyString)
        else if rootless && viaRequest then
          Err (errors_New "invalid URI for request")
        else if rootless && Contains (fst (fst (Cut rest "/"))) ":" then
          Err (errors_New "first path segment in URL cannot contain colon")
        else if (negb (eqb scheme EmptyString)
                 || negb viaRequest && negb (HasPrefix rest "///"))
                && HasPrefix rest "//" then
          let authority := drop 2 rest in
          let '(authority, rest) :=
            match Index authority "/" with
            | Some i => (take i authority, drop i authority)
            | None => (authority, EmptyString)
            end in
          match parseAuthority authority with
          | Err e => Err e
          | Ok (user, host) =>
              setPath (mkURL scheme EmptyString user host EmptyString
                             EmptyString false forceQuery rawQuery
                             EmptyString EmptyString) rest
          end
        else if negb (eqb scheme EmptyString) && HasPrefix rest "/" then
          setPath (mkURL scheme EmptyString None EmptyString EmptyString
                         EmptyString true forceQuery rawQuery
                         EmptyString EmptyString) rest
        else setPath u0 rest
    end.

(** [url.Parse]. *)
Definition Parse (rawURL : string) : result URL :=
  let '(u, frag, _) := Cut rawURL "#" in
  match parse u false with
  | Err e => Err (url_Error "parse" u e)
  | Ok url =>
      if eqb frag EmptyString then Ok url
      else match setFragment url frag with
           | Err e => Err (url_Error "parse" rawURL e)
           | Ok url => Ok url
           end
  end.

(** [url.Values] is a [map[string][]string]. *)
Definition Values : Type := gmap string (list string).

(** One round of the loop of [parseQuery] on the segment before the
    next ampersand. *)
Definition parseQuery_step (m : Values) (key : string) : Values :=
  if Contains key ";" then m
  else if eqb key EmptyString then m
  else
    let '(key, value, _) := Cut key "=" in
    match QueryUnescape key with
    | Err _ => m
    | Ok key =>
        match QueryUnescape value with
        | Err _ => m
        | Ok value => <[key := (default [] (m !! key)) ++ [value]]> m
        end
    end.

(** [URL.Query]: [ParseQuery] with its error dropped.  The loop cuts
    the query at every ampersand, which is a left fold over the split. *)
Definition Query (u : URL) : Values :=
  if eqb (RawQuery u) EmptyString then ∅
  else fold_left parseQuery_step (Split (RawQuery u) "&") ∅.

End url.

(** ** Package [encoding/base64] and [utils.Base64Decode] *)

Module base64.

Import strings.

(** The alphabet of the standard encoding (RFC 4648, section 4). *)
Definition encodeStd (v : N) : ascii :=
  if (v <? 26)%N then ascii_of_N (65 + v)
  else if (v <? 52)%N then ascii_of_N (97 + (v - 26))
  else if (v <? 62)%N then ascii_of_N (48 + (v - 52))
  else if (v =? 62)%N then "+"%char
  else "/"%char.

Definition decodeStd (c : ascii) : option N :=
  if between "A" "Z" c then Some (byte c - 65)%N
  else if between "a" "z" c then Some (byte c - 97 + 26)%N
  else if between "0" "9" c then Some (byte c - 48 + 52)%N
  else if Ascii.eqb c "+" then Some 62%N
  else if Ascii.eqb c "/" then Some 63%N
  else None.

(** [StdEncoding.EncodeToString]: three bytes give four characters, the
    last group is padded with [=]. *)
Fixpoint EncodeToString (src : string) : string :=
  match src with
  | EmptyString => EmptyString
  | String a EmptyString =>
      let x := byte a in
      String (encodeStd (x / 4))
        (String (encodeStd (x mod 4 * 16)) "==")
  | String a (String b EmptyString) =>
      let '(x, y) := (byte a, byte b) in
      String (encodeStd (x / 4))
        (String (encodeStd (x mod 4 * 16 + y / 16))
           (String (encodeStd (y mod 16 * 4)) "="))
  | String a (String b (String c rest)) =>
      let '(x, y, z) := (byte a, byte b, byte c) in
      String (encodeStd (x / 4))
        (String (encodeStd (x mod 4 * 16 + y / 16))
           (String (encodeStd (y mod 16 * 4 + z / 64))
              (String (encodeStd (z mod 64)) (EncodeToString rest))))
  end%N.

Definition CorruptInputError : error := errors_New "illegal base64 data".

(** Carriage returns and line feeds are skipped by the decoder. *)
Fixpoint skip_newlines (s : string) : string :=
  match s with
  | EmptyString => EmptyString
  | String c s' =>
      if Ascii.eqb c "010" || Ascii.eqb c "013" then skip_newlines s'
      else String c (skip_newlines s')
  end.

Fixpoint decodeQuanta (s : string) : result string :=
  match s with
  | EmptyString => Ok EmptyString
  | String c1 (String c2 (String c3 (String c4 rest))) =>
      match decodeStd c1, decodeStd c2 with
      | Some v1, Some v2 =>
          let b1 := ascii_of_N (v1 * 4 + v2 / 16) in
          if Ascii.eqb c3 "=" then
            if Ascii.eqb c4 "=" && eqb rest EmptyString
            then Ok (String b1 EmptyString)
            else Err CorruptInputError
          else
            match decodeStd c3 with
            | None => Err CorruptInputError
            | Some v3 =>
                let b2 := ascii_of_N (v2 mod 16 * 16 + v3 / 4) in
                if Ascii.eqb c4 "=" then
                  if eqb rest EmptyString
                  then Ok (String b1 (String b2 EmptyString))
                  else Err CorruptInputError
                else
                  match decodeStd c4 with
                  | None => Err CorruptInputError
                  | Some v4 =>
                      let b3 := ascii_of_N (v3 mod 4 * 64 + v4) in
                      match decodeQuanta rest with
                      | Ok t => Ok (String b1 (String b2 (String b3 t)))
                      | Err e => Err e
                      end
                  end
            end
      | _, _ => Err CorruptInputError
      end
  | _ => Err CorruptInputError
  end%N.

(** [StdEncoding.DecodeString]: padded quanta of four characters, no
    check of the unused trailing bits. *)
Definition DecodeString (s : string) : result string :=
  decodeQuanta (skip_newlines s).

End base64.

Module utils.

(** Modelled from the spec: [utils.Base64Decode] is not among the
    sources; section 4.1 step 4 says the body is decoded "as standard
    base64", which is [base64.StdEncoding.DecodeString]. *)
Definition Base64Decode (b64 : string) : result string :=
  base64.DecodeString b64.

End utils.


(** ** Package [database/sql]: nullable columns *)

Module sql.

Module NullString.
Record t : Set := mk { String : string; Valid : bool }.
End NullString.

Module NullInt64.
Record t : Set := mk { Int64 : Z; Valid : bool }.
End NullInt64.

(** An instant of [time.Time] is an abstract tick. *)
Module NullTime.
Record t : Set := mk { Time : Z; Valid : bool }.
End NullTime.

End sql.

(** ** Package [database]: the rows the command reads and writes

    The package is not among the sources; the fields are the ones the
    commands read and assign. *)

Module database.

Module Subscription.
Record t : Set := mk {
  ID : Z;
  URL : string;
  Remark : sql.NullString.t;
  UserAgent : sql.NullString.t;
  Enabled : bool;
  LastFetchedAt : sql.NullTime.t }.
End Subscription.

Module SubscriptionConfig.
Record t : Set := mk {
  ID : Z;
  SubscriptionID : sql.NullInt64.t;
  ConfigLink : string;
  Protocol : sql.NullString.t;
  Remark : sql.NullString.t;
  LastSeenAt : sql.NullTime.t }.
End SubscriptionConfig.

End database.

(** ** The outside world

    Every call that leaves the process is recorded in a trace, oldest
    event first.  The answer to a call is a function of the trace up to
    and including the call, so that an environment may answer the same
    request differently at different times. *)

Inductive loglevel : Set :=
| Success | Failure | Processing | Finished | Warning
| StdLog. (* the standard [log] package *)

(** What the server answered: the status line and what [io.ReadAll]
    makes of the body. *)
Record Response : Type := mkResponse {
  StatusCode : Z;
  Body : result string }.

Inductive event : Type :=
| EvSend (method : string) (u : url.URL)
         (userAgent : option string) (proxy : option string)
| EvLog (level : loglevel) (format : string) (args : list farg)
| EvListSubscriptions
| EvGetSubscriptionByID (id : Z)
| EvUpsertSubscriptionConfigs (configs : list database.SubscriptionConfig.t)
| EvUpdateSubscriptionFetched (id : Z) (now : Z)
| EvParseFileByNewline (fileName : string)
| EvWriteIntoFile (fileName : string) (content : string).

Definition trace : Type := list event.

Record Env : Type := mkEnv {
  (* req: the answer to the request just sent *)
  http_Send : trace -> result Response;
  (* database *)
  db_ListSubscriptions : trace -> result (list database.Subscription.t);
  db_GetSubscriptionByID : trace -> result database.Subscription.t;
  db_UpsertSubscriptionConfigs : trace -> option error;
  db_UpdateSubscriptionFetched : trace -> option error;
  (* files: the content of the file just opened, the fate of a write *)
  fs_ReadFile : trace -> string;
  fs_WriteIntoFile : trace -> option error;
  (* time.Now *)
  time_Now : trace -> Z;
  (* the order in which the pool completes the submitted tasks *)
  pool_order : forall T : Type, list T -> list T }.

(** Stateful code threads the trace. *)
Definition M (A : Type) : Type := trace -> A * trace.

Definition ret {A} (a : A) : M A := fun w => (a, w).

Definition bind {A B} (m : M A) (k : A -> M B) : M B :=
  fun w => let '(a, w') := m w in k a w'.

Notation "'let*' x ':=' m 'in' k" := (bind m (fun x => k))
  (at level 10, x pattern, m at level 100, k at level 200).

Notation "m ';;' k" := (bind m (fun _ => k))
  (at level 100, k at level 200, right associativity).

(** A call: record it, then read the answer off the environment. *)
Definition call {A} (e : event) (answer : trace -> A) : M A :=
  fun w => (answer (w ++ [e]), w ++ [e]).

(** Reading the clock leaves no event. *)
Definition now (env : Env) : M Z := fun w => (time_Now env w, w).

(** [customlog.Printf] and [log.Printf]. *)
Definition Printf (level : loglevel) (format : string) (args : list farg)
  : M unit :=
  fun w => (tt, w ++ [EvLog level format args]).

Definition when (b : bool) (m : M unit) : M unit := if b then m else ret tt.

Definition nl : string := String "010" EmptyString.

(** ** Package [subs]: the retriever and the de-duplicator *)

Module Subscription.
Record t : Set := mk {
  Remark : string;
  Url : string;
  UserAgent : string;
  Method : string;
  ConfigLinks : list string;
  Proxy : string }.

Definition set_Method (s : t) (m : string) : t :=
  mk (Remark s) (Url s) (UserAgent s) m (ConfigLinks s) (Proxy s).

Definition set_ConfigLinks (s : t) (l : list string) : t :=
  mk (Remark s) (Url s) (UserAgent s) (Method s) l (Proxy s).
End Subscription.

Definition nonempty (s : string) : option string :=
  if strings.eqb s EmptyString then None else Some s.

(** The loop that keeps the trimmed non-empty lines (FetchAll, the
    "filtered" slice). *)
Fixpoint filter_lines (links : list string) : list string :=
  match links with
  | [] => []
  | l :: rest =>
      let trimmed := strings.TrimSpace l in
      if negb (strings.eqb trimmed EmptyString)
      then trimmed :: filter_lines rest
      else filter_lines rest
  end.

(** The split of the body, decoded when it decodes. *)
Definition body_lines (body : string) : list string :=
  match utils.Base64Decode body with
  | Err _ => strings.Split body "010"
  | Ok decoded => strings.Split decoded "010"
  end.

(** What [FetchAll] makes of a body it has read. *)
Definition body_links (body : string) : list string :=
  filter_lines (body_lines body).

Section Retriever.

Variable env : Env.

(** [(s *Subscription) FetchAll() ([]string, error)]: the receiver is
    updated in place, so it is returned with the result.  The request
    is sent to [u.String()]; the event keeps [u] itself. *)
Definition FetchAll (s : Subscription.t)
  : M (Subscription.t * result (list string)) :=
  match url.Parse (Subscription.Url s) with
  | Err err =>
      ret (s, Err (Errorf "invalid subscription URL %q: %w"
                          [AStr (Subscription.Url s); AErr err]))
  | Ok u =>
      let s := if strings.eqb (Subscription.Method s) EmptyString
               then Subscription.set_Method s "GET" else s in
      let* response :=
        call (EvSend (Subscription.Method s) u
                     (nonempty (Subscription.UserAgent s))
                     (nonempty (Subscription.Proxy s)))
             (http_Send env) in
      match response with
      | Err err => ret (s, Err (Errorf "failed to fetch subscription: %w" [AErr err]))
      | Ok response =>
          if (StatusCode response <? 200) || (StatusCode response >=? 300) then
            ret (s, Err (Errorf "server returned HTTP %d for %s"
                                [AInt (StatusCode response);
                                 AStr (Subscription.Url s)]))
          else
            match Body response with
            | Err err =>
                ret (s, Err (Errorf "failed to read response body: %w" [AErr err]))
            | Ok body =>
                when (negb (is_Ok (utils.Base64Decode body)))
                     (Printf Processing
                        ("Couldn't decode the body! let's try parsing without decoding..." +:+ nl)
                        []) ;;
                let filtered := body_links body in
                ret (Subscription.set_ConfigLinks s filtered, Ok filtered)
            end
      end
  end.

(** The loop of [RemoveDuplicate]: the keys seen so far and the list
    built so far. *)
Definition RemoveDuplicate_step (st : gmap string bool * list string)
    (item : string) : gmap string bool * list string :=
  let '(allKeys, list) := st in
  match allKeys !! item with
  | Some _ => st
  | None => (<[item := true]> allKeys, list ++ [item])
  end.

Definition RemoveDuplicate_loop (links : list string) : list string :=
  snd (fold_left RemoveDuplicate_step links (∅, [])).

(** [(s *Subscription) RemoveDuplicate(verbose bool)]. *)
Definition RemoveDuplicate (s : Subscription.t) (verbose : bool)
  : M Subscription.t :=
  let list := RemoveDuplicate_loop (Subscription.ConfigLinks s) in
  when verbose
       (Printf StdLog ("Removed %d duplicate configs!" +:+ nl)
               [AInt (len (Subscription.ConfigLinks s) - len list)]) ;;
  ret (Subscription.set_ConfigLinks s list).

End Retriever.

(** ** Package [protocol] and the decoder interface

    [protocol.GeneralConfig], the [Protocol] interface and the
    [Wireguard] struct are declared outside the sources; they are
    modelled by what the code reads and assigns. *)

Module protocol.

Module GeneralConfig.
Record t : Set := mk {
  Protocol : string;
  Address : string;
  Remark : string }.

(** The zero value of the named result [g]. *)
Definition zero : t := mk EmptyString EmptyString EmptyString.
End GeneralConfig.

End protocol.

(** A value behind the [Protocol] interface: a receiver and the methods
    the orchestrator calls on it.  [Parse] updates the receiver. *)
Record Protocol : Type := mkProtocol {
  self : Type;
  this : self;
  Name : self -> string;
  Parse : self -> outcome (self * option error);
  ConvertToGeneralConfig : self -> outcome protocol.GeneralConfig.t }.

Module Wireguard.

Record t : Set := mk {
  Remark : string;
  PublicKey : string;
  SecretKey : string;
  Endpoint : string;
  LocalAddress : string;
  Mtu : Z;
  OrigLink : string }.

Inductive field : Set :=
| FRemark | FPublicKey | FSecretKey | FEndpoint | FLocalAddress | FMtu
| FOrigLink.

(** [v.Type().String()] of a field. *)
Inductive kind : Set := string_kind | int32_kind.

Definition kind_of (f : field) : kind :=
  match f with FMtu => int32_kind | _ => string_kind end.

(** [v.SetString(value)] on the field. *)
Definition SetString (w : t) (f : field) (value : string) : t :=
  match f with
  | FRemark => mk value (PublicKey w) (SecretKey w) (Endpoint w) (LocalAddress w) (Mtu w) (OrigLink w)
  | FPublicKey => mk (Remark w) value (SecretKey w) (Endpoint w) (LocalAddress w) (Mtu w) (OrigLink w)
  | FSecretKey => mk (Remark w) (PublicKey w) value (Endpoint w) (LocalAddress w) (Mtu w) (OrigLink w)
  | FEndpoint => mk (Remark w) (PublicKey w) (SecretKey w) value (LocalAddress w) (Mtu w) (OrigLink w)
  | FLocalAddress => mk (Remark w) (PublicKey w) (SecretKey w) (Endpoint w) value (Mtu w) (OrigLink w)
  | FOrigLink => mk (Remark w) (PublicKey w) (SecretKey w) (Endpoint w) (LocalAddress w) (Mtu w) value
  | FMtu => w
  end.

(** Conversion to [int32] keeps the low 32 bits. *)
Definition int32 (x : Z) : Z := (x + 2 ^ 31) mod 2 ^ 32 - 2 ^ 31.

(** [v.SetInt(x)] on the [int32] field. *)
Definition SetInt (w : t) (f : field) (x : Z) : t :=
  match f with
  | FMtu => mk (Remark w) (PublicKey w) (SecretKey w) (Endpoint w) (LocalAddress w) (int32 x) (OrigLink w)
  | _ => w
  end.

Definition NewWireguard_t (link : string) : t :=
  mk EmptyString EmptyString EmptyString EmptyString EmptyString 0 link.

Section Decoder.

(** [protocol.WireguardIdentifier]. *)
Variable WireguardIdentifier : string.

(** The struct declaration: the fields in order, each with the value of
    its [json] tag. *)
Variable fields : list (field * string).

(** [fmt.Sscanf(value, "%d", &intValue)]: the integer left in
    [intValue], zero when nothing was scanned. *)
Variable Sscanf_d : string -> Z.

Definition Name (w : t) : string := "wireguard".

(** One round of the loop over the fields. *)
Definition Parse_field (uri : url.URL) (w : t) (ft : field * string)
  : outcome t :=
  let '(f, tag) := ft in
  match url.Query uri !! tag with
  | None => Returns w
  | Some values =>
      match values with
      | [] => Panics (* values[0] *)
      | value :: _ =>
          match kind_of f with
          | string_kind => Returns (SetString w f value)
          | int32_kind => Returns (SetInt w f (Sscanf_d value))
          end
      end
  end.

Fixpoint Parse_fields (uri : url.URL) (fs : list (field * string)) (w : t)
  : outcome t :=
  match fs with
  | [] => Returns w
  | ft :: fs' =>
      match Parse_field uri w ft with
      | Panics => Panics
      | Returns w' => Parse_fields uri fs' w'
      end
  end.

(** [(w *Wireguard) Parse() error]. *)
Definition Parse (w : t) : outcome (t * option error) :=
  if negb (strings.HasPrefix (OrigLink w) WireguardIdentifier) then
    Returns (w, Some (Errorf "wireguard unreconized: %s" [AStr (OrigLink w)]))
  else
    match url.Parse (OrigLink w) with
    | Err err => Returns (w, Some err)
    | Ok uri =>
        match url.PathUnescape (url.Userinfo_String (url.User_ uri)) with
        | Err err0 => Returns (w, Some err0)
        | Ok unescapedSecretKey =>
            let w := SetString w FSecretKey unescapedSecretKey in
            let w := SetString w FEndpoint (url.Host uri) in
            match Parse_fields uri fields w with
            | Panics => Panics
            | Returns w =>
                let remark :=
                  match url.PathUnescape (url.Fragment uri) with
                  | Ok remark => remark
                  | Err _ => url.Fragment uri
                  end in
                Returns (SetString w FRemark remark, None)
            end
        end
    end.

(** [(w *Wireguard) ConvertToGeneralConfig()]. *)
Definition ConvertToGeneralConfig (w : t) : protocol.GeneralConfig.t :=
  let g := protocol.GeneralConfig.zero in
  let g := protocol.GeneralConfig.mk (Name w)
             (protocol.GeneralConfig.Address g)
             (protocol.GeneralConfig.Remark g) in
  let g := protocol.GeneralConfig.mk (protocol.GeneralConfig.Protocol g)
             (Endpoint w)
             (protocol.GeneralConfig.Remark g) in
  g.

(** [NewWireguard(link)] behind the interface. *)
Definition NewWireguard (link : string) : Protocol :=
  mkProtocol t (NewWireguard_t link) Name Parse
             (fun w => Returns (ConvertToGeneralConfig w)).

End Decoder.

End Wireguard.

(** ** The fetch command *)

(** [core.Core], as far as the command uses it: [CreateProtocol] picks
    the decoder of a link by its identifier, or fails, or panics. *)
Record Core : Type := mkCore {
  CreateProtocol : string -> outcome (result Protocol) }.

Module FetchConfig.
Record t : Set := mk {
  SubscriptionID : Z;
  SubscriptionURL : string;
  UserAgent : string;
  OutputFile : string;
  Proxy : string;
  FetchAll : bool;
  FileInput : string;
  Workers : Z }.
End FetchConfig.

Record FetchCommand : Type := mkFetchCommand {
  config : FetchConfig.t;
  core : Core }.

(** The counters and the list shared by the tasks of a pool. *)
Record PoolVars : Type := mkPoolVars {
  allConfigs : list database.SubscriptionConfig.t;
  totalRaw : Z;
  failedCount : Z;
  doneCount : Z }.

Definition PoolVars_zero : PoolVars := mkPoolVars [] 0 0 0.

Definition add_failed (v : PoolVars) : PoolVars :=
  mkPoolVars (allConfigs v) (totalRaw v) (failedCount v + 1) (doneCount v).

Definition add_done (v : PoolVars) : PoolVars :=
  mkPoolVars (allConfigs v) (totalRaw v) (failedCount v) (doneCount v + 1).

Definition add_configs (v : PoolVars)
    (dbConfigs : list database.SubscriptionConfig.t) (rawLinks : list string)
  : PoolVars :=
  mkPoolVars (allConfigs v ++ dbConfigs) (totalRaw v + len rawLinks)
             (failedCount v) (doneCount v).

Definition NullString_of (s : string) : sql.NullString.t :=
  sql.NullString.mk s (negb (strings.eqb s EmptyString)).

Definition NullString_zero : sql.NullString.t :=
  sql.NullString.mk EmptyString false.

Definition set_Protocol_Remark (dbConf : database.SubscriptionConfig.t)
    (g : protocol.GeneralConfig.t) : database.SubscriptionConfig.t :=
  database.SubscriptionConfig.mk
    (database.SubscriptionConfig.ID dbConf)
    (database.SubscriptionConfig.SubscriptionID dbConf)
    (database.SubscriptionConfig.ConfigLink dbConf)
    (NullString_of (protocol.GeneralConfig.Protocol g))
    (NullString_of (protocol.GeneralConfig.Remark g))
    (database.SubscriptionConfig.LastSeenAt dbConf).

(** The closure of [parseLinks] that decodes one link; its deferred
    [recover] turns a panic into a plain return. *)
Definition parse_protocol_info (c : Core) (trimmedLink : string)
    (dbConf : database.SubscriptionConfig.t) : database.SubscriptionConfig.t :=
  match CreateProtocol c trimmedLink with
  | Panics => dbConf
  | Returns (Err _) => dbConf
  | Returns (Ok proto) =>
      match Parse proto (this proto) with
      | Panics => dbConf
      | Returns (_, Some _) => dbConf
      | Returns (parsed, None) =>
          match ConvertToGeneralConfig proto parsed with
          | Panics => dbConf
          | Returns g => set_Protocol_Remark dbConf g
          end
      end
  end.

Fixpoint parseLinks_loop (c : Core) (subID : sql.NullInt64.t) (now : Z)
    (rawLinks : list string) : list database.SubscriptionConfig.t :=
  match rawLinks with
  | [] => []
  | link :: rest =>
      let trimmedLink := strings.TrimSpace link in
      if strings.eqb trimmedLink EmptyString then
        parseLinks_loop c subID now rest
      else
        let dbConf :=
          database.SubscriptionConfig.mk 0 subID trimmedLink
            NullString_zero NullString_zero (sql.NullTime.mk now true) in
        parse_protocol_info c trimmedLink dbConf
          :: parseLinks_loop c subID now rest
  end.

(** The display name of a subscription: [fmt.Sprintf] of its
    identity, or its remark. *)
Inductive remark_text : Set :=
| RemarkOfID (id : Z)
| RemarkText (s : string).

(** The flags of the group [id url all file] that the command line
    names.  pflag marks a named flag as changed even when it is given
    its default value; a flag whose value differs from its default was
    named in any case. *)
Module Given.
Record t : Set := mk {
  id : bool;
  url : bool;
  all : bool;
  file : bool }.
End Given.

Section FetchCommand.

Variable env : Env.

(** Modelled from the spec: [utils.ParseFileByNewline] is not among the
    sources; sections 4.4 and 6 say the file is plain text with one URL
    per line, read through the same non-empty-line filtering as the
    retriever's step 5. *)
Definition ParseFileByNewline (fileName : string) : M (list string) :=
  let* content := call (EvParseFileByNewline fileName) (fs_ReadFile env) in
  ret (filter_lines (strings.Split content "010")).

(** [(fc *FetchCommand) validateFlags]. *)
Definition validateFlags (fc : FetchCommand) : option error :=
  let c := config fc in
  if (FetchConfig.SubscriptionID c =? 0)
     && strings.eqb (FetchConfig.SubscriptionURL c) EmptyString
     && negb (FetchConfig.FetchAll c)
     && strings.eqb (FetchConfig.FileInput c) EmptyString then
    Some (Errorf "one of --id, --url, --all, or --file must be provided" [])
  else if FetchConfig.Workers c <? 1 then
    Some (Errorf "--workers must be at least 1, got %d"
                 [AInt (FetchConfig.Workers c)])
  else if FetchConfig.Workers c >? 20 then
    Some (Errorf "--workers must be at most 20, got %d"
                 [AInt (FetchConfig.Workers c)])
  else None.

(** [(fc *FetchCommand) parseLinks]. *)
Definition parseLinks (fc : FetchCommand) (rawLinks : list string)
    (subID : sql.NullInt64.t) : M (list database.SubscriptionConfig.t) :=
  let* now := now env in
  ret (parseLinks_loop (core fc) subID now rawLinks).

(** [(fc *FetchCommand) saveConfigsToFile]. *)
Definition saveConfigsToFile (fc : FetchCommand)
    (configs : list database.SubscriptionConfig.t) : M (option error) :=
  let links := map database.SubscriptionConfig.ConfigLink configs in
  let content := strings.Join links nl +:+ nl in
  call (EvWriteIntoFile (FetchConfig.OutputFile (config fc)) content)
       (fs_WriteIntoFile env).

Definition UpsertSubscriptionConfigs
    (dbConfigs : list database.SubscriptionConfig.t) : M (option error) :=
  call (EvUpsertSubscriptionConfigs dbConfigs) (db_UpsertSubscriptionConfigs env).

Definition UpdateSubscriptionFetched (id : Z) : M (option error) :=
  let* t := now env in
  call (EvUpdateSubscriptionFetched id t) (db_UpdateSubscriptionFetched env).

(** [(fc *FetchCommand) doFetch]. *)
Definition doFetch (fc : FetchCommand) (sub : Subscription.t)
    (subscriptionID : sql.NullInt64.t) : M (option error) :=
  let* (sub, fetched) := FetchAll env sub in
  match fetched with
  | Err err => ret (Some (Errorf "failed to fetch configurations: %w" [AErr err]))
  | Ok rawLinks =>
      let* dbConfigs := parseLinks fc rawLinks subscriptionID in
      if len dbConfigs =? 0 then
        Printf Warning ("No valid configs found." +:+ nl) [] ;;
        ret None
      else
        let* saved := UpsertSubscriptionConfigs dbConfigs in
        match saved with
        | Some err =>
            ret (Some (Errorf "failed to save configurations to database: %w" [AErr err]))
        | None =>
            Printf Success
              ("Fetched %d links, saved/updated %d configs in the database." +:+ nl)
              [AInt (len rawLinks); AInt (len dbConfigs)] ;;
            (if sql.NullInt64.Valid subscriptionID then
               let* touched :=
                 UpdateSubscriptionFetched (sql.NullInt64.Int64 subscriptionID) in
               match touched with
               | Some err =>
                   Printf Warning
                     ("Failed to update last fetched timestamp: %v" +:+ nl)
                     [AErr err]
               | None => ret tt
               end
             else ret tt) ;;
            if negb (strings.eqb (FetchConfig.OutputFile (config fc)) EmptyString) then
              let* written := saveConfigsToFile fc dbConfigs in
              match written with
              | Some err =>
                  ret (Some (Errorf "failed to save configurations to file: %w" [AErr err]))
              | None =>
                  Printf Success ("%d configs have been written into %q" +:+ nl)
                    [AInt (len dbConfigs);
                     AStr (FetchConfig.OutputFile (config fc))] ;;
                  ret None
              end
            else ret None
        end
  end.

(** [(fc *FetchCommand) fetchSingle]: the modes --id and --url. *)
Definition fetchSingle (fc : FetchCommand) : M (option error) :=
  let c := config fc in
  let subToFetch := Subscription.mk "" "" "" "" [] "" in
  let finish (subToFetch : Subscription.t) (subscriptionID : sql.NullInt64.t) :=
    let subToFetch :=
      if negb (strings.eqb (FetchConfig.UserAgent c) EmptyString)
      then Subscription.mk (Subscription.Remark subToFetch)
             (Subscription.Url subToFetch) (FetchConfig.UserAgent c)
             (Subscription.Method subToFetch)
             (Subscription.ConfigLinks subToFetch)
             (Subscription.Proxy subToFetch)
      else subToFetch in
    let subToFetch :=
      Subscription.mk (Subscription.Remark subToFetch)
        (Subscription.Url subToFetch) (Subscription.UserAgent subToFetch)
        (Subscription.Method subToFetch) (Subscription.ConfigLinks subToFetch)
        (FetchConfig.Proxy c) in
    doFetch fc subToFetch subscriptionID in
  if negb (FetchConfig.SubscriptionID c =? 0) then
    let* found :=
      call (EvGetSubscriptionByID (FetchConfig.SubscriptionID c))
           (db_GetSubscriptionByID env) in
    match found with
    | Err err => ret (Some err)
    | Ok dbSub =>
        let subToFetch :=
          Subscription.mk "" (database.Subscription.URL dbSub)
            (sql.NullString.String (database.Subscription.UserAgent dbSub))
            "" [] "" in
        let subscriptionID :=
          sql.NullInt64.mk (database.Subscription.ID dbSub) true in
        Printf Processing ("Fetching from DB subscription ID %d: %s" +:+ nl)
          [AInt (database.Subscription.ID dbSub);
           AStr (database.Subscription.URL dbSub)] ;;
        finish subToFetch subscriptionID
    end
  else
    let subToFetch :=
      Subscription.mk "" (FetchConfig.SubscriptionURL c) "" "" [] "" in
    let subscriptionID := sql.NullInt64.mk 0 false in
    Printf Processing ("Fetching from URL: %s" +:+ nl)
      [AStr (Subscription.Url subToFetch)] ;;
    Printf Warning
      ("One-off fetch: configs will not be linked to any subscription." +:+ nl)
      [] ;;
    finish subToFetch subscriptionID.

(** The pool runs the submitted tasks to completion; the tasks touch
    the shared variables under the lock or atomically, so a run is the
    tasks one after the other in the order the pool completes them. *)
Fixpoint run_tasks {T} (task : T -> PoolVars -> M PoolVars)
    (tasks : list T) (v : PoolVars) : M PoolVars :=
  match tasks with
  | [] => ret v
  | x :: rest => let* v := task x v in run_tasks task rest v
  end.

Definition remark_arg (r : remark_text) : farg :=
  match r with
  | RemarkOfID id => ASprintf "#%d" [AInt id]
  | RemarkText s => AStr s
  end.

(** The task submitted for one enabled subscription. *)
Definition fetchAllSubscriptions_task (fc : FetchCommand) (n_enabled : Z)
    (sub : database.Subscription.t) (v : PoolVars) : M PoolVars :=
  let id := database.Subscription.ID sub in
  let remark :=
    if sql.NullString.Valid (database.Subscription.Remark sub)
       && negb (strings.eqb (sql.NullString.String (database.Subscription.Remark sub))
                            EmptyString)
    then RemarkText (sql.NullString.String (database.Subscription.Remark sub))
    else RemarkOfID id in
  let v := add_done v in
  let idx := doneCount v in
  Printf Processing ("[%d/%d] Fetching %q (%s)" +:+ nl)
    [AInt idx; AInt n_enabled; remark_arg remark;
     AStr (database.Subscription.URL sub)] ;;
  let subToFetch :=
    Subscription.mk "" (database.Subscription.URL sub)
      (if negb (strings.eqb (FetchConfig.UserAgent (config fc)) EmptyString)
       then FetchConfig.UserAgent (config fc)
       else sql.NullString.String (database.Subscription.UserAgent sub))
      "" [] (FetchConfig.Proxy (config fc)) in
  let* (_, fetched) := FetchAll env subToFetch in
  match fetched with
  | Err fetchErr =>
      Printf Failure ("Failed to fetch subscription %d (%s): %v" +:+ nl)
        [AInt id; remark_arg remark; AErr fetchErr] ;;
      ret (add_failed v)
  | Ok rawLinks =>
      let subID := sql.NullInt64.mk id true in
      let* dbConfigs := parseLinks fc rawLinks subID in
      if len dbConfigs >? 0 then
        let* saved := UpsertSubscriptionConfigs dbConfigs in
        match saved with
        | Some err =>
            Printf Failure ("Failed to save configs for subscription %d: %v" +:+ nl)
              [AInt id; AErr err] ;;
            ret (add_failed v)
        | None =>
            let* touched := UpdateSubscriptionFetched id in
            match touched with
            | Some err =>
                Printf Warning
                  ("Failed to update last fetched timestamp for %d: %v" +:+ nl)
                  [AInt id; AErr err]
            | None => ret tt
            end ;;
            Printf Success
              ("Subscription %d (%s): fetched %d links, saved %d configs." +:+ nl)
              [AInt id; remark_arg remark; AInt (len rawLinks);
               AInt (len dbConfigs)] ;;
            ret (add_configs v dbConfigs rawLinks)
        end
      else
        Printf Warning ("Subscription %d (%s): no valid configs found." +:+ nl)
          [AInt id; remark_arg remark] ;;
        ret (add_configs v dbConfigs rawLinks)
  end.

(** What both fan-out modes do once the pool has drained. *)
Definition finish_batch (fc : FetchCommand) (v : PoolVars)
    (failure : Z -> error) : M (option error) :=
  let failed := failedCount v in
  Printf Finished ("All done: %d links fetched, %d configs saved, %d failed." +:+ nl)
    [AInt (totalRaw v); AInt (len (allConfigs v)); AInt failed] ;;
  let report :=
    if failed >? 0 then ret (Some (failure failed)) else ret None in
  if negb (strings.eqb (FetchConfig.OutputFile (config fc)) EmptyString)
     && (len (allConfigs v) >? 0) then
    let* written := saveConfigsToFile fc (allConfigs v) in
    match written with
    | Some err =>
        ret (Some (Errorf "failed to save configurations to file: %w" [AErr err]))
    | None =>
        Printf Success ("%d configs have been written into %q" +:+ nl)
          [AInt (len (allConfigs v));
           AStr (FetchConfig.OutputFile (config fc))] ;;
        report
    end
  else report.

(** [(fc *FetchCommand) fetchAllSubscriptions]: the mode --all. *)
Definition fetchAllSubscriptions (fc : FetchCommand) : M (option error) :=
  let* listed := call EvListSubscriptions (db_ListSubscriptions env) in
  match listed with
  | Err err => ret (Some err)
  | Ok subs =>
      let enabled := List.filter database.Subscription.Enabled subs in
      if len enabled =? 0 then
        Printf Warning ("No enabled subscriptions found in the database." +:+ nl) [] ;;
        ret None
      else
        let workers := FetchConfig.Workers (config fc) in
        let workers := if workers >? len enabled then len enabled else workers in
        Printf Processing
          ("Fetching from %d enabled subscription(s) with %d worker(s)..." +:+ nl)
          [AInt (len enabled); AInt workers] ;;
        let* v :=
          run_tasks (fetchAllSubscriptions_task fc (len enabled))
                    (pool_order env _ enabled) PoolVars_zero in
        finish_batch fc v
          (fun failed =>
             Errorf "%d out of %d subscriptions failed to fetch"
                    [AInt failed; AInt (len enabled)])
  end.

(** The task submitted for one URL of the file. *)
Definition fetchFromFile_task (fc : FetchCommand) (n_urls : Z)
    (rawURL : string) (v : PoolVars) : M PoolVars :=
  let v := add_done v in
  let idx := doneCount v in
  Printf Processing ("[%d/%d] Fetching from %s" +:+ nl)
    [AInt idx; AInt n_urls; AStr rawURL] ;;
  let subToFetch :=
    Subscription.mk "" rawURL
      (if negb (strings.eqb (FetchConfig.UserAgent (config fc)) EmptyString)
       then FetchConfig.UserAgent (config fc) else "")
      "" [] (FetchConfig.Proxy (config fc)) in
  let* (_, fetched) := FetchAll env subToFetch in
  match fetched with
  | Err fetchErr =>
      Printf Failure ("Failed to fetch %s: %v" +:+ nl)
        [AStr rawURL; AErr fetchErr] ;;
      ret (add_failed v)
  | Ok rawLinks =>
      let subID := sql.NullInt64.mk 0 false in
      let* dbConfigs := parseLinks fc rawLinks subID in
      if len dbConfigs >? 0 then
        let* saved := UpsertSubscriptionConfigs dbConfigs in
        match saved with
        | Some err =>
            Printf Failure ("Failed to save configs from %s: %v" +:+ nl)
              [AStr rawURL; AErr err] ;;
            ret (add_failed v)
        | None =>
            Printf Success ("%s: fetched %d links, saved %d configs." +:+ nl)
              [AStr rawURL; AInt (len rawLinks); AInt (len dbConfigs)] ;;
            ret (add_configs v dbConfigs rawLinks)
        end
      else
        Printf Warning ("%s: no valid configs found." +:+ nl) [AStr rawURL] ;;
        ret (add_configs v dbConfigs rawLinks)
  end.

(** [(fc *FetchCommand) fetchFromFile]: the mode --file. *)
Definition fetchFromFile (fc : FetchCommand) : M (option error) :=
  let* urls := ParseFileByNewline (FetchConfig.FileInput (config fc)) in
  if len urls =? 0 then
    ret (Some (Errorf "no URLs found in file %q"
                      [AStr (FetchConfig.FileInput (config fc))]))
  else
    let workers := FetchConfig.Workers (config fc) in
    let workers := if workers >? len urls then len urls else workers in
    Printf Processing
      ("Found %d URL(s) in %q — fetching with %d worker(s)..." +:+ nl)
      [AInt (len urls); AStr (FetchConfig.FileInput (config fc)); AInt workers] ;;
    let* v :=
      run_tasks (fetchFromFile_task fc (len urls))
                (pool_order env _ urls) PoolVars_zero in
    finish_batch fc v
      (fun failed =>
         Errorf "%d out of %d URLs failed to fetch" [AInt failed; AInt (len urls)]).

(** [(fc *FetchCommand) runCommand]. *)
Definition runCommand (fc : FetchCommand) : M (option error) :=
  if FetchConfig.FetchAll (config fc) then fetchAllSubscriptions fc
  else if negb (strings.eqb (FetchConfig.FileInput (config fc)) EmptyString)
  then fetchFromFile fc
  else fetchSingle fc.

(** The flags of the group [id url all file] that are set, sorted as
    cobra sorts them before it reports them. *)
Definition set_flags (c : FetchConfig.t) (given : Given.t) : list string :=
  (if FetchConfig.FetchAll c || Given.all given then ["all"] else [])
  ++ (if negb (strings.eqb (FetchConfig.FileInput c) EmptyString)
         || Given.file given then ["file"] else [])
  ++ (if negb (FetchConfig.SubscriptionID c =? 0) || Given.id given
      then ["id"] else [])
  ++ (if negb (strings.eqb (FetchConfig.SubscriptionURL c) EmptyString)
         || Given.url given then ["url"] else []).

(** cobra's [ValidateFlagGroups] for the one group that [addFlags]
    declares with [MarkFlagsMutuallyExclusive]: at most one flag of the
    group may be set.  The set flags are passed as [%v] prints them. *)
Definition ValidateFlagGroups (c : FetchConfig.t) (given : Given.t)
  : option error :=
  match set_flags c given with
  | [] | [_] => None
  | set =>
      Some (Errorf
              "if any flags in the group [%v] are set none of the others can be; %v were all set"
              [AStr "id url all file";
               AStr ("[" +:+ strings.Join set " " +:+ "]")])
  end.

(** The command as [createCommand] and [addFlags] wire it: cobra calls
    [PreRunE], which is [validateFlags], then checks the flag groups,
    and calls [RunE], which is [runCommand], only when both passed. *)
Definition Execute (fc : FetchCommand) (given : Given.t) : M (option error) :=
  match validateFlags fc with
  | Some err => ret (Some err)
  | None =>
      match ValidateFlagGroups (config fc) given with
      | Some err => ret (Some err)
      | None => runCommand fc
      end
  end.

End FetchCommand.

(** ** Vocabulary of the statements *)

(** A request went out during the events [evs]. *)
Definition is_Send (e : event) : bool :=
  match e with EvSend _ _ _ _ => true | _ => false end.

Definition sends (evs : list event) : list event := List.filter is_Send evs.

(** One of the run options selects a source. *)
Definition selector_given (c : FetchConfig.t) : bool :=
  negb ((FetchConfig.SubscriptionID c =? 0)
        && strings.eqb (FetchConfig.SubscriptionURL c) EmptyString
        && negb (FetchConfig.FetchAll c)
        && strings.eqb (FetchConfig.FileInput c) EmptyString).

(** A line that holds white space only. *)
Definition blank (l : string) : Prop := strings.TrimSpace l = EmptyString.

(** A trimming function drops a prefix of its argument, and no prefix
    of what it returns can be trimmed further. *)
Definition trims (f : string -> string) : Prop :=
  forall s, exists dropped,
    s = dropped +:+ f s
    /\ forall p rest, f s = p +:+ rest -> f p = p.

(** A link as a retrieval returns it. *)
Definition trimmed (l : string) : Prop :=
  strings.TrimSpace l = l /\ l <> EmptyString.

(** A character that the base64 decoder neither decodes nor skips:
    outside the alphabet, and not the padding or a line break. *)
Definition foreign (c : ascii) : Prop :=
  base64.decodeStd c = None /\ Ascii.eqb c "=" = false
  /\ Ascii.eqb c "010" = false /\ Ascii.eqb c "013" = false.

(** The decoding of [link] did not end in a canonical summary: the
    registry or the decoder returned an error or panicked. *)
Inductive DecodeFailure (c : Core) (link : string) : Prop :=
| create_panics :
    CreateProtocol c link = Panics -> DecodeFailure c link
| create_fails err :
    CreateProtocol c link = Returns (Err err) -> DecodeFailure c link
| parse_panics proto :
    CreateProtocol c link = Returns (Ok proto) ->
    Parse proto (this proto) = Panics -> DecodeFailure c link
| parse_fails proto parsed err :
    CreateProtocol c link = Returns (Ok proto) ->
    Parse proto (this proto) = Returns (parsed, Some err) ->
    DecodeFailure c link
| convert_panics proto parsed :
    CreateProtocol c link = Returns (Ok proto) ->
    Parse proto (this proto) = Returns (parsed, None) ->
    ConvertToGeneralConfig proto parsed = Panics -> DecodeFailure c link.

(** The links of [links] that are not in [seen] and did not occur
    earlier in [links]. *)
Fixpoint keep_new (seen : gset string) (links : list string) : list string :=
  match links with
  | [] => []
  | x :: rest =>
      if decide (x ∈ seen) then keep_new seen rest
      else x :: keep_new ({[x]} ∪ seen) rest
  end.

(** The timestamp of a subscription was written. *)
Definition is_Touch (e : event) : bool :=
  match e with EvUpdateSubscriptionFetched _ _ => true | _ => false end.

(** The source [sub] fails when its turn comes at trace [tr]: the
    retrieval returns an error, or the upsert of its configs does. *)
Definition fetch_or_save_fails (env : Env) (fc : FetchCommand)
    (sub : Subscription.t) (subID : sql.NullInt64.t) (tr : trace) : bool :=
  match FetchAll env sub tr with
  | ((_, Err _), _) => true
  | ((_, Ok rawLinks), tr1) =>
      let dbConfigs :=
        parseLinks_loop (core fc) subID (time_Now env tr1) rawLinks in
      (len dbConfigs >? 0)
      && match db_UpsertSubscriptionConfigs env
                 (tr1 ++ [EvUpsertSubscriptionConfigs dbConfigs]) with
         | Some _ => true
         | None => false
         end
  end.

(** The configs a source yields at trace [tr]. *)
Definition fetched_configs (env : Env) (fc : FetchCommand)
    (sub : Subscription.t) (subID : sql.NullInt64.t) (tr : trace)
  : list database.SubscriptionConfig.t :=
  match FetchAll env sub tr with
  | ((_, Err _), _) => []
  | ((_, Ok rawLinks), tr1) =>
      parseLinks_loop (core fc) subID (time_Now env tr1) rawLinks
  end.

(** The source of file mode for one URL, and the trace at which its
    retrieval starts when the task begins at [tr] with the shared
    variables [v]. *)
Definition file_source (fc : FetchCommand) (rawURL : string) : Subscription.t :=
  Subscription.mk "" rawURL
    (if negb (strings.eqb (FetchConfig.UserAgent (config fc)) EmptyString)
     then FetchConfig.UserAgent (config fc) else "")
    "" [] (FetchConfig.Proxy (config fc)).

Definition file_start (n_urls : Z) (rawURL : string) (v : PoolVars)
    (tr : trace) : trace :=
  tr ++ [EvLog Processing ("[%d/%d] Fetching from %s" +:+ nl)
           [AInt (doneCount v + 1); AInt n_urls; AStr rawURL]].

Definition file_source_fails (env : Env) (fc : FetchCommand) (n_urls : Z)
    (rawURL : string) (v : PoolVars) (tr : trace) : bool :=
  fetch_or_save_fails env fc (file_source fc rawURL) (sql.NullInt64.mk 0 false)
    (file_start n_urls rawURL v tr).

Definition file_source_configs (env : Env) (fc : FetchCommand) (n_urls : Z)
    (rawURL : string) (v : PoolVars) (tr : trace)
  : list database.SubscriptionConfig.t :=
  fetched_configs env fc (file_source fc rawURL) (sql.NullInt64.mk 0 false)
    (file_start n_urls rawURL v tr).

(** The same for an enabled subscription of the database. *)
Definition enabled_source (fc : FetchCommand) (sub : database.Subscription.t)
  : Subscription.t :=
  Subscription.mk "" (database.Subscription.URL sub)
    (if negb (strings.eqb (FetchConfig.UserAgent (config fc)) EmptyString)
     then FetchConfig.UserAgent (config fc)
     else sql.NullString.String (database.Subscription.UserAgent sub))
    "" [] (FetchConfig.Proxy (config fc)).

Definition enabled_remark (sub : database.Subscription.t) : remark_text :=
  if sql.NullString.Valid (database.Subscription.Remark sub)
     && negb (strings.eqb (sql.NullString.String (database.Subscription.Remark sub))
                          EmptyString)
  then RemarkText (sql.NullString.String (database.Subscription.Remark sub))
  else RemarkOfID (database.Subscription.ID sub).

Definition enabled_start (n_enabled : Z) (sub : database.Subscription.t)
    (v : PoolVars) (tr : trace) : trace :=
  tr ++ [EvLog Processing ("[%d/%d] Fetching %q (%s)" +:+ nl)
           [AInt (doneCount v + 1); AInt n_enabled;
            remark_arg (enabled_remark sub);
            AStr (database.Subscription.URL sub)]].

Definition enabled_source_fails (env : Env) (fc : FetchCommand) (n_enabled : Z)
    (sub : database.Subscription.t) (v : PoolVars) (tr : trace) : bool :=
  fetch_or_save_fails env fc (enabled_source fc sub)
    (sql.NullInt64.mk (database.Subscription.ID sub) true)
    (enabled_start n_enabled sub v tr).

Definition enabled_source_configs (env : Env) (fc : FetchCommand)
    (n_enabled : Z) (sub : database.Subscription.t) (v : PoolVars) (tr : trace)
  : list database.SubscriptionConfig.t :=
  fetched_configs env fc (enabled_source fc sub)
    (sql.NullInt64.mk (database.Subscription.ID sub) true)
    (enabled_start n_enabled sub v tr).

(** Some task of the run [order], started from [v0] and [tr0], fails
    when its turn comes. *)
Definition some_source_fails {T} (task : T -> PoolVars -> M PoolVars)
    (fails : T -> PoolVars -> trace -> bool)
    (order : list T) (v0 : PoolVars) (tr0 : trace) : Prop :=
  exists before x after v tr,
    order = before ++ x :: after
    /\ run_tasks task before v0 tr0 = (v, tr)
    /\ fails x v tr = true.

(** What a fan-out run owes to its sources.  The tasks run in the
    order [order] from the trace [tr0]; [run] is the outcome and the
    final trace of the whole command.  Once the pool has drained the
    totals are logged, and the aggregated list is written to the
    output file when one is named and the list is not empty. *)
Definition batch_verdict {T} (env : Env) (fc : FetchCommand)
    (task : T -> PoolVars -> M PoolVars)
    (fails : T -> PoolVars -> trace -> bool)
    (configs : T -> PoolVars -> trace -> list database.SubscriptionConfig.t)
    (order : list T) (tr0 : trace) (run : option error * trace) : Prop :=
  let v := fst (run_tasks task order PoolVars_zero tr0) in
  let tr1 := snd (run_tasks task order PoolVars_zero tr0) in
  let totals :=
    EvLog Finished
      ("All done: %d links fetched, %d configs saved, %d failed." +:+ nl)
      [AInt (totalRaw v); AInt (len (allConfigs v)); AInt (failedCount v)] in
  let write :=
    EvWriteIntoFile (FetchConfig.OutputFile (config fc))
      (strings.Join (map database.SubscriptionConfig.ConfigLink (allConfigs v)) nl
       +:+ nl) in
  let writes :=
    FetchConfig.OutputFile (config fc) <> EmptyString /\ allConfigs v <> [] in
  let written := fs_WriteIntoFile env (tr1 ++ [totals; write]) in
  (* a failed source makes the run fail *)
  (some_source_fails task fails order PoolVars_zero tr0 ->
   exists err, fst run = Some err)
  (* a failing run without a failed source failed to write the output
     file, and returns the error of that write *)
  /\ (forall err,
         fst run = Some err ->
         some_source_fails task fails order PoolVars_zero tr0
         \/ exists werr,
             writes /\ written = Some werr
             /\ err = Errorf "failed to save configurations to file: %w" [AErr werr])
  (* a run without a failed source and without a failed write returns nil *)
  /\ (~ some_source_fails task fails order PoolVars_zero tr0 ->
      (writes -> written = None) ->
      fst run = None)
  (* a source that did not fail has its configs upserted and aggregated *)
  /\ (forall before x after v1 tr1,
         order = before ++ x :: after ->
         run_tasks task before PoolVars_zero tr0 = (v1, tr1) ->
         fails x v1 tr1 = false ->
         incl (configs x v1 tr1) (allConfigs v)
         /\ (configs x v1 tr1 <> [] ->
             In (EvUpsertSubscriptionConfigs (configs x v1 tr1)) (snd run)))
  (* the totals are reported, and the write follows them *)
  /\ exists rest,
      snd run = tr1 ++ totals :: rest
      /\ (writes -> exists rest', rest = write :: rest').

(** The source of a by-identity run. *)
Definition by_id_source (c : FetchConfig.t) (dbSub : database.Subscription.t)
  : Subscription.t :=
  Subscription.mk "" (database.Subscription.URL dbSub)
    (if negb (strings.eqb (FetchConfig.UserAgent c) EmptyString)
     then FetchConfig.UserAgent c
     else sql.NullString.String (database.Subscription.UserAgent dbSub))
    "" [] (FetchConfig.Proxy c).

(** ** Sample environments, for the worked examples *)

(** One environment that answers every call the same way. *)
Definition constant_env (subs : list database.Subscription.t)
    (answer : result Response) (upsert touch write : option error)
    (file : string) : Env :=
  mkEnv (fun _ => answer)
        (fun _ => Ok subs)
        (fun _ => match subs with
                  | sub :: _ => Ok sub
                  | [] => Err (errors_New "sql: no rows in result set")
                  end)
        (fun _ => upsert) (fun _ => touch)
        (fun _ => file) (fun _ => write)
        (fun _ => 1700000000)
        (fun _ l => l).

(** The host of the request just sent. *)
Definition last_host (tr : trace) : string :=
  match List.rev tr with
  | EvSend _ u _ _ :: _ => url.Host u
  | _ => EmptyString
  end.

(** Two sources listed in a file: the first answers 404, the second
    serves one link. *)
Definition two_source_env : Env :=
  mkEnv (fun tr =>
           if strings.eqb (last_host tr) "down.example"
           then Ok (mkResponse 404 (Ok EmptyString))
           else Ok (mkResponse 200 (Ok "vless://u@h:443#A")))
        (fun _ => Ok [])
        (fun _ => Err (errors_New "sql: no rows in result set"))
        (fun _ => None) (fun _ => None)
        (fun _ => "https://down.example/sub" +:+ nl
                  +:+ "https://up.example/sub" +:+ nl)
        (fun _ => None)
        (fun _ => 1700000000)
        (fun _ l => l).

Definition file_config : FetchConfig.t :=
  FetchConfig.mk 0 "" "" "configs.txt" "" false "urls.txt" 3.

Definition by_id_config : FetchConfig.t :=
  FetchConfig.mk 1 "" "" "" "" false "" 3.

(** The same with the default output file of [addFlags]. *)
Definition by_id_default_config : FetchConfig.t :=
  FetchConfig.mk 1 "" "" "configs.txt" "" false "" 3.

Definition sample_subscription : database.Subscription.t :=
  database.Subscription.mk 1 "https://up.example/sub"
    (sql.NullString.mk "" false) (sql.NullString.mk "" false) true
    (sql.NullTime.mk 0 false).

Definition serve (body : string) : result Response :=
  Ok (mkResponse 200 (Ok body)).

Definition sample_config : FetchConfig.t :=
  FetchConfig.mk 0 "" "" "configs.txt" "" true "" 3.

(** A declaration of the [Wireguard] struct and a scanner, to run the
    decoder on links that carry no query (neither is consulted then). *)
Definition sample_fields : list (Wireguard.field * string) :=
  [(Wireguard.FRemark, "remark"); (Wireguard.FPublicKey, "publickey");
   (Wireguard.FSecretKey, "secretkey"); (Wireguard.FEndpoint, "endpoint");
   (Wireguard.FLocalAddress, "address"); (Wireguard.FMtu, "mtu");
   (Wireguard.FOrigLink, "-")].

Definition sample_Sscanf_d (value : string) : Z := 0.

Definition sample_Parse (link : string)
  : outcome (Wireguard.t * option error) :=
  Wireguard.Parse "wireguard://" sample_fields sample_Sscanf_d
                  (Wireguard.NewWireguard_t link).

(** A core whose registry holds the Wireguard decoder only. *)
Definition wireguard_core : Core :=
  mkCore (fun link =>
            if strings.HasPrefix link "wireguard://" then
              Returns (Ok (Wireguard.NewWireguard "wireguard://" sample_fields
                             sample_Sscanf_d link))
            else Returns (Err (errors_New "invalid protocol type"))).

(** A core that knows no protocol. *)
Definition no_core : Core :=
  mkCore (fun _ => Returns (Err (errors_New "invalid protocol type"))).

(** ** More of the sources: the outbound of a Wireguard link, the rows
    of the show command *)

Module conf.

(** [conf.OutboundDetourConfig], as far as the decoder fills it.  The
    settings are the JSON text built by [fmt.Sprintf], kept as the
    format and its arguments. *)
Module OutboundDetourConfig.
Record t : Type := mk {
  Tag : string;
  Protocol : string;
  Settings : farg }.
End OutboundDetourConfig.

End conf.

Definition quoted (s : string) : string :=
  String url.dquote s +:+ String url.dquote EmptyString.

(** The raw string literal of [BuildOutboundDetourConfig]. *)
Definition outbound_settings_format : string :=
  "{" +:+ nl
  +:+ "  " +:+ quoted "secretKey" +:+ ": " +:+ quoted "%s" +:+ "," +:+ nl
  +:+ "  " +:+ quoted "address" +:+ ": [" +:+ quoted "%s" +:+ ", "
      +:+ quoted "%s" +:+ "]," +:+ nl
  +:+ "  " +:+ quoted "peers" +:+ ": [" +:+ nl
  +:+ "    {" +:+ nl
  +:+ "      " +:+ quoted "endpoint" +:+ ": " +:+ quoted "%s" +:+ "," +:+ nl
  +:+ "      " +:+ quoted "publicKey" +:+ ": " +:+ quoted "%s" +:+ nl
  +:+ "    }" +:+ nl
  +:+ "  ]," +:+ nl
  +:+ "  " +:+ quoted "mtu" +:+ ": %d" +:+ nl
  +:+ "}" +:+ nl.

(** [(w *Wireguard) BuildOutboundDetourConfig(allowInsecure)]: the
    second element of the split local address is indexed without a
    check, which panics when there is none. *)
Definition BuildOutboundDetourConfig (w : Wireguard.t) (allowInsecure : bool)
  : outcome (result conf.OutboundDetourConfig.t) :=
  match strings.Split (Wireguard.LocalAddress w) "," with
  | address0 :: address1 :: _ =>
      Returns (Ok (conf.OutboundDetourConfig.mk "proxy" (Wireguard.Name w)
                     (ASprintf outbound_settings_format
                        [AStr (Wireguard.SecretKey w); AStr address0;
                         AStr address1; AStr (Wireguard.Endpoint w);
                         AStr (Wireguard.PublicKey w);
                         AInt (Wireguard.Mtu w)])))
  | _ => Panics
  end.

(** One row of the table of [ShowCmd]: what is printed for a
    subscription, given the number of its configs.  The formatted time
    stays symbolic. *)
Inductive last_fetched : Set :=
| Never
| FetchedAt (t : Z).

Module ShowRow.
Record t : Set := mk {
  ID : Z;
  remark : string;
  displayURL : string;
  Enabled : bool;
  configCount : Z;
  lastFetched : last_fetched }.
End ShowRow.

Definition show_row (showVerbose : bool) (sub : database.Subscription.t)
    (configCount : Z) : ShowRow.t :=
  let remark :=
    if sql.NullString.Valid (database.Subscription.Remark sub)
       && negb (strings.eqb (sql.NullString.String (database.Subscription.Remark sub))
                            EmptyString)
    then sql.NullString.String (database.Subscription.Remark sub)
    else "N/A" in
  let lastFetched :=
    if sql.NullTime.Valid (database.Subscription.LastFetchedAt sub)
    then FetchedAt (sql.NullTime.Time (database.Subscription.LastFetchedAt sub))
    else Never in
  let displayURL := database.Subscription.URL sub in
  let displayURL :=
    if negb showVerbose && (Z.of_nat (String.length displayURL) >? 50)
    then strings.take 47 displayURL +:+ "..."
    else displayURL in
  ShowRow.mk (database.Subscription.ID sub) remark displayURL
             (database.Subscription.Enabled sub) configCount lastFetched.

(** ** Vocabulary of the further statements *)

(** The text of a user-info component: the name, and the password
    after a colon when there is one. *)
Definition userinfo_text (u : option url.Userinfo) : string :=
  match u with
  | None => EmptyString
  | Some u =>
      if url.passwordSet u
      then url.username u +:+ ":" +:+ url.password u
      else url.username u
  end.

(** No line feed in a string. *)
Definition one_line (l : string) : Prop :=
  ~ In "010"%char (list_ascii_of_string l).

(** An event of a run that knows no subscription: it reads and writes
    no subscription of the database, and the configs it upserts have
    no owner. *)
Definition unlinked_event (e : event) : Prop :=
  match e with
  | EvListSubscriptions | EvGetSubscriptionByID _
  | EvUpdateSubscriptionFetched _ _ => False
  | EvUpsertSubscriptionConfigs configs =>
      Forall (fun conf =>
                database.SubscriptionConfig.SubscriptionID conf
                = sql.NullInt64.mk 0 false) configs
  | _ => True
  end.

(** An event that stores or writes: an upsert, a timestamp, a file. *)
Definition is_Store (e : event) : bool :=
  match e with
  | EvUpsertSubscriptionConfigs _ | EvUpdateSubscriptionFetched _ _
  | EvWriteIntoFile _ _ => true
  | _ => false
  end.

(** An event of the retrieval of [s]: a request to the parsed URL of
    [s], or a log line. *)
Definition retrieval_event (s : Subscription.t) (e : event) : Prop :=
  match e with
  | EvSend _ u _ _ => url.Parse (Subscription.Url s) = Ok u
  | EvLog _ _ _ => True
  | _ => False
  end.

(** An event of an all-enabled run after the listing, with respect to
    the listed subscriptions: requests go to enabled subscriptions,
    upserted configs and timestamps belong to one. *)
Definition enabled_event (subs : list database.Subscription.t) (e : event)
  : Prop :=
  match e with
  | EvSend _ u _ _ =>
      exists sub, In sub subs /\ database.Subscription.Enabled sub = true
                  /\ url.Parse (database.Subscription.URL sub) = Ok u
  | EvUpsertSubscriptionConfigs configs =>
      exists sub, In sub subs /\ database.Subscription.Enabled sub = true
                  /\ Forall (fun conf =>
                               database.SubscriptionConfig.SubscriptionID conf
                               = sql.NullInt64.mk (database.Subscription.ID sub) true)
                            configs
  | EvUpdateSubscriptionFetched id _ =>
      exists sub, In sub subs /\ database.Subscription.Enabled sub = true
                  /\ id = database.Subscription.ID sub
  | EvLog _ _ _ | EvWriteIntoFile _ _ => True
  | _ => False
  end.

(** ** The add command *)

(** [url.ParseRequestURI]. *)
Definition ParseRequestURI (rawURL : string) : result url.URL :=
  match url.parse rawURL true with
  | Err e => Err (url_Error "parse" rawURL e)
  | Ok u => Ok u
  end.

(** What [AddCmd] does, in order: the call to the database and the log
    line. *)
Inductive add_step : Type :=
| AddSubscription (url remark userAgent : string)
| AddPrintf (level : loglevel) (format : string) (args : list farg).

(** [RunE] of [AddCmd] on the values of its flags; [added] is the answer
    of [database.AddSubscription]. *)
Definition AddCmd (added : option error) (addURL addRemark addUserAgent : string)
  : option error * list add_step :=
  match ParseRequestURI addURL with
  | Err err =>
      (Some (Errorf "invalid URL %q: %w" [AStr addURL; AErr err]), [])
  | Ok _ =>
      match added with
      | Some err => (Some err, [AddSubscription addURL addRemark addUserAgent])
      | None =>
          (None,
           [AddSubscription addURL addRemark addUserAgent;
            AddPrintf Success ("Successfully added subscription: %s" +:+ nl)
                      [AStr addURL]])
      end
  end.

(** * Properties *)

(** ** Sanity checks of the library model *)

Example TrimSpace_ex : strings.TrimSpace "  vless://a  " = "vless://a".
Proof. reflexivity. Qed.

Example Split_ex :
  strings.Split ("link1" +:+ String "010" ("" +:+ String "010" "  "))
    "010" = ["link1"; ""; "  "].
Proof. reflexivity. Qed.

Example Parse_invalid :
  url.Parse "://invalid"
  = Err (url_Error "parse" "://invalid" (errors_New "missing protocol scheme")).
Proof. reflexivity. Qed.

Example Parse_http :
  url.Parse "https://example.com/sub?x=1#frag"
  = Ok (url.mkURL "https" "" None "example.com" "/sub" "" false false "x=1" "frag" "").
Proof. reflexivity. Qed.

Example Parse_relative :
  url.Parse "example.com/sub"
  = Ok (url.mkURL "" "" None "" "example.com/sub" "" false false "" "" "").
Proof. reflexivity. Qed.

Example Parse_bad_fragment :
  url.Parse "wireguard://k@h:1#50%"
  = Err (url_Error "parse" "wireguard://k@h:1#50%" (url_EscapeError "%")).
Proof. reflexivity. Qed.

Example EncodeToString_ex : base64.EncodeToString "abcd" = "YWJjZA==".
Proof. reflexivity. Qed.

Example Base64Decode_ex : utils.Base64Decode "YWJjZA==" = Ok "abcd".
Proof. reflexivity. Qed.

(** ** Strings *)

Section Strings.

Import strings.

Lemma append_nil (t : string) : "" +:+ t = t.
Proof. reflexivity. Qed.

Lemma append_cons (c : ascii) (s t : string) :
  String c s +:+ t = String c (s +:+ t).
Proof. reflexivity. Qed.

Lemma append_empty_r (s : string) : s +:+ "" = s.
Proof.
  induction s as [|c s IH]; [reflexivity|]. rewrite append_cons. now f_equal.
Qed.

(** The trimming loop peels one, two or three bytes at a time. *)
Lemma trim_runes_trims sp2 sp3 : trims (trim_runes sp2 sp3).
Proof.
  assert (H : forall n s, (String.length s <= n)%nat ->
    exists dropped, s = dropped +:+ trim_runes sp2 sp3 s
      /\ forall p rest, trim_runes sp2 sp3 s = p +:+ rest ->
                        trim_runes sp2 sp3 p = p).
  { induction n as [|n IH]; intros s Hn.
    - destruct s; [|simpl in Hn; lia]. exists "". split; [reflexivity|].
      intros [|? ?] rest E; [reflexivity|discriminate].
    - destruct s as [|a s1].
      { exists "". split; [reflexivity|].
        intros [|? ?] rest E; [reflexivity|discriminate]. }
      simpl in Hn. simpl.
      destruct (ascii_space a) eqn:Ea.
      { destruct (IH s1 ltac:(lia)) as (d & Hd & Hp).
        exists (String a d). rewrite append_cons. split; [now f_equal|exact Hp]. }
      destruct s1 as [|b s2].
      { exists "". split; [reflexivity|].
        intros [|x [|? ?]] rest E; try reflexivity; try discriminate.
        rewrite append_cons in E. injection E as <- _. simpl. now rewrite Ea. }
      simpl in Hn. destruct (sp2 a b) eqn:Eb.
      { destruct (IH s2 ltac:(lia)) as (d & Hd & Hp).
        exists (String a (String b d)). rewrite !append_cons.
        split; [now do 2 f_equal|exact Hp]. }
      destruct s2 as [|c s3].
      { exists "". split; [reflexivity|].
        intros [|x [|y [|? ?]]] rest E; try reflexivity; try discriminate.
        - rewrite append_cons in E. injection E as <- _. simpl. now rewrite Ea.
        - rewrite !append_cons in E. injection E as <- <- _. simpl.
          now rewrite Ea, Eb. }
      simpl in Hn. destruct (sp3 a b c) eqn:Ec.
      { destruct (IH s3 ltac:(lia)) as (d & Hd & Hp).
        exists (String a (String b (String c d))). rewrite !append_cons.
        split; [now do 3 f_equal|exact Hp]. }
      exists "". split; [reflexivity|].
      intros [|x [|y [|z p]]] rest E; try reflexivity.
      + rewrite append_cons in E. injection E as <- _. simpl. now rewrite Ea.
      + rewrite !append_cons in E. injection E as <- <- _. simpl.
        now rewrite Ea, Eb.
      + rewrite !append_cons in E. injection E as <- <- <- _. simpl.
        now rewrite Ea, Eb, Ec. }
  intros s. apply (H (String.length s)). lia.
Qed.

Lemma list_ascii_append (a b : string) :
  list_ascii_of_string (a +:+ b)
  = list_ascii_of_string a ++ list_ascii_of_string b.
Proof.
  induction a as [|c a IH]; [reflexivity|].
  rewrite append_cons. simpl. now f_equal.
Qed.

Lemma string_of_list_app (l k : list ascii) :
  string_of_list_ascii (l ++ k)
  = string_of_list_ascii l +:+ string_of_list_ascii k.
Proof.
  induction l as [|c l IH]; [reflexivity|].
  simpl. rewrite append_cons. now f_equal.
Qed.

Lemma rev_rev (s : string) : rev (rev s) = s.
Proof.
  unfold rev. rewrite list_ascii_of_string_of_list_ascii, List.rev_involutive.
  apply string_of_list_ascii_of_string.
Qed.

Lemma rev_append (a b : string) : rev (a +:+ b) = rev b +:+ rev a.
Proof.
  unfold rev. now rewrite list_ascii_append, List.rev_app_distr, string_of_list_app.
Qed.

(** [TrimSpace] changes nothing in a string it has returned. *)
Lemma TrimSpace_idempotent (s : string) :
  TrimSpace (TrimSpace s) = TrimSpace s.
Proof.
  unfold TrimSpace, TrimLeftSpace, TrimLeftSpace_rev.
  destruct (trim_runes_trims space2 space3 s) as (_ & _ & Hleft).
  destruct (trim_runes_trims (fun a b => space2 b a)
              (fun a b c => space3 c b a) (rev (trim_runes space2 space3 s)))
    as (d & Hd & Hright).
  set (r := trim_runes _ _ (rev _)) in *.
  rewrite (Hleft (rev r) (rev d)).
  - rewrite rev_rev, (Hright r ""); [reflexivity|]. now rewrite append_empty_r.
  - rewrite <- rev_append, <- Hd. now rewrite rev_rev.
Qed.

Lemma filter_lines_trimmed (lines : list string) :
  Forall trimmed (filter_lines lines).
Proof.
  induction lines as [|l lines IH]; simpl; [constructor|].
  destruct (eqb (TrimSpace l) EmptyString) eqn:E; simpl; [assumption|].
  constructor; [|assumption]. split; [apply TrimSpace_idempotent|].
  intros H. rewrite H in E. discriminate.
Qed.

End Strings.

(** ** Flag validation (C7) *)

Lemma validateFlags_no_selector fc :
  selector_given (config fc) = false ->
  validateFlags fc
  = Some (Errorf "one of --id, --url, --all, or --file must be provided" []).
Proof.
  unfold selector_given, validateFlags. intros H.
  apply negb_false_iff in H. now rewrite H.
Qed.

Lemma validateFlags_selector fc :
  selector_given (config fc) = true ->
  validateFlags fc
  = if FetchConfig.Workers (config fc) <? 1 then
      Some (Errorf "--workers must be at least 1, got %d"
                   [AInt (FetchConfig.Workers (config fc))])
    else if FetchConfig.Workers (config fc) >? 20 then
      Some (Errorf "--workers must be at most 20, got %d"
                   [AInt (FetchConfig.Workers (config fc))])
    else None.
Proof.
  unfold selector_given, validateFlags. intros H.
  apply negb_true_iff in H. now rewrite H.
Qed.

(** C7. A worker count outside [1, 20] makes flag validation fail, and
    the command then returns that error with the trace untouched: no
    fetch, no database call, no file access.  A worker count inside the
    range is never the reason of a rejection: validation passes as soon
    as a selector is given, and fails only with the missing-selector
    error otherwise. *)
Theorem validateFlags_workers (env : Env) (fc : FetchCommand) :
  let workers := FetchConfig.Workers (config fc) in
  (workers < 1 \/ 20 < workers ->
   exists err, validateFlags fc = Some err
               /\ forall given tr, Execute env fc given tr = (Some err, tr))
  /\ (1 <= workers <= 20 ->
      (selector_given (config fc) = true -> validateFlags fc = None)
      /\ (selector_given (config fc) = false ->
          validateFlags fc
          = Some (Errorf "one of --id, --url, --all, or --file must be provided" []))).
Proof.
  intros workers. split.
  - intros Hout.
    assert (Hv : exists err, validateFlags fc = Some err).
    { destruct (selector_given (config fc)) eqn:Hs.
      - rewrite (validateFlags_selector _ Hs). fold workers.
        destruct (Z.ltb_spec workers 1); [eauto|].
        destruct (Z.gtb_spec workers 20); [eauto|]. lia.
      - rewrite (validateFlags_no_selector _ Hs). eauto. }
    destruct Hv as [err Hv]. exists err. split; [assumption|].
    intros given tr. unfold Execute. now rewrite Hv.
  - intros Hin. split; intros Hs.
    + rewrite (validateFlags_selector _ Hs). fold workers.
      destruct (Z.ltb_spec workers 1); [lia|].
      destruct (Z.gtb_spec workers 20); [lia|]. reflexivity.
    + apply validateFlags_no_selector, Hs.
Qed.

Lemma validateFlags_workers_witness :
  (exists err,
      validateFlags (mkFetchCommand
                       (FetchConfig.mk 0 "" "" "configs.txt" "" true "" 21)
                       no_core) = Some err)
  /\ validateFlags (mkFetchCommand sample_config no_core) = None.
Proof.
  split.
  - destruct (validateFlags_workers
                (constant_env [] (serve "") None None None "")
                (mkFetchCommand
                   (FetchConfig.mk 0 "" "" "configs.txt" "" true "" 21)
                   no_core)) as [Hout _].
    destruct Hout as [err [Hv _]]; [right; simpl; lia|].
    exists err. exact Hv.
  - destruct (validateFlags_workers
                (constant_env [] (serve "") None None None "")
                (mkFetchCommand sample_config no_core)) as [_ Hin].
    destruct Hin as [Hsel _]; [simpl; lia|].
    apply Hsel. reflexivity.
Defined.

(** ** The two zero-work cases (C10) *)

Lemma filter_lines_blank (lines : list string) :
  Forall blank lines -> filter_lines lines = [].
Proof.
  induction 1 as [|l lines Hl _ IH]; [reflexivity|].
  simpl. unfold blank in Hl. rewrite Hl. exact IH.
Qed.

Lemma filter_disabled (subs : list database.Subscription.t) :
  Forall (fun sub => database.Subscription.Enabled sub = false) subs ->
  List.filter database.Subscription.Enabled subs = [].
Proof.
  induction 1 as [|sub subs Hs _ IH]; [reflexivity|].
  simpl. now rewrite Hs.
Qed.

(** C10. With no enabled subscription the all-enabled run lists the
    subscriptions, logs a warning and returns nil: nothing is fetched.
    With a file that holds blank lines only the file run returns the
    "no URLs found" error right after reading the file: nothing is
    fetched either, but the run fails. *)
Theorem zero_work_asymmetry (env : Env) (fc : FetchCommand) (tr : trace) :
  (forall subs,
      db_ListSubscriptions env (tr ++ [EvListSubscriptions]) = Ok subs ->
      Forall (fun sub => database.Subscription.Enabled sub = false) subs ->
      fetchAllSubscriptions env fc tr
      = (None,
         tr ++ [EvListSubscriptions;
                EvLog Warning
                  ("No enabled subscriptions found in the database." +:+ nl) []]))
  /\ (let fileName := FetchConfig.FileInput (config fc) in
      Forall blank
        (strings.Split
           (fs_ReadFile env (tr ++ [EvParseFileByNewline fileName])) "010") ->
      fetchFromFile env fc tr
      = (Some (Errorf "no URLs found in file %q" [AStr fileName]),
         tr ++ [EvParseFileByNewline fileName])).
Proof.
  split.
  - intros subs Hlist Hdis.
    unfold fetchAllSubscriptions, bind, call. rewrite Hlist.
    rewrite (filter_disabled _ Hdis). simpl.
    unfold Printf, ret. now rewrite <- app_assoc.
  - intros fileName Hblank.
    unfold fetchFromFile, ParseFileByNewline, bind, call, ret.
    fold fileName. now rewrite (filter_lines_blank _ Hblank).
Qed.

Lemma zero_work_asymmetry_witness :
  fst (fetchAllSubscriptions (constant_env [] (serve "") None None None "")
         (mkFetchCommand sample_config no_core) []) = None
  /\ fst (fetchFromFile
            (constant_env [] (serve "") None None None ("  " +:+ nl))
            (mkFetchCommand (FetchConfig.mk 0 "" "" "" "" false "urls.txt" 3)
                            no_core) [])
     = Some (Errorf "no URLs found in file %q" [AStr "urls.txt"]).
Proof.
  split.
  - destruct (zero_work_asymmetry
                (constant_env [] (serve "") None None None "")
                (mkFetchCommand sample_config no_core) []) as [Hall _].
    rewrite (Hall [] eq_refl); [reflexivity|constructor].
  - destruct (zero_work_asymmetry
                (constant_env [] (serve "") None None None ("  " +:+ nl))
                (mkFetchCommand (FetchConfig.mk 0 "" "" "" "" false "urls.txt" 3)
                                no_core) []) as [_ Hfile].
    rewrite Hfile; [reflexivity|].
    repeat constructor.
Defined.

(** ** The de-duplicator (C6) *)

Section RemoveDuplicate.

Implicit Types (links out : list string) (seen : gset string).

Lemma RemoveDuplicate_fold links (allKeys : gmap string bool) (list : list string) :
  snd (fold_left RemoveDuplicate_step links (allKeys, list))
  = list ++ keep_new (dom allKeys) links.
Proof.
  revert allKeys list.
  induction links as [|x links IH]; intros allKeys list; simpl.
  - now rewrite app_nil_r.
  - destruct (allKeys !! x) as [b|] eqn:Hx.
    + rewrite IH. rewrite decide_True; [reflexivity|].
      apply elem_of_dom. eauto.
    + rewrite IH. rewrite decide_False.
      * rewrite dom_insert_L, <- app_assoc. reflexivity.
      * rewrite elem_of_dom, Hx. intros [? ?]. discriminate.
Qed.

Lemma RemoveDuplicate_loop_keep_new links :
  RemoveDuplicate_loop links = keep_new ∅ links.
Proof.
  unfold RemoveDuplicate_loop. rewrite RemoveDuplicate_fold.
  now rewrite dom_empty_L.
Qed.

Lemma elem_of_keep_new seen links x :
  x ∈ keep_new seen links <-> x ∈ links /\ x ∉ seen.
Proof.
  revert seen. induction links as [|y links IH]; intros seen; simpl.
  - set_solver.
  - destruct (decide (y ∈ seen)).
    + rewrite IH. set_solver.
    + rewrite elem_of_cons, IH.
      destruct (decide (x = y)); set_solver.
Qed.

Lemma NoDup_keep_new seen links : NoDup (keep_new seen links).
Proof.
  revert seen. induction links as [|y links IH]; intros seen; simpl.
  - constructor.
  - destruct (decide (y ∈ seen)); [apply IH|].
    constructor; [|apply IH].
    rewrite elem_of_keep_new. set_solver.
Qed.

(** When [x] comes before [y] in the output, the first [x] of the input
    comes before every [y]. *)
Lemma keep_new_order seen links o1 x o2 y o3 :
  keep_new seen links = o1 ++ x :: o2 ++ y :: o3 ->
  exists l1 l2, links = l1 ++ x :: l2 /\ (x ∉ l1) /\ (y ∉ l1).
Proof.
  revert seen o1.
  induction links as [|a links IH]; intros seen o1 Hout; simpl in Hout.
  - destruct o1; discriminate.
  - assert (Hin : forall seen' o1', keep_new seen' links = o1' ++ x :: o2 ++ y :: o3 ->
                    (x ∉ seen') /\ (y ∉ seen')).
    { intros seen' o1' E. split.
      - assert (Hx : x ∈ keep_new seen' links) by (rewrite E; set_solver).
        apply elem_of_keep_new in Hx. tauto.
      - assert (Hy : y ∈ keep_new seen' links) by (rewrite E; set_solver).
        apply elem_of_keep_new in Hy. tauto. }
    destruct (decide (a ∈ seen)) as [Ha|Ha].
    + destruct (IH _ _ Hout) as (l1 & l2 & -> & Hx & Hy).
      destruct (Hin _ _ Hout) as [Hxs Hys].
      exists (a :: l1), l2. split; [reflexivity|].
      split; rewrite not_elem_of_cons; split; try assumption; congruence.
    + destruct o1 as [|b o1]; simpl in Hout.
      * injection Hout as -> _. exists [], links.
        split; [reflexivity|]. split; apply not_elem_of_nil.
      * injection Hout as <- Hout.
        destruct (IH _ _ Hout) as (l1 & l2 & -> & Hx & Hy).
        destruct (Hin _ _ Hout) as [Hxs Hys].
        exists (a :: l1), l2. split; [reflexivity|].
        split; rewrite not_elem_of_cons; split; try assumption; set_solver.
Qed.

End RemoveDuplicate.

(** C6. [RemoveDuplicate] leaves in [ConfigLinks] a list without
    repeats that holds exactly the strings of the input, so its length
    is the number of distinct strings; a string that precedes another
    in the output has its first occurrence in the input before every
    occurrence of the other; and the list is the same with and without
    the verbose flag. *)
Theorem RemoveDuplicate_first_occurrences
    (s : Subscription.t) (verbose : bool) (tr : trace) :
  let links := Subscription.ConfigLinks s in
  let out := Subscription.ConfigLinks (fst (RemoveDuplicate s verbose tr)) in
  NoDup out
  /\ (forall x, x ∈ out <-> x ∈ links)
  /\ length out = size (list_to_set links : gset string)
  /\ (forall o1 x o2 y o3,
         out = o1 ++ x :: o2 ++ y :: o3 ->
         exists l1 l2, links = l1 ++ x :: l2 /\ (x ∉ l1) /\ (y ∉ l1))
  /\ out = Subscription.ConfigLinks (fst (RemoveDuplicate s (negb verbose) tr)).
Proof.
  intros links out.
  assert (Hout : forall v, Subscription.ConfigLinks (fst (RemoveDuplicate s v tr))
                           = keep_new ∅ links).
  { intros v. unfold RemoveDuplicate, bind, when, Printf, ret.
    destruct v; simpl; apply RemoveDuplicate_loop_keep_new. }
  unfold out. rewrite !Hout.
  assert (Hel : forall x, x ∈ keep_new ∅ links <-> x ∈ links).
  { intros x. rewrite elem_of_keep_new. set_solver. }
  split; [apply NoDup_keep_new|].
  split; [exact Hel|].
  split.
  - rewrite <- (size_list_to_set (C := gset string) (keep_new ∅ links))
      by apply NoDup_keep_new.
    f_equal. apply set_eq. intros x.
    rewrite !elem_of_list_to_set. apply Hel.
  - split; [|reflexivity].
    intros o1 x o2 y o3. apply keep_new_order.
Qed.

Lemma RemoveDuplicate_first_occurrences_witness :
  Subscription.ConfigLinks
    (fst (RemoveDuplicate
            (Subscription.mk "" "" "" ""
               ["link1"; "link2"; "link1"; "link3"; "link2"] "")
            false []))
  = ["link1"; "link2"; "link3"]
  /\ exists l1 l2,
      ["link1"; "link2"; "link1"; "link3"; "link2"] = l1 ++ "link2" :: l2
      /\ ("link2" ∉ l1) /\ ("link3" ∉ l1).
Proof.
  split; [reflexivity|].
  apply (proj1 (proj2 (proj2 (proj2
           (RemoveDuplicate_first_occurrences
              (Subscription.mk "" "" "" ""
                 ["link1"; "link2"; "link1"; "link3"; "link2"] "")
              false [])))) ["link1"] "link2" [] "link3" []).
  reflexivity.
Defined.

(** ** The link-parsing step (C4) *)

Lemma filter_lines_filter (lines : list string) :
  filter_lines lines
  = List.filter (fun l => negb (strings.eqb l EmptyString))
                (map strings.TrimSpace lines).
Proof.
  induction lines as [|l lines IH]; [reflexivity|].
  simpl. rewrite IH. now destruct (strings.eqb _ _).
Qed.

Lemma parse_protocol_info_keeps c link dbConf :
  let out := parse_protocol_info c link dbConf in
  database.SubscriptionConfig.ConfigLink out
  = database.SubscriptionConfig.ConfigLink dbConf
  /\ database.SubscriptionConfig.SubscriptionID out
     = database.SubscriptionConfig.SubscriptionID dbConf
  /\ database.SubscriptionConfig.LastSeenAt out
     = database.SubscriptionConfig.LastSeenAt dbConf.
Proof.
  unfold parse_protocol_info.
  destruct (CreateProtocol c link) as [[proto|err]|]; simpl; auto.
  destruct (Parse proto (this proto)) as [[parsed [err|]]|]; simpl; auto.
  destruct (ConvertToGeneralConfig proto parsed); simpl; auto.
Qed.

Lemma parse_protocol_info_failure c link dbConf :
  DecodeFailure c link -> parse_protocol_info c link dbConf = dbConf.
Proof.
  unfold parse_protocol_info.
  destruct 1 as [H|err H|proto H HP|proto parsed err H HP|proto parsed H HP HC];
    rewrite H; try reflexivity; rewrite HP; try reflexivity.
  now rewrite HC.
Qed.

Lemma parseLinks_loop_spec c subID now rawLinks :
  let out := parseLinks_loop c subID now rawLinks in
  map database.SubscriptionConfig.ConfigLink out
  = List.filter (fun l => negb (strings.eqb l EmptyString))
                (map strings.TrimSpace rawLinks)
  /\ Forall (fun conf =>
               database.SubscriptionConfig.SubscriptionID conf = subID
               /\ database.SubscriptionConfig.LastSeenAt conf
                  = sql.NullTime.mk now true
               /\ (DecodeFailure c (database.SubscriptionConfig.ConfigLink conf) ->
                   database.SubscriptionConfig.Protocol conf = NullString_zero
                   /\ database.SubscriptionConfig.Remark conf = NullString_zero))
            out.
Proof.
  induction rawLinks as [|link rest [IHl IHf]]; simpl.
  - split; constructor.
  - destruct (strings.eqb (strings.TrimSpace link) EmptyString) eqn:E; simpl.
    + split; assumption.
    + set (dbConf := database.SubscriptionConfig.mk _ _ _ _ _ _).
      destruct (parse_protocol_info_keeps c (strings.TrimSpace link) dbConf)
        as (Hl & Hs & Ht).
      split.
      * rewrite Hl. simpl. now f_equal.
      * constructor; [|assumption].
        rewrite Hs, Ht, Hl. simpl.
        split; [reflexivity|]. split; [reflexivity|].
        intros Hfail.
        rewrite (parse_protocol_info_failure _ _ dbConf Hfail).
        split; reflexivity.
Qed.

Lemma filter_trimmed (rawLinks : list string) :
  Forall trimmed rawLinks ->
  List.filter (fun l => negb (strings.eqb l EmptyString))
              (map strings.TrimSpace rawLinks) = rawLinks.
Proof.
  induction 1 as [|l rest [Ht Hne] _ IH]; [reflexivity|].
  simpl. rewrite Ht, IH.
  destruct (strings.eqb l EmptyString) eqn:E; [|reflexivity].
  apply String.eqb_eq in E. contradiction.
Qed.

(** C4. [parseLinks] is total and touches nothing outside: it returns
    one config per non-blank link, in the order of the input, each
    carrying the trimmed link and the owner it was given (so the links
    a retrieval returns, which are trimmed and not empty, are all
    retained as they are).  A link whose decoding fails or panics at
    any stage keeps an absent protocol and an absent remark. *)
Theorem parseLinks_retains (env : Env) (fc : FetchCommand)
    (rawLinks : list string) (subID : sql.NullInt64.t) (tr : trace) :
  let out := fst (parseLinks env fc rawLinks subID tr) in
  snd (parseLinks env fc rawLinks subID tr) = tr
  /\ map database.SubscriptionConfig.ConfigLink out
     = List.filter (fun l => negb (strings.eqb l EmptyString))
                   (map strings.TrimSpace rawLinks)
  /\ (Forall trimmed rawLinks ->
      map database.SubscriptionConfig.ConfigLink out = rawLinks)
  /\ Forall (fun conf =>
               database.SubscriptionConfig.SubscriptionID conf = subID
               /\ (DecodeFailure (core fc)
                     (database.SubscriptionConfig.ConfigLink conf) ->
                   database.SubscriptionConfig.Protocol conf = NullString_zero
                   /\ database.SubscriptionConfig.Remark conf = NullString_zero))
            out.
Proof.
  intros out. unfold out, parseLinks, bind, now, ret. simpl.
  destruct (parseLinks_loop_spec (core fc) subID (time_Now env tr) rawLinks)
    as [Hl Hf].
  split; [reflexivity|]. split; [exact Hl|]. split.
  - intros Htrim. rewrite Hl. now apply filter_trimmed.
  - eapply Forall_impl; [exact Hf|]. simpl. intros conf (Hs & _ & Hd). auto.
Qed.

Lemma parseLinks_retains_witness :
  map database.SubscriptionConfig.ConfigLink
    (fst (parseLinks (constant_env [] (serve "") None None None "")
            (mkFetchCommand sample_config no_core)
            ["vless://u@h:443?type=tcp#A"; "not a link"]
            (sql.NullInt64.mk 7 true) []))
  = ["vless://u@h:443?type=tcp#A"; "not a link"].
Proof.
  apply (proj1 (proj2 (proj2
           (parseLinks_retains (constant_env [] (serve "") None None None "")
              (mkFetchCommand sample_config no_core)
              ["vless://u@h:443?type=tcp#A"; "not a link"]
              (sql.NullInt64.mk 7 true) [])))).
  repeat constructor; discriminate.
Defined.

(** ** The retriever and the subscription URL (C1) *)

Lemma sends_log level format args : sends [EvLog level format args] = [].
Proof. reflexivity. Qed.

(** C1, as the code has it.  When [url.Parse] rejects the subscription
    URL, [FetchAll] returns the "invalid subscription URL" error and the
    trace is unchanged: no request is sent.  When [url.Parse] accepts
    the URL, absolute or not, exactly one request is sent, to the parsed
    URL. *)
Theorem FetchAll_invalid_URL (env : Env) (s : Subscription.t) (tr : trace) :
  (forall err,
      url.Parse (Subscription.Url s) = Err err ->
      FetchAll env s tr
      = ((s, Err (Errorf "invalid subscription URL %q: %w"
                         [AStr (Subscription.Url s); AErr err])), tr))
  /\ (forall u,
         url.Parse (Subscription.Url s) = Ok u ->
         exists method rest,
           snd (FetchAll env s tr)
           = tr ++ EvSend method u (nonempty (Subscription.UserAgent s))
                          (nonempty (Subscription.Proxy s)) :: rest
           /\ sends rest = []).
Proof.
  split.
  - intros err Hparse. unfold FetchAll. now rewrite Hparse.
  - intros u Hparse. unfold FetchAll. rewrite Hparse.
    set (s' := if strings.eqb (Subscription.Method s) EmptyString
               then Subscription.set_Method s "GET" else s).
    assert (Hua : Subscription.UserAgent s' = Subscription.UserAgent s)
      by (unfold s'; now destruct (strings.eqb _ _)).
    assert (Hpx : Subscription.Proxy s' = Subscription.Proxy s)
      by (unfold s'; now destruct (strings.eqb _ _)).
    rewrite Hua, Hpx.
    exists (Subscription.Method s').
    unfold bind, call, when, Printf, ret.
    destruct (http_Send env _) as [response|err]; simpl.
    + destruct ((StatusCode response <? 200) || (StatusCode response >=? 300));
        simpl.
      * exists []. split; reflexivity.
      * destruct (Body response) as [body|err]; simpl.
        -- destruct (is_Ok (utils.Base64Decode body)); simpl.
           ++ exists []. split; reflexivity.
           ++ eexists [_]. split; [now rewrite <- app_assoc|reflexivity].
        -- exists []. split; reflexivity.
    + exists []. split; reflexivity.
Qed.

Lemma FetchAll_invalid_URL_witness :
  FetchAll (constant_env [] (serve "") None None None "")
           (Subscription.mk "" "://invalid" "" "" [] "") []
  = ((Subscription.mk "" "://invalid" "" "" [] "",
      Err (Errorf "invalid subscription URL %q: %w"
             [AStr "://invalid";
              AErr (url_Error "parse" "://invalid"
                      (errors_New "missing protocol scheme"))])), [])
  /\ exists method rest,
      snd (FetchAll (constant_env [] (serve "") None None None "")
             (Subscription.mk "" "https://example.com/sub" "" "" [] "") [])
      = [] ++ EvSend method
                (url.mkURL "https" "" None "example.com" "/sub" "" false false "" "" "")
                None None :: rest
      /\ sends rest = [].
Proof.
  split.
  - apply (proj1 (FetchAll_invalid_URL
                    (constant_env [] (serve "") None None None "")
                    (Subscription.mk "" "://invalid" "" "" [] "") [])).
    reflexivity.
  - apply (proj2 (FetchAll_invalid_URL
                    (constant_env [] (serve "") None None None "")
                    (Subscription.mk "" "https://example.com/sub" "" "" [] "") [])).
    reflexivity.
Defined.

(** C1 as stated fails: a URL without a scheme is not absolute, yet
    [url.Parse] accepts it as a relative reference, so [FetchAll] sends
    the request and the error it returns is the one of the request. *)
Lemma FetchAll_sends_relative_URL :
  let s := Subscription.mk "" "example.com/sub" "" "" [] "" in
  let u := url.mkURL "" "" None "" "example.com/sub" "" false false "" "" "" in
  url.Parse (Subscription.Url s) = Ok u
  /\ url.IsAbs u = false
  /\ FetchAll (constant_env []
                 (Err (errors_New "unsupported protocol scheme"))
                 None None None "") s []
     = ((Subscription.set_Method s "GET",
         Err (Errorf "failed to fetch subscription: %w"
                [AErr (errors_New "unsupported protocol scheme")])),
        [EvSend "GET" u None None]).
Proof. repeat split. Qed.

(** ** The Wireguard decoder (C2, C5) *)

Section Wireguard.

Import strings url.

(** Every key of a parsed query has at least one value. *)
Lemma parseQuery_step_nonempty (m : Values) (seg : string) :
  map_Forall (fun _ vs => vs <> []) m ->
  map_Forall (fun _ vs => vs <> []) (parseQuery_step m seg).
Proof.
  intros Hm. unfold parseQuery_step.
  destruct (Contains seg ";"); [assumption|].
  destruct (eqb seg EmptyString); [assumption|].
  destruct (Cut seg "=") as [[key value] found].
  destruct (QueryUnescape key) as [key'|]; [|assumption].
  destruct (QueryUnescape value) as [value'|]; [|assumption].
  apply map_Forall_insert_2; [|assumption].
  now destruct (default [] (m !! key')).
Qed.

Lemma Query_nonempty (u : URL) : map_Forall (fun _ vs => vs <> []) (Query u).
Proof.
  unfold Query. destruct (eqb (RawQuery u) EmptyString).
  - apply map_Forall_empty.
  - generalize (Split (RawQuery u) "&"). intros segs.
    assert (H : map_Forall (fun _ (vs : list string) => vs <> [])
                           (∅ : Values)) by apply map_Forall_empty.
    revert H. generalize (∅ : Values).
    induction segs as [|seg segs IH]; intros m Hm; simpl; [assumption|].
    apply IH, parseQuery_step_nonempty, Hm.
Qed.

Lemma hex_roundtrip (c : ascii) :
  ishex (upperhex (byte c / 16)) = true
  /\ ishex (upperhex (byte c mod 16)) = true
  /\ ascii_of_N (unhex (upperhex (byte c / 16)) * 16
                 + unhex (upperhex (byte c mod 16))) = c.
Proof. destruct c as [[] [] [] [] [] [] [] []]; vm_compute; repeat split. Qed.

Lemma unescaped_plain (c : ascii) :
  shouldEscape c encodeUserPassword = false -> Ascii.eqb c "%" = false.
Proof. destruct c as [[] [] [] [] [] [] [] []]; vm_compute; congruence. Qed.

Lemma unescape_pct (h1 h2 : ascii) (rest : string) :
  ishex h1 = true -> ishex h2 = true ->
  unescape (String "%" (String h1 (String h2 rest))) encodePathSegment
  = match unescape rest encodePathSegment with
    | Ok t => Ok (String (ascii_of_N (unhex h1 * 16 + unhex h2)) t)
    | Err e => Err e
    end.
Proof. intros H1 H2. simpl. rewrite H1, H2. reflexivity. Qed.

Lemma unescape_plain (c : ascii) (s : string) :
  Ascii.eqb c "%" = false ->
  unescape (String c s) encodePathSegment
  = match unescape s encodePathSegment with
    | Ok t => Ok (String c t)
    | Err e => Err e
    end.
Proof.
  intros H. simpl. rewrite H.
  destruct (Ascii.eqb_spec c "+") as [->|]; reflexivity.
Qed.

Lemma unescape_escape (s t : string) :
  unescape (escape s encodeUserPassword +:+ t) encodePathSegment
  = match unescape t encodePathSegment with
    | Ok t' => Ok (s +:+ t')
    | Err e => Err e
    end.
Proof.
  induction s as [|c s IH].
  - simpl escape. rewrite append_nil.
    destruct (unescape t encodePathSegment); reflexivity.
  - simpl escape. destruct (shouldEscape c encodeUserPassword) eqn:E.
    + rewrite andb_false_r. rewrite !append_cons.
      destruct (hex_roundtrip c) as (H1 & H2 & H3).
      rewrite (unescape_pct _ _ _ H1 H2), H3, IH.
      destruct (unescape t encodePathSegment); reflexivity.
    + rewrite append_cons, (unescape_plain _ _ (unescaped_plain _ E)), IH.
      destruct (unescape t encodePathSegment); reflexivity.
Qed.

Lemma PathUnescape_Userinfo_String (u : option Userinfo) :
  exists key, PathUnescape (Userinfo_String u) = Ok key.
Proof.
  unfold PathUnescape, Userinfo_String.
  destruct u as [[username password passwordSet]|]; simpl; [|eauto].
  destruct passwordSet.
  - rewrite unescape_escape, append_cons, append_nil.
    rewrite (unescape_plain ":" _ eq_refl).
    rewrite <- (append_empty_r (escape password _)), unescape_escape. eauto.
  - rewrite <- (append_empty_r (escape username _)), unescape_escape. eauto.
Qed.

Lemma unescape_mode (s : string) :
  unescape s encodeFragment = unescape s encodePathSegment.
Proof.
  assert (H : forall n s, (String.length s <= n)%nat ->
              unescape s encodeFragment = unescape s encodePathSegment).
  { clear s. induction n as [|n IH]; intros s Hn.
    - destruct s; [reflexivity|simpl in Hn; lia].
    - destruct s as [|c s1]; [reflexivity|]. simpl in Hn.
      simpl. destruct (Ascii.eqb c "%").
      + destruct s1 as [|h1 [|h2 rest]]; try reflexivity.
        simpl in Hn. rewrite (IH rest) by lia. reflexivity.
      + rewrite (IH s1) by lia. reflexivity. }
  apply (H (String.length s)). lia.
Qed.

Lemma parse_Fragment (rawURL : string) (viaRequest : bool) (u : URL) :
  parse rawURL viaRequest = Ok u -> Fragment u = EmptyString.
Proof.
  unfold parse, setPath. intros H.
  repeat case_match; simplify_eq; reflexivity.
Qed.

Lemma Parse_Fragment (link : string) (uri : URL) :
  Parse link = Ok uri ->
  PathUnescape (Cut link "#").1.2 = Ok (Fragment uri).
Proof.
  unfold Parse, PathUnescape.
  destruct (Cut link "#") as [[u frag] found]. simpl.
  destruct (parse u false) as [url|] eqn:Hparse; [|discriminate].
  destruct (eqb frag EmptyString) eqn:Hfrag.
  - intros [= <-]. apply String.eqb_eq in Hfrag. subst frag.
    now rewrite (parse_Fragment _ _ _ Hparse).
  - unfold setFragment. rewrite unescape_mode.
    destruct (unescape frag encodePathSegment); [|discriminate].
    now intros [= <-].
Qed.

Lemma Parse_rejects_fragment (link : string) (e : error) :
  PathUnescape (Cut link "#").1.2 = Err e ->
  exists err, Parse link = Err err.
Proof.
  unfold Parse, PathUnescape.
  destruct (Cut link "#") as [[u frag] found]. simpl. intros Hfrag.
  destruct (parse u false) as [url|]; [|eauto].
  destruct (eqb frag EmptyString) eqn:E.
  - apply String.eqb_eq in E. subst frag. discriminate.
  - unfold setFragment. rewrite unescape_mode, Hfrag. eauto.
Qed.

Variable WireguardIdentifier : string.
Variable fields : list (Wireguard.field * string).
Variable Sscanf_d : string -> Z.

(** The loop over the fields never panics: [values[0]] exists. *)
Lemma Parse_fields_returns (uri : URL) (fs : list (Wireguard.field * string))
    (w : Wireguard.t) :
  exists w', Wireguard.Parse_fields Sscanf_d uri fs w = Returns w'.
Proof.
  revert w. induction fs as [|[f tag] fs IH]; intros w; simpl; [eauto|].
  destruct (Query uri !! tag) as [values|] eqn:Hq; [|apply IH].
  destruct values as [|value values].
  - now destruct (Query_nonempty uri tag [] Hq).
  - destruct (Wireguard.kind_of f); apply IH.
Qed.

Lemma Remark_SetString (w : Wireguard.t) (remark : string) :
  Wireguard.Remark (Wireguard.SetString w Wireguard.FRemark remark) = remark.
Proof. reflexivity. Qed.

End Wireguard.

(** C5, as the code has it.  Take a link that starts with the
    Wireguard identifier, and call fragment the text after its first
    [#].  If [url.Parse] accepts the link, [Parse] succeeds without a
    panic; the [Fragment] field of the parsed URL is the fragment
    percent-decoded once, and the remark is that field percent-decoded
    once more, or the field itself when this second decoding fails.
    If the fragment of the link fails percent-decoding, [url.Parse]
    rejects the link and [Parse] returns the error of [url.Parse] with
    the receiver unchanged: the fallback to the raw fragment is never
    reached. *)
Theorem Wireguard_Parse_remark (WireguardIdentifier : string)
    (fields : list (Wireguard.field * string)) (Sscanf_d : string -> Z)
    (w : Wireguard.t) :
  let link := Wireguard.OrigLink w in
  let fragment := (strings.Cut link "#").1.2 in
  strings.HasPrefix link WireguardIdentifier = true ->
  (forall uri,
      url.Parse link = Ok uri ->
      exists w',
        Wireguard.Parse WireguardIdentifier fields Sscanf_d w = Returns (w', None)
        /\ url.PathUnescape fragment = Ok (url.Fragment uri)
        /\ Wireguard.Remark w'
           = match url.PathUnescape (url.Fragment uri) with
             | Ok remark => remark
             | Err _ => url.Fragment uri
             end)
  /\ (forall e,
         url.PathUnescape fragment = Err e ->
         exists err,
           url.Parse link = Err err
           /\ Wireguard.Parse WireguardIdentifier fields Sscanf_d w
              = Returns (w, Some err)).
Proof.
  intros link fragment Hprefix. split.
  - intros uri Hparse. unfold Wireguard.Parse. fold link.
    rewrite Hprefix, Hparse. cbn [negb].
    destruct (PathUnescape_Userinfo_String (url.User_ uri)) as [key ->].
    destruct (Parse_fields_returns Sscanf_d uri fields
                (Wireguard.SetString
                   (Wireguard.SetString w Wireguard.FSecretKey key)
                   Wireguard.FEndpoint (url.Host uri))) as [w' ->].
    eexists. split; [reflexivity|].
    split; [now apply Parse_Fragment|apply Remark_SetString].
  - intros e Hfrag. unfold Wireguard.Parse. fold link.
    rewrite Hprefix. cbn [negb].
    destruct (Parse_rejects_fragment link e Hfrag) as [err Herr].
    exists err. split; [exact Herr|]. now rewrite Herr.
Qed.

Lemma Wireguard_Parse_remark_witness :
  (exists w',
      sample_Parse "wireguard://secret@1.2.3.4:51820#50%25" = Returns (w', None)
      /\ Wireguard.Remark w' = "50%")
  /\ exists err,
      url.Parse "wireguard://secret@1.2.3.4:51820#50%" = Err err
      /\ sample_Parse "wireguard://secret@1.2.3.4:51820#50%"
         = Returns (Wireguard.NewWireguard_t "wireguard://secret@1.2.3.4:51820#50%",
                    Some err).
Proof.
  split.
  - destruct (proj1 (Wireguard_Parse_remark "wireguard://" sample_fields
                       sample_Sscanf_d
                       (Wireguard.NewWireguard_t
                          "wireguard://secret@1.2.3.4:51820#50%25")
                       eq_refl)
                (url.mkURL "wireguard" "" (Some (url.User "secret"))
                   "1.2.3.4:51820" "" "" false false "" "50%" "")
                eq_refl) as (w' & HP & _ & HR).
    exists w'. split; [exact HP|exact HR].
  - apply (proj2 (Wireguard_Parse_remark "wireguard://" sample_fields
                    sample_Sscanf_d
                    (Wireguard.NewWireguard_t
                       "wireguard://secret@1.2.3.4:51820#50%")
                    eq_refl)
             (url_EscapeError "%")).
    reflexivity.
Defined.

(** C5 as stated fails on both counts.  The fragment [50%] fails
    percent-decoding, and the parse as a whole fails instead of keeping
    the raw text; the fragment [%2541] percent-decodes to [%41], and
    the remark is [A]: the fragment decoded twice. *)
Lemma Wireguard_Parse_raw_fragment_counterexample :
  (url.PathUnescape "50%" = Err (url_EscapeError "%")
   /\ sample_Parse "wireguard://k@h:1#50%"
      = Returns (Wireguard.NewWireguard_t "wireguard://k@h:1#50%",
                 Some (url_Error "parse" "wireguard://k@h:1#50%"
                         (url_EscapeError "%"))))
  /\ (url.PathUnescape "%2541" = Ok "%41"
      /\ exists w',
          sample_Parse "wireguard://k@h:1#%2541" = Returns (w', None)
          /\ Wireguard.Remark w' = "A").
Proof.
  split; [split; reflexivity|].
  split; [reflexivity|].
  eexists. split; reflexivity.
Qed.

Lemma ConvertToGeneralConfig_Remark (w : Wireguard.t) :
  protocol.GeneralConfig.Remark (Wireguard.ConvertToGeneralConfig w)
  = EmptyString.
Proof. reflexivity. Qed.

(** C2 at the failing input.  The link parses, and [Parse] stores the
    remark [MyWG] of the fragment in the decoder; the summary has the
    fixed protocol name and the host component as address, but its
    remark is empty, so the stored config has an absent remark. *)
Theorem Wireguard_summary_drops_remark :
  let link := "wireguard://secret@1.2.3.4:51820#MyWG" in
  exists w',
    sample_Parse link = Returns (w', None)
    /\ Wireguard.Remark w' = "MyWG"
    /\ Wireguard.ConvertToGeneralConfig w'
       = protocol.GeneralConfig.mk "wireguard" "1.2.3.4:51820" ""
    /\ fst (parseLinks (constant_env [] (serve "") None None None "")
              (mkFetchCommand sample_config wireguard_core)
              [link] (sql.NullInt64.mk 7 true) [])
       = [database.SubscriptionConfig.mk 0 (sql.NullInt64.mk 7 true) link
            (sql.NullString.mk "wireguard" true)
            (sql.NullString.mk "" false)
            (sql.NullTime.mk 1700000000 true)].
Proof.
  eexists. split; [reflexivity|]. repeat split.
Qed.

(** ** The body of a retrieval and base64 (C3) *)

Section Base64.

Import strings base64.

Lemma byte_lt (c : ascii) : (byte c < 256)%N.
Proof. apply N_ascii_bounded. Qed.

Lemma ascii_of_byte (c : ascii) : ascii_of_N (byte c) = c.
Proof. apply ascii_N_embedding. Qed.

Lemma alphabet (v : N) :
  (v < 64)%N ->
  decodeStd (encodeStd v) = Some v
  /\ Ascii.eqb (encodeStd v) "=" = false
  /\ Ascii.eqb (encodeStd v) "010" = false
  /\ Ascii.eqb (encodeStd v) "013" = false.
Proof.
  intros Hv.
  assert (H : forallb (fun n =>
                let v := N.of_nat n in
                match decodeStd (encodeStd v) with
                | Some v' => (v' =? v)%N
                | None => false
                end
                && negb (Ascii.eqb (encodeStd v) "=")
                && negb (Ascii.eqb (encodeStd v) "010")
                && negb (Ascii.eqb (encodeStd v) "013"))
              (seq 0 64) = true) by (vm_compute; reflexivity).
  rewrite forallb_forall in H.
  specialize (H (N.to_nat v)). rewrite N2Nat.id in H.
  assert (Hin : In (N.to_nat v) (seq 0 64)) by (apply in_seq; lia).
  apply H in Hin. clear H.
  repeat (apply andb_prop in Hin; destruct Hin as [Hin ?]).
  destruct (decodeStd (encodeStd v)) as [v'|]; [|discriminate].
  apply N.eqb_eq in Hin. subst v'.
  repeat split; now apply negb_true_iff.
Qed.

Lemma divmod_pack (a c k : N) :
  (c < k -> (a * k + c) / k = a /\ (a * k + c) mod k = c)%N.
Proof.
  intros Hc. split; symmetry.
  - apply (N.div_unique _ _ _ c); lia.
  - apply (N.mod_unique _ _ a); lia.
Qed.

Lemma sextets (x y z : N) :
  (x < 256 -> y < 256 -> z < 256 ->
   let s1 := x / 4 in
   let s2 := x mod 4 * 16 + y / 16 in
   let s3 := y mod 16 * 4 + z / 64 in
   let s4 := z mod 64 in
   (s1 < 64 /\ s2 < 64 /\ s3 < 64 /\ s4 < 64)
   /\ s1 * 4 + s2 / 16 = x
   /\ s2 mod 16 * 16 + s3 / 4 = y
   /\ s3 mod 4 * 64 + s4 = z)%N.
Proof.
  intros Hx Hy Hz.
  pose proof (N.div_mod x 4 ltac:(lia)) as Ex.
  pose proof (N.mod_lt x 4 ltac:(lia)) as Bx.
  pose proof (N.div_mod y 16 ltac:(lia)) as Ey.
  pose proof (N.mod_lt y 16 ltac:(lia)) as By.
  pose proof (N.div_mod z 64 ltac:(lia)) as Ez.
  pose proof (N.mod_lt z 64 ltac:(lia)) as Bz.
  revert Ex Bx Ey By Ez Bz.
  generalize (x / 4)%N (x mod 4)%N (y / 16)%N (y mod 16)%N
             (z / 64)%N (z mod 64)%N.
  intros a1 b1 c1 d1 e1 f1 Ex Bx Ey By Ez Bz. cbv zeta.
  assert (Hc : (c1 < 16)%N) by lia.
  assert (He : (e1 < 4)%N) by lia.
  destruct (divmod_pack b1 c1 16 Hc) as [-> ->].
  destruct (divmod_pack d1 e1 4 He) as [-> ->].
  lia.
Qed.

Lemma skip_newlines_Encode (s : string) :
  skip_newlines (EncodeToString s) = EncodeToString s.
Proof.
  assert (H : forall n s, (String.length s <= n)%nat ->
              skip_newlines (EncodeToString s) = EncodeToString s).
  { clear s. induction n as [|n IH]; intros s Hn.
    - destruct s; [reflexivity|simpl in Hn; lia].
    - destruct s as [|a [|b [|c rest]]]; [reflexivity| | |].
      + pose proof (byte_lt a) as Ha.
        destruct (sextets (byte a) 0 0 Ha) as [(H1 & H2 & _) _]; [lia..|].
        rewrite N.add_0_r in H2.
        destruct (alphabet _ H1) as (_ & _ & N1 & R1).
        destruct (alphabet _ H2) as (_ & _ & N2 & R2).
        cbn [EncodeToString skip_newlines]. rewrite N1, R1, N2, R2.
        reflexivity.
      + pose proof (byte_lt a) as Ha. pose proof (byte_lt b) as Hb.
        destruct (sextets (byte a) (byte b) 0 Ha Hb) as [(H1 & H2 & H3 & _) _];
          [lia|]. rewrite N.add_0_r in H3.
        destruct (alphabet _ H1) as (_ & _ & N1 & R1).
        destruct (alphabet _ H2) as (_ & _ & N2 & R2).
        destruct (alphabet _ H3) as (_ & _ & N3 & R3).
        cbn [EncodeToString skip_newlines]. rewrite N1, R1, N2, R2, N3, R3.
        reflexivity.
      + pose proof (byte_lt a) as Ha. pose proof (byte_lt b) as Hb.
        pose proof (byte_lt c) as Hc.
        destruct (sextets (byte a) (byte b) (byte c) Ha Hb Hc)
          as [(H1 & H2 & H3 & H4) _].
        destruct (alphabet _ H1) as (_ & _ & N1 & R1).
        destruct (alphabet _ H2) as (_ & _ & N2 & R2).
        destruct (alphabet _ H3) as (_ & _ & N3 & R3).
        destruct (alphabet _ H4) as (_ & _ & N4 & R4).
        cbn [EncodeToString skip_newlines].
        rewrite N1, R1, N2, R2, N3, R3, N4, R4. cbn [orb].
        rewrite IH; [reflexivity|]. simpl in Hn. lia. }
  apply (H (String.length s)). lia.
Qed.

Lemma decodeQuanta_Encode (s : string) :
  decodeQuanta (EncodeToString s) = Ok s.
Proof.
  assert (H : forall n s, (String.length s <= n)%nat ->
              decodeQuanta (EncodeToString s) = Ok s).
  { clear s. induction n as [|n IH]; intros s Hn.
    - destruct s; [reflexivity|simpl in Hn; lia].
    - destruct s as [|a [|b [|c rest]]]; [reflexivity| | |].
      + pose proof (byte_lt a) as Ha.
        destruct (sextets (byte a) 0 0 Ha) as [(H1 & H2 & _) (E1 & _)]; [lia..|].
        rewrite N.add_0_r in H2, E1.
        destruct (alphabet _ H1) as (D1 & _).
        destruct (alphabet _ H2) as (D2 & _).
        cbn [EncodeToString decodeQuanta]. rewrite D1, D2, E1, ascii_of_byte.
        reflexivity.
      + pose proof (byte_lt a) as Ha. pose proof (byte_lt b) as Hb.
        destruct (sextets (byte a) (byte b) 0 Ha Hb)
          as [(H1 & H2 & H3 & _) (E1 & E2 & _)]; [lia|].
        rewrite N.add_0_r in H3, E2.
        destruct (alphabet _ H1) as (D1 & _).
        destruct (alphabet _ H2) as (D2 & _).
        destruct (alphabet _ H3) as (D3 & P3 & _).
        cbn [EncodeToString decodeQuanta].
        rewrite D1, D2, P3, D3, E1, E2, !ascii_of_byte.
        reflexivity.
      + pose proof (byte_lt a) as Ha. pose proof (byte_lt b) as Hb.
        pose proof (byte_lt c) as Hc.
        destruct (sextets (byte a) (byte b) (byte c) Ha Hb Hc)
          as [(H1 & H2 & H3 & H4) (E1 & E2 & E3)].
        destruct (alphabet _ H1) as (D1 & _).
        destruct (alphabet _ H2) as (D2 & _).
        destruct (alphabet _ H3) as (D3 & P3 & _).
        destruct (alphabet _ H4) as (D4 & P4 & _).
        cbn [EncodeToString decodeQuanta].
        rewrite D1, D2, P3, D3, P4, D4, E1, E2, E3, !ascii_of_byte.
        rewrite IH; [reflexivity|]. simpl in Hn. lia. }
  apply (H (String.length s)). lia.
Qed.

(** Decoding inverts encoding. *)
Lemma Base64Decode_Encode (s : string) :
  utils.Base64Decode (EncodeToString s) = Ok s.
Proof.
  unfold utils.Base64Decode, DecodeString.
  rewrite skip_newlines_Encode. apply decodeQuanta_Encode.
Qed.

Lemma skip_newlines_foreign (s : string) (c : ascii) :
  foreign c -> In c (list_ascii_of_string s) ->
  In c (list_ascii_of_string (skip_newlines s)).
Proof.
  intros (_ & _ & Hn & Hr). induction s as [|d s IH]; simpl; [tauto|].
  intros [->|Hin].
  - rewrite Hn, Hr. simpl. now left.
  - destruct (Ascii.eqb d "010" || Ascii.eqb d "013"); simpl; auto.
Qed.

Lemma decodeQuanta_foreign (s : string) (c : ascii) :
  foreign c -> In c (list_ascii_of_string s) ->
  exists e, decodeQuanta s = Err e.
Proof.
  intros (Hd & Hp & _). apply Ascii.eqb_neq in Hp.
  assert (H : forall n s, (String.length s <= n)%nat ->
              In c (list_ascii_of_string s) -> exists e, decodeQuanta s = Err e).
  { clear s. induction n as [|n IH]; intros s Hn Hin.
    - destruct s; [destruct Hin|simpl in Hn; lia].
    - destruct s as [|c1 [|c2 [|c3 [|c4 rest]]]]; simpl; eauto.
      + destruct Hin.
      + simpl in Hin, Hn.
        destruct (decodeStd c1) as [v1|] eqn:D1; [|eauto].
        destruct (decodeStd c2) as [v2|] eqn:D2; [|eauto].
        destruct (Ascii.eqb_spec c3 "=") as [->|N3].
        { destruct (Ascii.eqb_spec c4 "=") as [->|N4]; simpl; [|eauto].
          destruct rest; simpl; [|eauto].
          destruct Hin as [<-|[<-|[<-|[<-|[]]]]]; congruence. }
        destruct (decodeStd c3) as [v3|] eqn:D3; [|eauto].
        destruct (Ascii.eqb_spec c4 "=") as [->|N4].
        { destruct rest; simpl; [|eauto].
          destruct Hin as [<-|[<-|[<-|[<-|[]]]]]; congruence. }
        destruct (decodeStd c4) as [v4|] eqn:D4; [|eauto].
        destruct (IH rest) as [e ->]; [lia| |eauto].
        destruct Hin as [<-|[<-|[<-|[<-|Hin]]]]; congruence || assumption. }
  apply (H (String.length s)). lia.
Qed.

End Base64.

(** What the retriever returns when the server answers with a success
    status and a readable body. *)
Lemma FetchAll_body_links (env : Env) (s : Subscription.t) (tr : trace)
    (u : url.URL) (response : Response) (body : string) :
  url.Parse (Subscription.Url s) = Ok u ->
  (forall method,
      http_Send env (tr ++ [EvSend method u (nonempty (Subscription.UserAgent s))
                              (nonempty (Subscription.Proxy s))]) = Ok response) ->
  200 <= StatusCode response < 300 ->
  Body response = Ok body ->
  snd (fst (FetchAll env s tr)) = Ok (body_links body).
Proof.
  intros Hparse Hsend Hstatus Hbody. unfold FetchAll. rewrite Hparse.
  set (s' := if strings.eqb (Subscription.Method s) EmptyString
             then Subscription.set_Method s "GET" else s).
  assert (Hua : Subscription.UserAgent s' = Subscription.UserAgent s)
    by (unfold s'; now destruct (strings.eqb _ _)).
  assert (Hpx : Subscription.Proxy s' = Subscription.Proxy s)
    by (unfold s'; now destruct (strings.eqb _ _)).
  unfold bind, call. rewrite Hua, Hpx, Hsend.
  destruct (Z.ltb_spec (StatusCode response) 200); [lia|].
  destruct (Z.geb_spec (StatusCode response) 300); [lia|].
  simpl. rewrite Hbody. unfold when, Printf, ret.
  now destruct (is_Ok (utils.Base64Decode body)).
Qed.

(** C3, as the code has it.  The links read from the base64 encoding
    of [L] are always the trimmed non-empty lines of [L], in order.
    The links read from [L] itself are the same list whenever [L] does
    not decode as base64, which is the case as soon as [L] holds a
    character that the decoder neither decodes nor skips, such as the
    colon of a link. *)
Theorem body_links_base64_roundtrip (L : string) :
  body_links (base64.EncodeToString L) = filter_lines (strings.Split L "010")
  /\ (forall e,
         utils.Base64Decode L = Err e ->
         body_links (base64.EncodeToString L) = body_links L)
  /\ (forall c,
         In c (list_ascii_of_string L) -> foreign c ->
         body_links (base64.EncodeToString L) = body_links L).
Proof.
  assert (Henc : body_links (base64.EncodeToString L)
                 = filter_lines (strings.Split L "010")).
  { unfold body_links, body_lines. now rewrite Base64Decode_Encode. }
  assert (Hraw : forall e, utils.Base64Decode L = Err e ->
                   body_links (base64.EncodeToString L) = body_links L).
  { intros e He. rewrite Henc. unfold body_links, body_lines. now rewrite He. }
  split; [exact Henc|]. split; [exact Hraw|].
  intros c Hin Hc.
  destruct (decodeQuanta_foreign (base64.skip_newlines L) c Hc) as [e He].
  - now apply skip_newlines_foreign.
  - now apply (Hraw e).
Qed.

Lemma body_links_base64_roundtrip_witness :
  let L := "vless://u@h:443?type=tcp#A" +:+ nl +:+ "vmess://x" +:+ nl in
  body_links (base64.EncodeToString L) = body_links L
  /\ body_links L = ["vless://u@h:443?type=tcp#A"; "vmess://x"].
Proof.
  split; [|reflexivity].
  apply (proj2 (proj2 (body_links_base64_roundtrip
                         ("vless://u@h:443?type=tcp#A" +:+ nl
                          +:+ "vmess://x" +:+ nl))) ":"%char).
  - vm_compute. do 5 right. left. reflexivity.
  - repeat split.
Defined.

(** C3 as stated fails for a list that is itself valid base64: the one
    line [abcd] comes back from its encoding, but read directly it is
    decoded into three other bytes. *)
Lemma body_links_base64_counterexample :
  body_links (base64.EncodeToString "abcd") = ["abcd"]
  /\ body_links "abcd"
     = [String (ascii_of_N 105) (String (ascii_of_N 183)
          (String (ascii_of_N 29) EmptyString))]
  /\ body_links (base64.EncodeToString "abcd") <> body_links "abcd".
Proof. repeat split. discriminate. Qed.

(** ** The fan-out modes (C8) *)


Lemma FetchAll_extends (env : Env) (s : Subscription.t) (tr : trace) :
  exists evs, snd (FetchAll env s tr) = tr ++ evs.
Proof.
  unfold FetchAll. destruct (url.Parse (Subscription.Url s)) as [u|err].
  - unfold bind, call, when, Printf, ret.
    destruct (http_Send env _) as [response|err]; simpl; [|eauto].
    destruct ((StatusCode response <? 200) || (StatusCode response >=? 300));
      simpl; [eauto|].
    destruct (Body response) as [body|err]; simpl; [|eauto].
    destruct (is_Ok (utils.Base64Decode body)); simpl; [eauto|].
    eexists. now rewrite <- app_assoc.
  - exists []. simpl. now rewrite app_nil_r.
Qed.

Lemma len_pos {A} (l : list A) : (len l >? 0) = true <-> l <> [].
Proof.
  unfold len. destruct l as [|a l]; simpl length.
  - split; [discriminate|congruence].
  - split; [discriminate|]. intros _. apply Z.gtb_lt. lia.
Qed.

Ltac in_trace :=
  repeat (rewrite <- app_assoc); simpl;
  repeat first [ left; reflexivity | right | apply in_or_app; right; simpl ].

Lemma fetchFromFile_task_spec (env : Env) (fc : FetchCommand) (n : Z)
    (x : string) (v : PoolVars) (tr : trace) :
  let task := fetchFromFile_task env fc n in
  let fails := file_source_fails env fc n in
  let configs := file_source_configs env fc n in
  (exists evs,
      snd (task x v tr) = tr ++ evs
      /\ (fails x v tr = false -> configs x v tr <> [] ->
          In (EvUpsertSubscriptionConfigs (configs x v tr)) evs))
  /\ failedCount (fst (task x v tr))
     = failedCount v + (if fails x v tr then 1 else 0)
  /\ allConfigs (fst (task x v tr))
     = allConfigs v ++ (if fails x v tr then [] else configs x v tr).
Proof.
  intros task fails configs.
  unfold task, fails, configs, fetchFromFile_task, file_source_fails,
    file_source_configs, fetch_or_save_fails, fetched_configs, file_start,
    file_source.
  unfold bind, Printf, parseLinks, now, ret, UpsertSubscriptionConfigs, call.
  simpl.
  match goal with |- context [FetchAll env ?s ?t] =>
    destruct (FetchAll_extends env s t) as [evs Hext];
    destruct (FetchAll env s t) as [[s' [rawLinks|err]] tr1] end;
    simpl in Hext; subst tr1.
  - set (dbConfigs := parseLinks_loop _ _ _ rawLinks).
    destruct (len dbConfigs >? 0) eqn:Hlen; simpl.
    + destruct (db_UpsertSubscriptionConfigs env _) as [err|]; simpl.
      * split; [|split; [reflexivity|now rewrite app_nil_r]].
        eexists. split; [now rewrite <- !app_assoc|discriminate].
      * split; [|split; [lia|reflexivity]].
        eexists. split; [now rewrite <- !app_assoc|].
        intros _ _. in_trace.
    + split; [|split; [lia|reflexivity]].
      eexists. split; [now rewrite <- !app_assoc|].
      intros _ Hne. apply len_pos in Hne. congruence.
  - split; [|split; [reflexivity|now rewrite app_nil_r]].
    eexists. split; [now rewrite <- !app_assoc|discriminate].
Qed.

Lemma fetchAllSubscriptions_task_spec (env : Env) (fc : FetchCommand) (n : Z)
    (x : database.Subscription.t) (v : PoolVars) (tr : trace) :
  let task := fetchAllSubscriptions_task env fc n in
  let fails := enabled_source_fails env fc n in
  let configs := enabled_source_configs env fc n in
  (exists evs,
      snd (task x v tr) = tr ++ evs
      /\ (fails x v tr = false -> configs x v tr <> [] ->
          In (EvUpsertSubscriptionConfigs (configs x v tr)) evs))
  /\ failedCount (fst (task x v tr))
     = failedCount v + (if fails x v tr then 1 else 0)
  /\ allConfigs (fst (task x v tr))
     = allConfigs v ++ (if fails x v tr then [] else configs x v tr).
Proof.
  intros task fails configs.
  unfold task, fails, configs, fetchAllSubscriptions_task,
    enabled_source_fails, enabled_source_configs, fetch_or_save_fails,
    fetched_configs, enabled_start, enabled_source, enabled_remark.
  unfold bind, Printf, parseLinks, now, ret, UpsertSubscriptionConfigs,
    UpdateSubscriptionFetched, call, bind, now.
  simpl.
  match goal with |- context [FetchAll env ?s ?t] =>
    destruct (FetchAll_extends env s t) as [evs Hext];
    destruct (FetchAll env s t) as [[s' [rawLinks|err]] tr1] end;
    simpl in Hext; subst tr1.
  - set (dbConfigs := parseLinks_loop _ _ _ rawLinks).
    destruct (len dbConfigs >? 0) eqn:Hlen; simpl.
    + destruct (db_UpsertSubscriptionConfigs env _) as [err|]; simpl.
      * split; [|split; [reflexivity|now rewrite app_nil_r]].
        eexists. split; [now rewrite <- !app_assoc|discriminate].
      * destruct (db_UpdateSubscriptionFetched env _) as [err|]; simpl.
        -- split; [|split; [lia|reflexivity]].
           eexists. split; [now rewrite <- !app_assoc|].
           intros _ _. in_trace.
        -- split; [|split; [lia|reflexivity]].
           eexists. split; [now rewrite <- !app_assoc|].
           intros _ _. in_trace.
    + split; [|split; [lia|reflexivity]].
      eexists. split; [now rewrite <- !app_assoc|].
      intros _ Hne. apply len_pos in Hne. congruence.
  - split; [|split; [reflexivity|now rewrite app_nil_r]].
    eexists. split; [now rewrite <- !app_assoc|discriminate].
Qed.

Lemma finish_batch_result (env : Env) (fc : FetchCommand) (v : PoolVars)
    (failure : Z -> error) (tr : trace) :
  let run := finish_batch env fc v failure tr in
  (0 < failedCount v -> exists err, fst run = Some err)
  /\ (forall err,
         fst run = Some err ->
         0 < failedCount v
         \/ exists werr,
             err = Errorf "failed to save configurations to file: %w" [AErr werr])
  /\ exists evs,
      snd run
      = tr ++ EvLog Finished
                ("All done: %d links fetched, %d configs saved, %d failed." +:+ nl)
                [AInt (totalRaw v); AInt (len (allConfigs v));
                 AInt (failedCount v)] :: evs.
Proof.
  unfold finish_batch, bind, Printf, saveConfigsToFile, call, ret. simpl.
  destruct (negb (strings.eqb (FetchConfig.OutputFile (config fc)) EmptyString)
            && (len (allConfigs v) >? 0)); simpl.
  - destruct (fs_WriteIntoFile env _) as [werr|]; simpl.
    + split; [eauto|]. split; [|eexists; now rewrite <- !app_assoc].
      intros err [= <-]. right. eauto.
    + destruct (Z.gtb_spec (failedCount v) 0); simpl.
      * split; [eauto|]. split; [|eexists; now rewrite <- !app_assoc].
        intros err _. now left.
      * split; [lia|]. split; [|eexists; now rewrite <- !app_assoc].
        discriminate.
  - destruct (Z.gtb_spec (failedCount v) 0); simpl.
    + split; [eauto|]. split; [|eexists; reflexivity].
      intros err _. now left.
    + split; [lia|]. split; [|eexists; reflexivity]. discriminate.
Qed.


Lemma finish_batch_outcome (env : Env) (fc : FetchCommand) (v : PoolVars)
    (failure : Z -> error) (tr : trace) :
  let totals :=
    EvLog Finished
      ("All done: %d links fetched, %d configs saved, %d failed." +:+ nl)
      [AInt (totalRaw v); AInt (len (allConfigs v)); AInt (failedCount v)] in
  let write :=
    EvWriteIntoFile (FetchConfig.OutputFile (config fc))
      (strings.Join (map database.SubscriptionConfig.ConfigLink (allConfigs v)) nl
       +:+ nl) in
  let writes :=
    FetchConfig.OutputFile (config fc) <> EmptyString /\ allConfigs v <> [] in
  let written := fs_WriteIntoFile env (tr ++ [totals; write]) in
  let run := finish_batch env fc v failure tr in
  (forall err,
      fst run = Some err ->
      0 < failedCount v
      \/ exists werr,
          writes /\ written = Some werr
          /\ err = Errorf "failed to save configurations to file: %w" [AErr werr])
  /\ (failedCount v <= 0 -> (writes -> written = None) -> fst run = None)
  /\ exists rest,
      snd run = tr ++ totals :: rest
      /\ (writes -> exists rest', rest = write :: rest').
Proof.
  intros totals write writes written run.
  assert (E : (tr ++ [totals]) ++ [write] = tr ++ [totals; write])
    by now rewrite <- app_assoc.
  unfold written, run, finish_batch, bind, Printf, saveConfigsToFile, call, ret.
  clear written run. fold totals. fold write. unfold strings.eqb.
  destruct (String.eqb_spec (FetchConfig.OutputFile (config fc)) EmptyString)
    as [Hout|Hout]; cbn [negb andb].
  - assert (Hw : ~ writes) by (intros [H _]; now apply H).
    destruct (Z.gtb_spec (failedCount v) 0); cbn [fst snd].
    + split; [now left|]. split; [lia|]. exists []. now split.
    + split; [discriminate|]. split; [reflexivity|]. exists []. now split.
  - destruct (allConfigs v) as [|conf confs] eqn:Hall.
    + assert (Hw : ~ writes) by (intros [_ H]; now apply H).
      change (len [] >? 0) with false. cbv iota.
      destruct (Z.gtb_spec (failedCount v) 0); cbn [fst snd].
      * split; [now left|]. split; [lia|]. exists []. now split.
      * split; [discriminate|]. split; [reflexivity|]. exists []. now split.
    + assert (Hw : writes) by (split; [exact Hout|discriminate]).
      assert (Hlen : (len (conf :: confs) >? 0) = true)
        by (apply Z.gtb_lt; unfold len; simpl length; lia).
      rewrite Hlen. cbv iota. cbv beta. rewrite E.
      destruct (fs_WriteIntoFile env (tr ++ [totals; write])) as [werr|];
        cbn [fst snd].
      * split; [intros err [= <-]; right; eauto|].
        split; [intros _ H; now specialize (H Hw)|].
        exists [write]. split; [reflexivity|eauto].
      * destruct (Z.gtb_spec (failedCount v) 0); cbn [fst snd].
        -- split; [now left|]. split; [lia|].
           eexists [write; _]. split; [now rewrite <- app_assoc|eauto].
        -- split; [discriminate|]. split; [reflexivity|].
           eexists [write; _]. split; [now rewrite <- app_assoc|eauto].
Qed.

(** A run of the pool, for any task that satisfies the specification
    both modes share: the trace grows, a failing task adds one to the
    failure counter and nothing to the list, another task adds its
    configs to the list after their upsert. *)
Section Pool.

Context {T : Type}.
Variable env : Env.
Variable fc : FetchCommand.
Variable task : T -> PoolVars -> M PoolVars.
Variable fails : T -> PoolVars -> trace -> bool.
Variable configs : T -> PoolVars -> trace -> list database.SubscriptionConfig.t.

Hypothesis task_spec : forall x v tr,
  (exists evs,
      snd (task x v tr) = tr ++ evs
      /\ (fails x v tr = false -> configs x v tr <> [] ->
          In (EvUpsertSubscriptionConfigs (configs x v tr)) evs))
  /\ failedCount (fst (task x v tr))
     = failedCount v + (if fails x v tr then 1 else 0)
  /\ allConfigs (fst (task x v tr))
     = allConfigs v ++ (if fails x v tr then [] else configs x v tr).

Lemma run_tasks_cons x l v tr :
  run_tasks task (x :: l) v tr
  = run_tasks task l (fst (task x v tr)) (snd (task x v tr)).
Proof. simpl. unfold bind. now destruct (task x v tr). Qed.

Lemma run_tasks_grows l v tr :
  (exists evs, snd (run_tasks task l v tr) = tr ++ evs)
  /\ (exists more, allConfigs (fst (run_tasks task l v tr)) = allConfigs v ++ more)
  /\ failedCount v <= failedCount (fst (run_tasks task l v tr)).
Proof.
  revert v tr. induction l as [|x l IH]; intros v tr.
  - simpl. repeat split; [exists []|exists []|lia]; now rewrite app_nil_r.
  - rewrite run_tasks_cons.
    destruct (task_spec x v tr) as ((evs & Htr & _) & Hf & Hc).
    destruct (IH (fst (task x v tr)) (snd (task x v tr)))
      as ((evs' & Htr') & (more & Hc') & Hf').
    split; [|split].
    + exists (evs ++ evs'). now rewrite Htr', Htr, app_assoc.
    + eexists. rewrite Hc', Hc, <- app_assoc. reflexivity.
    + rewrite Hf in Hf'. destruct (fails x v tr); lia.
Qed.

Lemma run_tasks_failed l v tr :
  failedCount v < failedCount (fst (run_tasks task l v tr))
  <-> some_source_fails task fails l v tr.
Proof.
  revert v tr. induction l as [|x l IH]; intros v tr.
  - simpl. split; [lia|].
    intros (before & y & after & ? & ? & E & _). now destruct before.
  - rewrite run_tasks_cons.
    destruct (task_spec x v tr) as (_ & Hf & _).
    destruct (run_tasks_grows l (fst (task x v tr)) (snd (task x v tr)))
      as (_ & _ & Hge).
    split.
    + intros Hlt. destruct (fails x v tr) eqn:Hx.
      * exists [], x, l, v, tr. repeat split. exact Hx.
      * assert (Hlt' : failedCount (fst (task x v tr))
                       < failedCount (fst (run_tasks task l (fst (task x v tr))
                                             (snd (task x v tr))))) by lia.
        apply IH in Hlt'.
        destruct Hlt' as (before & y & after & v1 & tr1 & -> & Hrun & Hy).
        exists (x :: before), y, after, v1, tr1. repeat split; [|exact Hy].
        now rewrite run_tasks_cons.
    + intros (before & y & after & v1 & tr1 & E & Hrun & Hy).
      destruct before as [|x' before]; simpl in E;
        [injection E as <- <-|injection E as <- ->].
      * simpl in Hrun. injection Hrun as <- <-. rewrite Hy in Hf. lia.
      * rewrite run_tasks_cons in Hrun.
        assert (Hlt : failedCount (fst (task x v tr))
                       < failedCount (fst (run_tasks task (before ++ y :: after)
                                             (fst (task x v tr))
                                             (snd (task x v tr)))))
          by (apply IH; exists before, y, after, v1, tr1; auto).
        destruct (fails x v tr); lia.
Qed.

Lemma run_tasks_keeps l v tr before x after v1 tr1 :
  l = before ++ x :: after ->
  run_tasks task before v tr = (v1, tr1) ->
  fails x v1 tr1 = false ->
  incl (configs x v1 tr1) (allConfigs (fst (run_tasks task l v tr)))
  /\ (configs x v1 tr1 <> [] ->
      In (EvUpsertSubscriptionConfigs (configs x v1 tr1))
         (snd (run_tasks task l v tr))).
Proof.
  revert l v tr. induction before as [|y before IH]; intros l v tr -> Hrun Hx.
  - simpl in Hrun. injection Hrun as <- <-. simpl app.
    rewrite run_tasks_cons.
    destruct (task_spec x v tr) as ((evs & Htr & Hup) & _ & Hc).
    destruct (run_tasks_grows after (fst (task x v tr)) (snd (task x v tr)))
      as ((evs' & Htr') & (more & Hc') & _).
    rewrite Hx in Hc. split.
    + rewrite Hc', Hc. intros c Hin. apply in_app_iff. left.
      apply in_app_iff. now right.
    + intros Hne. rewrite Htr', Htr. apply in_app_iff. left.
      apply in_app_iff. right. now apply Hup.
  - simpl app. rewrite run_tasks_cons. rewrite run_tasks_cons in Hrun.
    now apply IH.
Qed.

Lemma finish_batch_verdict (order : list T) (tr0 : trace) (failure : Z -> error) :
  batch_verdict env fc task fails configs order tr0
    (finish_batch env fc (fst (run_tasks task order PoolVars_zero tr0)) failure
       (snd (run_tasks task order PoolVars_zero tr0))).
Proof.
  unfold batch_verdict.
  set (v := fst (run_tasks task order PoolVars_zero tr0)).
  set (tr1 := snd (run_tasks task order PoolVars_zero tr0)).
  destruct (finish_batch_result env fc v failure tr1) as (Hfail & _ & _).
  destruct (finish_batch_outcome env fc v failure tr1)
    as (Hcause & Hnone & rest & Htr & Hwrite).
  pose proof (run_tasks_failed order PoolVars_zero tr0)
    as Hiff. fold v in Hiff. simpl in Hiff.
  split; [|split; [|split; [|split]]].
  - intros Hsome. apply Hfail, Hiff, Hsome.
  - intros err Herr. destruct (Hcause err Herr) as [Hpos|Hw]; [left|now right].
    now apply Hiff.
  - intros Hno Hok. apply Hnone; [|exact Hok].
    destruct (Z.le_gt_cases (failedCount v) 0) as [Hle|Hgt]; [exact Hle|].
    exfalso. apply Hno, Hiff. lia.
  - intros before x after v1 tr1' Hsplit Hrun Hx.
    destruct (run_tasks_keeps order PoolVars_zero tr0
                before x after v1 tr1' Hsplit Hrun Hx) as [Hincl Hup].
    split; [exact Hincl|].
    intros Hne. rewrite Htr. apply in_or_app. left. now apply Hup.
  - exists rest. split; [exact Htr|exact Hwrite].
Qed.

End Pool.

(** C8, as the code has it.  In file mode with at least one URL, and in
    all-enabled mode with at least one enabled subscription, whatever
    the order in which the pool completes the tasks: the run fails when
    a source failed at its turn (its retrieval or its upsert returned an
    error); a run that fails although no source failed was asked to
    write the aggregated list to the output file, and returns the error
    that this write answered; a run with no failed source and no failed
    write returns nil; decoding plays no part in any of this.  Every
    source that did not fail has its configs passed to the upsert and
    included in the aggregated list; the totals are logged once the
    pool has drained, and the write follows them. *)
Theorem batch_outcome (env : Env) (fc : FetchCommand) (tr : trace) :
  (let fileName := FetchConfig.FileInput (config fc) in
   let urls :=
     filter_lines
       (strings.Split (fs_ReadFile env (tr ++ [EvParseFileByNewline fileName]))
                      "010") in
   let workers := FetchConfig.Workers (config fc) in
   urls <> [] ->
   batch_verdict env fc (fetchFromFile_task env fc (len urls))
     (file_source_fails env fc (len urls))
     (file_source_configs env fc (len urls))
     (pool_order env _ urls)
     (tr ++ [EvParseFileByNewline fileName;
             EvLog Processing
               ("Found %d URL(s) in %q — fetching with %d worker(s)..." +:+ nl)
               [AInt (len urls); AStr fileName;
                AInt (if workers >? len urls then len urls else workers)]])
     (fetchFromFile env fc tr))
  /\ (forall subs,
         db_ListSubscriptions env (tr ++ [EvListSubscriptions]) = Ok subs ->
         let enabled := List.filter database.Subscription.Enabled subs in
         let workers := FetchConfig.Workers (config fc) in
         enabled <> [] ->
         batch_verdict env fc (fetchAllSubscriptions_task env fc (len enabled))
           (enabled_source_fails env fc (len enabled))
           (enabled_source_configs env fc (len enabled))
           (pool_order env _ enabled)
           (tr ++ [EvListSubscriptions;
                   EvLog Processing
                     ("Fetching from %d enabled subscription(s) with %d worker(s)..." +:+ nl)
                     [AInt (len enabled);
                      AInt (if workers >? len enabled then len enabled else workers)]])
           (fetchAllSubscriptions env fc tr)).
Proof.
  split.
  - intros fileName urls workers Hurls.
    assert (Hlen : (len urls =? 0) = false).
    { apply Z.eqb_neq. unfold len. destruct urls; [congruence|]. simpl length. lia. }
    assert (Hrun : fetchFromFile env fc tr
                   = finish_batch env fc
                       (fst (run_tasks (fetchFromFile_task env fc (len urls))
                               (pool_order env _ urls) PoolVars_zero
                               (tr ++ [EvParseFileByNewline fileName;
                                       EvLog Processing
                                         ("Found %d URL(s) in %q — fetching with %d worker(s)..." +:+ nl)
                                         [AInt (len urls); AStr fileName;
                                          AInt (if workers >? len urls then len urls else workers)]])))
                       (fun failed =>
                          Errorf "%d out of %d URLs failed to fetch"
                                 [AInt failed; AInt (len urls)])
                       (snd (run_tasks (fetchFromFile_task env fc (len urls))
                               (pool_order env _ urls) PoolVars_zero
                               (tr ++ [EvParseFileByNewline fileName;
                                       EvLog Processing
                                         ("Found %d URL(s) in %q — fetching with %d worker(s)..." +:+ nl)
                                         [AInt (len urls); AStr fileName;
                                          AInt (if workers >? len urls then len urls else workers)]])))).
    { unfold fetchFromFile, ParseFileByNewline, bind, call, ret, Printf.
      fold fileName. fold urls. rewrite Hlen. fold workers.
      rewrite <- app_assoc. simpl app.
      now destruct (run_tasks _ _ _ _). }
    rewrite Hrun. apply finish_batch_verdict.
    intros x v tr'. apply fetchFromFile_task_spec.
  - intros subs Hlist enabled workers Henabled.
    assert (Hlen : (len enabled =? 0) = false).
    { apply Z.eqb_neq. unfold len. destruct enabled; [congruence|]. simpl length. lia. }
    assert (Hrun : fetchAllSubscriptions env fc tr
                   = finish_batch env fc
                       (fst (run_tasks (fetchAllSubscriptions_task env fc (len enabled))
                               (pool_order env _ enabled) PoolVars_zero
                               (tr ++ [EvListSubscriptions;
                                       EvLog Processing
                                         ("Fetching from %d enabled subscription(s) with %d worker(s)..." +:+ nl)
                                         [AInt (len enabled);
                                          AInt (if workers >? len enabled then len enabled else workers)]])))
                       (fun failed =>
                          Errorf "%d out of %d subscriptions failed to fetch"
                                 [AInt failed; AInt (len enabled)])
                       (snd (run_tasks (fetchAllSubscriptions_task env fc (len enabled))
                               (pool_order env _ enabled) PoolVars_zero
                               (tr ++ [EvListSubscriptions;
                                       EvLog Processing
                                         ("Fetching from %d enabled subscription(s) with %d worker(s)..." +:+ nl)
                                         [AInt (len enabled);
                                          AInt (if workers >? len enabled then len enabled else workers)]])))).
    { unfold fetchAllSubscriptions, bind, call, ret, Printf.
      rewrite Hlist. fold enabled. rewrite Hlen. fold workers.
      rewrite <- app_assoc. simpl app.
      now destruct (run_tasks _ _ _ _). }
    rewrite Hrun. apply finish_batch_verdict.
    intros x v tr'. apply fetchAllSubscriptions_task_spec.
Qed.

Lemma batch_outcome_witness :
  let fc := mkFetchCommand file_config no_core in
  (exists err, fst (fetchFromFile two_source_env fc []) = Some err)
  /\ In (EvUpsertSubscriptionConfigs
           [database.SubscriptionConfig.mk 0 (sql.NullInt64.mk 0 false)
              "vless://u@h:443#A" (sql.NullString.mk "" false)
              (sql.NullString.mk "" false) (sql.NullTime.mk 1700000000 true)])
        (snd (fetchFromFile two_source_env fc [])).
Proof.
  intros fc.
  destruct (proj1 (batch_outcome two_source_env fc []))
    as (Hfail & _ & _ & Hkeep & _); [discriminate|].
  split.
  - apply Hfail.
    exists [], "https://down.example/sub", ["https://up.example/sub"].
    eexists. eexists. split; [reflexivity|]. split; reflexivity.
  - edestruct (Hkeep ["https://down.example/sub"] "https://up.example/sub" [])
      as [_ Hup]; [reflexivity|reflexivity|reflexivity|].
    apply Hup. discriminate.
Defined.

(** C8 as stated fails in the "only if" direction: the one source of
    this run is fetched and saved, no source fails, and the run still
    returns an error because the output file cannot be written. *)
Lemma batch_fails_without_failed_source :
  let env :=
    constant_env [] (serve "vless://u@h:443#A") None None
      (Some (errors_New "permission denied"))
      ("https://up.example/sub" +:+ nl) in
  let fc := mkFetchCommand file_config no_core in
  fst (fetchFromFile env fc [])
  = Some (Errorf "failed to save configurations to file: %w"
            [AErr (errors_New "permission denied")])
  /\ ~ some_source_fails (fetchFromFile_task env fc 1)
         (file_source_fails env fc 1) ["https://up.example/sub"] PoolVars_zero
         [EvParseFileByNewline "urls.txt";
          EvLog Processing
            ("Found %d URL(s) in %q — fetching with %d worker(s)..." +:+ nl)
            [AInt 1; AStr "urls.txt"; AInt 1]].
Proof.
  intros env fc. split; [reflexivity|].
  intros (before & x & after & v & tr & E & Hrun & Hf).
  destruct before as [|y [|z before]]; simpl in E; try discriminate.
  injection E as <- <-. simpl in Hrun. injection Hrun as <- <-.
  vm_compute in Hf. discriminate.
Qed.

(** ** The by-identity run (C9) *)

Lemma FetchAll_trimmed (env : Env) (s s' : Subscription.t) (tr tr1 : trace)
    (rawLinks : list string) :
  FetchAll env s tr = ((s', Ok rawLinks), tr1) -> Forall trimmed rawLinks.
Proof.
  unfold FetchAll. destruct (url.Parse (Subscription.Url s)) as [u|err];
    [|discriminate].
  unfold bind, call, when, Printf, ret.
  destruct (http_Send env _) as [response|err]; simpl; [|discriminate].
  destruct ((StatusCode response <? 200) || (StatusCode response >=? 300));
    simpl; [discriminate|].
  destruct (Body response) as [body|err]; simpl; [|discriminate].
  destruct (is_Ok (utils.Base64Decode body)); simpl;
    intros [= _ <- _]; apply filter_lines_trimmed.
Qed.

Lemma parseLinks_loop_trimmed c subID now rawLinks :
  Forall trimmed rawLinks ->
  map database.SubscriptionConfig.ConfigLink (parseLinks_loop c subID now rawLinks)
  = rawLinks.
Proof.
  intros Htrim.
  destruct (parseLinks_loop_spec c subID now rawLinks) as [-> _].
  now apply filter_trimmed.
Qed.

Lemma fetchSingle_by_id (env : Env) (fc : FetchCommand) (tr : trace)
    (dbSub : database.Subscription.t) :
  let c := config fc in
  let id := FetchConfig.SubscriptionID c in
  id <> 0 ->
  db_GetSubscriptionByID env (tr ++ [EvGetSubscriptionByID id]) = Ok dbSub ->
  fetchSingle env fc tr
  = doFetch env fc (by_id_source c dbSub)
      (sql.NullInt64.mk (database.Subscription.ID dbSub) true)
      (tr ++ [EvGetSubscriptionByID id;
              EvLog Processing ("Fetching from DB subscription ID %d: %s" +:+ nl)
                [AInt (database.Subscription.ID dbSub);
                 AStr (database.Subscription.URL dbSub)]]).
Proof.
  intros c id Hid Hget. apply Z.eqb_neq in Hid.
  unfold fetchSingle. cbv zeta. fold c. fold id. rewrite Hid. cbn [negb].
  unfold bind, call, Printf. rewrite Hget. rewrite <- app_assoc. simpl app.
  f_equal. unfold by_id_source.
  now destruct (negb (strings.eqb (FetchConfig.UserAgent c) EmptyString)).
Qed.

(** C9, as the code has it.  In a by-identity run whose lookup
    succeeds, whose retrieval returns at least one link and whose
    upsert succeeds, [UpdateSubscriptionFetched] is called for that
    subscription right after the success message.  When this call
    fails a warning is logged and the run goes on as when it succeeds.
    Without an output file the run ends there and returns nil.  With
    one, the links are written to it next, and the run returns nil when
    the write succeeds and the wrapped error of the write when it
    fails: the failed timestamp has no part in the result. *)
Theorem by_id_run_touches_timestamp (env : Env) (fc : FetchCommand)
    (tr : trace) (dbSub : database.Subscription.t) (sub' : Subscription.t)
    (rawLinks : list string) (tr1 : trace) :
  let c := config fc in
  let id := FetchConfig.SubscriptionID c in
  let subID := sql.NullInt64.mk (database.Subscription.ID dbSub) true in
  let tr0 :=
    tr ++ [EvGetSubscriptionByID id;
           EvLog Processing ("Fetching from DB subscription ID %d: %s" +:+ nl)
             [AInt (database.Subscription.ID dbSub);
              AStr (database.Subscription.URL dbSub)]] in
  let dbConfigs := parseLinks_loop (core fc) subID (time_Now env tr1) rawLinks in
  let tr2 :=
    tr1 ++ [EvUpsertSubscriptionConfigs dbConfigs;
            EvLog Success
              ("Fetched %d links, saved/updated %d configs in the database." +:+ nl)
              [AInt (len rawLinks); AInt (len dbConfigs)]] in
  let touch :=
    EvUpdateSubscriptionFetched (database.Subscription.ID dbSub)
                                (time_Now env tr2) in
  let warning :=
    match db_UpdateSubscriptionFetched env (tr2 ++ [touch]) with
    | Some err =>
        [EvLog Warning ("Failed to update last fetched timestamp: %v" +:+ nl)
           [AErr err]]
    | None => []
    end in
  let tr3 := tr2 ++ touch :: warning in
  let write :=
    EvWriteIntoFile (FetchConfig.OutputFile c)
      (strings.Join (map database.SubscriptionConfig.ConfigLink dbConfigs) nl
       +:+ nl) in
  let run := fetchSingle env fc tr in
  id <> 0 ->
  db_GetSubscriptionByID env (tr ++ [EvGetSubscriptionByID id]) = Ok dbSub ->
  FetchAll env (by_id_source c dbSub) tr0 = ((sub', Ok rawLinks), tr1) ->
  rawLinks <> [] ->
  db_UpsertSubscriptionConfigs env
    (tr1 ++ [EvUpsertSubscriptionConfigs dbConfigs]) = None ->
  (exists rest,
      snd run = tr3 ++ rest
      /\ (FetchConfig.OutputFile c = EmptyString -> rest = [])
      /\ (FetchConfig.OutputFile c <> EmptyString ->
          exists rest', rest = write :: rest'))
  /\ (FetchConfig.OutputFile c = EmptyString -> fst run = None)
  /\ (FetchConfig.OutputFile c <> EmptyString ->
      fst run
      = match fs_WriteIntoFile env (tr3 ++ [write]) with
        | Some werr =>
            Some (Errorf "failed to save configurations to file: %w" [AErr werr])
        | None => None
        end).
Proof.
  intros c id subID tr0 dbConfigs tr2 touch warning tr3 write run
    Hid Hget Hfetch Hlinks Hupsert.
  assert (Hconfigs : (len dbConfigs =? 0) = false).
  { apply Z.eqb_neq. unfold len.
    assert (E : length dbConfigs = length rawLinks).
    { unfold dbConfigs.
      rewrite <- (length_map database.SubscriptionConfig.ConfigLink).
      rewrite parseLinks_loop_trimmed; [reflexivity|].
      eapply FetchAll_trimmed, Hfetch. }
    rewrite E. destruct rawLinks; [congruence|]. simpl length. lia. }
  unfold run. rewrite (fetchSingle_by_id env fc tr dbSub Hid Hget).
  fold c. fold id. fold tr0. fold subID.
  unfold doFetch, parseLinks, UpsertSubscriptionConfigs,
    UpdateSubscriptionFetched, saveConfigsToFile, bind, call, Printf, now, ret.
  rewrite Hfetch. fold dbConfigs. rewrite Hconfigs, Hupsert.
  cbn [sql.NullInt64.Valid sql.NullInt64.Int64 subID].
  replace ((tr1 ++ [EvUpsertSubscriptionConfigs dbConfigs]) ++
           [EvLog Success
              ("Fetched %d links, saved/updated %d configs in the database." +:+ nl)
              [AInt (len rawLinks); AInt (len dbConfigs)]])
    with tr2 by (unfold tr2; now rewrite <- app_assoc).
  fold touch. fold c. fold write. unfold tr3, warning. clear tr3 warning.
  unfold strings.eqb.
  destruct (db_UpdateSubscriptionFetched env (tr2 ++ [touch])) as [terr|];
    destruct (String.eqb_spec (FetchConfig.OutputFile c) EmptyString)
      as [Hout|Hout];
    cbn [negb fst snd].
  all: repeat rewrite <- app_assoc; cbn [app].
  all: try destruct (fs_WriteIntoFile env _) as [werr|]; cbn [fst snd].
  all: repeat rewrite <- app_assoc; cbn [app].
  all: split;
    [ first
        [ exists []; split; [now rewrite app_nil_r|];
          split; [reflexivity|intros H; contradiction]
        | exists [write]; split; [now rewrite <- app_assoc|];
          split; [intros H; contradiction|eauto]
        | eexists [write; _]; split; [now rewrite <- app_assoc|];
          split; [intros H; contradiction|eauto] ]
    | split; intros H; first [reflexivity|contradiction] ].
Qed.

Lemma by_id_run_touches_timestamp_witness :
  let env :=
    constant_env [sample_subscription] (serve "vless://u@h:443#A") None
      (Some (errors_New "database is locked")) None "" in
  let run := fetchSingle env (mkFetchCommand by_id_default_config no_core) [] in
  fst run = None
  /\ exists before rest,
      snd run
      = before ++ EvUpdateSubscriptionFetched 1 1700000000
          :: EvLog Warning ("Failed to update last fetched timestamp: %v" +:+ nl)
               [AErr (errors_New "database is locked")]
          :: EvWriteIntoFile "configs.txt" ("vless://u@h:443#A" +:+ nl) :: rest.
Proof.
  intros env run.
  edestruct (by_id_run_touches_timestamp env
               (mkFetchCommand by_id_default_config no_core) []
               sample_subscription)
    as ((rest & Htr & _ & Hwrite) & _ & Hres);
    [discriminate|reflexivity|lazy; reflexivity|discriminate|reflexivity|].
  split; [apply Hres; discriminate|].
  destruct Hwrite as [rest' Hrest]; [discriminate|].
  exists (firstn 6 (snd run)), rest'.
  fold run in Htr. rewrite Htr at 1. rewrite Hrest. reflexivity.
Defined.

(** C9 as stated fails when the retrieval succeeds with no link: the
    run returns nil after the warning that no config was found, and the
    timestamp is never written. *)
Lemma by_id_run_without_timestamp :
  let env := constant_env [sample_subscription] (serve "") None None None "" in
  let fc := mkFetchCommand by_id_config no_core in
  snd (fst (FetchAll env (by_id_source by_id_config sample_subscription)
              [EvGetSubscriptionByID 1;
               EvLog Processing ("Fetching from DB subscription ID %d: %s" +:+ nl)
                 [AInt 1; AStr "https://up.example/sub"]]))
  = Ok []
  /\ fst (fetchSingle env fc []) = None
  /\ List.filter is_Touch (snd (fetchSingle env fc [])) = [].
Proof. repeat split. Qed.

(** * Further properties *)

(** ** Lines and line feeds *)

Section Lines.

Import strings.

Lemma In_rev (c : ascii) (s : string) :
  In c (list_ascii_of_string (rev s)) <-> In c (list_ascii_of_string s).
Proof.
  unfold rev. rewrite list_ascii_of_string_of_list_ascii.
  symmetry. apply in_rev.
Qed.

Lemma In_trim_runes sp2 sp3 (c : ascii) (s : string) :
  In c (list_ascii_of_string (trim_runes sp2 sp3 s)) ->
  In c (list_ascii_of_string s).
Proof.
  destruct (trim_runes_trims sp2 sp3 s) as (d & Hd & _).
  intros Hin. rewrite Hd, list_ascii_append. apply in_or_app. now right.
Qed.

Lemma TrimSpace_one_line (s : string) : one_line s -> one_line (TrimSpace s).
Proof.
  unfold one_line, TrimSpace, TrimLeftSpace, TrimLeftSpace_rev.
  intros Hs Hin. apply Hs.
  apply In_rev, In_trim_runes, In_rev, In_trim_runes in Hin. exact Hin.
Qed.

Lemma Split_one_line (s : string) : Forall one_line (Split s "010").
Proof.
  induction s as [|c s IH]; simpl.
  - repeat constructor. intros [].
  - destruct (Ascii.eqb_spec c "010") as [->|Hc].
    + constructor; [intros []|exact IH].
    + destruct (Split s "010") as [|x xs]; [repeat constructor|].
      * intros [H|[]]. congruence.
      * apply Forall_cons in IH. destruct IH as [Hx Hxs].
        constructor; [|exact Hxs].
        intros [H|H]; [congruence|]. now apply Hx.
Qed.

Lemma filter_lines_one_line (lines : list string) :
  Forall one_line lines -> Forall one_line (filter_lines lines).
Proof.
  induction 1 as [|l lines Hl _ IH]; simpl; [constructor|].
  destruct (eqb (TrimSpace l) EmptyString); simpl; [exact IH|].
  constructor; [now apply TrimSpace_one_line|exact IH].
Qed.

Lemma body_links_one_line (body : string) : Forall one_line (body_links body).
Proof.
  unfold body_links, body_lines. apply filter_lines_one_line.
  destruct (utils.Base64Decode body); apply Split_one_line.
Qed.

End Lines.

Lemma FetchAll_one_line (env : Env) (s s' : Subscription.t) (tr tr1 : trace)
    (rawLinks : list string) :
  FetchAll env s tr = ((s', Ok rawLinks), tr1) -> Forall one_line rawLinks.
Proof.
  unfold FetchAll. destruct (url.Parse (Subscription.Url s)) as [u|err];
    [|discriminate].
  unfold bind, call, when, Printf, ret.
  destruct (http_Send env _) as [response|err]; simpl; [|discriminate].
  destruct ((StatusCode response <? 200) || (StatusCode response >=? 300));
    simpl; [discriminate|].
  destruct (Body response) as [body|err]; simpl; [|discriminate].
  destruct (is_Ok (utils.Base64Decode body)); simpl;
    intros [= _ <- _]; apply body_links_one_line.
Qed.

(** ** The retriever *)

Lemma FetchAll_events (env : Env) (s : Subscription.t) (tr : trace) :
  exists evs,
    snd (FetchAll env s tr) = tr ++ evs
    /\ Forall (retrieval_event s) evs
    /\ (length (sends evs) <= 1)%nat.
Proof.
  unfold FetchAll. destruct (url.Parse (Subscription.Url s)) as [u|err] eqn:Hp.
  - unfold bind, call, when, Printf, ret.
    assert (Hs : retrieval_event s
                   (EvSend (Subscription.Method
                              (if strings.eqb (Subscription.Method s) EmptyString
                               then Subscription.set_Method s "GET" else s)) u
                      (nonempty (Subscription.UserAgent
                              (if strings.eqb (Subscription.Method s) EmptyString
                               then Subscription.set_Method s "GET" else s)))
                      (nonempty (Subscription.Proxy
                              (if strings.eqb (Subscription.Method s) EmptyString
                               then Subscription.set_Method s "GET" else s)))))
      by exact Hp.
    destruct (http_Send env _) as [response|err]; simpl.
    + destruct ((StatusCode response <? 200) || (StatusCode response >=? 300));
        simpl.
      * eexists [_]. repeat split; [repeat constructor; exact Hs|simpl; lia].
      * destruct (Body response) as [body|err]; simpl.
        -- destruct (is_Ok (utils.Base64Decode body)); simpl.
           ++ eexists [_]. repeat split; [repeat constructor; exact Hs|simpl; lia].
           ++ eexists [_; _]. split; [now rewrite <- app_assoc|].
              split; [repeat constructor; exact Hs|simpl; lia].
        -- eexists [_]. repeat split; [repeat constructor; exact Hs|simpl; lia].
    + eexists [_]. repeat split; [repeat constructor; exact Hs|simpl; lia].
  - exists []. simpl. rewrite app_nil_r. repeat split; [constructor|lia].
Qed.

(** X1. When the URL parses and the server answers with a status
    outside 200..299, [FetchAll] returns the "server returned HTTP"
    error that carries the status and the URL, after exactly the one
    request; the links the subscription held before are left as they
    were. *)
Theorem FetchAll_HTTP_status (env : Env) (s : Subscription.t) (tr : trace)
    (u : url.URL) (response : Response) :
  let s1 := if strings.eqb (Subscription.Method s) EmptyString
            then Subscription.set_Method s "GET" else s in
  let request :=
    EvSend (Subscription.Method s1) u (nonempty (Subscription.UserAgent s))
           (nonempty (Subscription.Proxy s)) in
  url.Parse (Subscription.Url s) = Ok u ->
  http_Send env (tr ++ [request]) = Ok response ->
  StatusCode response < 200 \/ 300 <= StatusCode response ->
  FetchAll env s tr
  = ((s1, Err (Errorf "server returned HTTP %d for %s"
                 [AInt (StatusCode response); AStr (Subscription.Url s)])),
     tr ++ [request])
  /\ Subscription.ConfigLinks s1 = Subscription.ConfigLinks s.
Proof.
  intros s1 request Hparse Hsend Hstatus.
  assert (Hua : Subscription.UserAgent s1 = Subscription.UserAgent s)
    by (unfold s1; now destruct (strings.eqb _ _)).
  assert (Hpx : Subscription.Proxy s1 = Subscription.Proxy s)
    by (unfold s1; now destruct (strings.eqb _ _)).
  assert (Hurl : Subscription.Url s1 = Subscription.Url s)
    by (unfold s1; now destruct (strings.eqb _ _)).
  split; [|unfold s1; now destruct (strings.eqb _ _)].
  unfold FetchAll. rewrite Hparse. fold s1.
  unfold bind, call. rewrite Hua, Hpx. fold request. rewrite Hsend.
  assert (Hb : (StatusCode response <? 200) || (StatusCode response >=? 300) = true).
  { apply orb_true_iff. destruct Hstatus; [left; now apply Z.ltb_lt|right].
    apply Z.geb_le. lia. }
  rewrite Hb, Hurl. reflexivity.
Qed.

Lemma FetchAll_HTTP_status_witness :
  exists s1 tr1,
    FetchAll (constant_env [] (Ok (mkResponse 404 (Ok "Not Found")))
                None None None "")
             (Subscription.mk "" "https://example.com/sub" "" "" ["old"] "") []
    = ((s1, Err (Errorf "server returned HTTP %d for %s"
                   [AInt 404; AStr "https://example.com/sub"])), tr1)
    /\ Subscription.ConfigLinks s1 = ["old"].
Proof.
  destruct (FetchAll_HTTP_status
              (constant_env [] (Ok (mkResponse 404 (Ok "Not Found")))
                 None None None "")
              (Subscription.mk "" "https://example.com/sub" "" "" ["old"] "") []
              (url.mkURL "https" "" None "example.com" "/sub" "" false false "" "" "")
              (mkResponse 404 (Ok "Not Found")) eq_refl eq_refl)
    as [Hrun Hlinks]; [right; simpl; lia|].
  eexists. eexists. split; [exact Hrun|exact Hlinks].
Defined.

(** X2. Whenever [FetchAll] succeeds, the URL parsed, one request was
    sent to it (with the method GET when the subscription names none),
    the server answered with a status in 200..299 and a readable body,
    and the links returned are the trimmed non-empty lines of that
    body (decoded when it decodes) in their order.  Every link is
    trimmed, not empty and free of line feeds; the subscription holds
    the same list afterwards, and its URL is unchanged. *)
Theorem FetchAll_success (env : Env) (s s' : Subscription.t) (tr tr' : trace)
    (links : list string) :
  FetchAll env s tr = ((s', Ok links), tr') ->
  exists u response body,
    let method :=
      if strings.eqb (Subscription.Method s) EmptyString
      then "GET" else Subscription.Method s in
    let request :=
      EvSend method u (nonempty (Subscription.UserAgent s))
             (nonempty (Subscription.Proxy s)) in
    url.Parse (Subscription.Url s) = Ok u
    /\ http_Send env (tr ++ [request]) = Ok response
    /\ 200 <= StatusCode response < 300
    /\ Body response = Ok body
    /\ links = List.filter (fun l => negb (strings.eqb l EmptyString))
                 (map strings.TrimSpace (body_lines body))
    /\ Forall trimmed links
    /\ Forall one_line links
    /\ Subscription.ConfigLinks s' = links
    /\ Subscription.Url s' = Subscription.Url s
    /\ Subscription.Method s' = method
    /\ exists evs, tr' = tr ++ request :: evs /\ sends evs = [].
Proof.
  intros Hrun.
  pose proof (FetchAll_trimmed _ _ _ _ _ _ Hrun) as Htrim.
  pose proof (FetchAll_one_line _ _ _ _ _ _ Hrun) as Hline.
  revert Hrun. unfold FetchAll.
  destruct (url.Parse (Subscription.Url s)) as [u|err] eqn:Hparse;
    [|discriminate].
  set (s1 := if strings.eqb (Subscription.Method s) EmptyString
             then Subscription.set_Method s "GET" else s).
  assert (Hurl : Subscription.Url s1 = Subscription.Url s)
    by (unfold s1; now destruct (strings.eqb _ _)).
  assert (Hua : Subscription.UserAgent s1 = Subscription.UserAgent s)
    by (unfold s1; now destruct (strings.eqb _ _)).
  assert (Hpx : Subscription.Proxy s1 = Subscription.Proxy s)
    by (unfold s1; now destruct (strings.eqb _ _)).
  assert (Hm : Subscription.Method s1
               = if strings.eqb (Subscription.Method s) EmptyString
                 then "GET" else Subscription.Method s)
    by (unfold s1; now destruct (strings.eqb _ _)).
  unfold bind, call, when, Printf, ret. rewrite Hua, Hpx, Hm.
  destruct (http_Send env _) as [response|err] eqn:Hsend; cbn [fst snd];
    [|discriminate].
  destruct (Z.ltb_spec (StatusCode response) 200); cbn [orb];
    [discriminate|].
  destruct (Z.geb_spec (StatusCode response) 300); [discriminate|].
  destruct (Body response) as [body|err] eqn:Hbody; cbn [fst snd];
    [|discriminate].
  exists u, response, body. cbv zeta.
  revert Hrun. destruct (is_Ok (utils.Base64Decode body)); cbn [negb fst snd];
    intros [= <- <- <-].
  all: split; [reflexivity|]; split; [exact Hsend|]; split; [lia|];
    split; [exact Hbody|]; split; [apply filter_lines_filter|];
    split; [exact Htrim|]; split; [exact Hline|]; split; [reflexivity|];
    split; [exact Hurl|]; split; [exact Hm|].
  - exists []. split; reflexivity.
  - eexists [_]. split; [now rewrite <- app_assoc|reflexivity].
Qed.

Lemma FetchAll_success_witness :
  exists u response body,
    http_Send
      (constant_env []
         (serve ("link1" +:+ nl +:+ nl +:+ "  " +:+ nl +:+ "link2" +:+ nl +:+ nl))
         None None None "")
      ([] ++ [EvSend "GET" u None None]) = Ok response
    /\ Body response = Ok body
    /\ ["link1"; "link2"]
       = List.filter (fun l => negb (strings.eqb l EmptyString))
           (map strings.TrimSpace (body_lines body)).
Proof.
  destruct (FetchAll_success
              (constant_env []
                 (serve ("link1" +:+ nl +:+ nl +:+ "  " +:+ nl +:+ "link2" +:+ nl +:+ nl))
                 None None None "")
              (Subscription.mk "" "https://example.com/sub" "" "" [] "")
              (Subscription.mk "" "https://example.com/sub" "" "GET"
                 ["link1"; "link2"] "")
              []
              [EvSend "GET"
                 (url.mkURL "https" "" None "example.com" "/sub" "" false false "" "" "")
                 None None;
               EvLog Processing
                 ("Couldn't decode the body! let's try parsing without decoding..." +:+ nl)
                 []]
              ["link1"; "link2"] eq_refl)
    as (u & response & body & _ & Hsend & _ & Hbody & Hlinks & _).
  exists u, response, body. split; [exact Hsend|]. split; [exact Hbody|exact Hlinks].
Defined.

(** ** The de-duplicator, again *)

Lemma keep_new_NoDup (seen : gset string) (links : list string) :
  NoDup links -> (forall x, x ∈ links -> x ∉ seen) ->
  keep_new seen links = links.
Proof.
  intros Hnd. revert seen. induction Hnd as [|x links Hx Hnd IH]; intros seen Hfresh.
  - reflexivity.
  - simpl. rewrite decide_False by (apply Hfresh; left).
    f_equal. apply IH. intros y Hy. 
    assert (y ≠ x) by (intros ->; contradiction).
    specialize (Hfresh y (list_elem_of_further _ _ _ Hy)). set_solver.
Qed.

Lemma length_keep_new (links : list string) :
  length (keep_new ∅ links) = size (list_to_set links : gset string).
Proof.
  rewrite <- (size_list_to_set (C := gset string) (keep_new ∅ links))
    by apply NoDup_keep_new.
  f_equal. apply set_eq. intros x.
  rewrite !elem_of_list_to_set, elem_of_keep_new. set_solver.
Qed.

Lemma RemoveDuplicate_links (s : Subscription.t) (verbose : bool) (tr : trace) :
  Subscription.ConfigLinks (fst (RemoveDuplicate s verbose tr))
  = keep_new ∅ (Subscription.ConfigLinks s).
Proof.
  unfold RemoveDuplicate, bind, when, Printf, ret.
  destruct verbose; simpl; apply RemoveDuplicate_loop_keep_new.
Qed.

(** X3. [RemoveDuplicate] leaves a list without repeats as it is, and
    running it a second time changes nothing, whatever the flags. *)
Theorem RemoveDuplicate_stable (s : Subscription.t) (verbose verbose' : bool)
    (tr tr' : trace) :
  (NoDup (Subscription.ConfigLinks s) ->
   Subscription.ConfigLinks (fst (RemoveDuplicate s verbose tr))
   = Subscription.ConfigLinks s)
  /\ Subscription.ConfigLinks
       (fst (RemoveDuplicate (fst (RemoveDuplicate s verbose tr)) verbose' tr'))
     = Subscription.ConfigLinks (fst (RemoveDuplicate s verbose tr)).
Proof.
  split.
  - intros Hnd. rewrite RemoveDuplicate_links.
    apply keep_new_NoDup; [exact Hnd|]. intros x _. set_solver.
  - rewrite !RemoveDuplicate_links.
    apply keep_new_NoDup; [apply NoDup_keep_new|]. intros x _. set_solver.
Qed.

Lemma RemoveDuplicate_stable_witness :
  Subscription.ConfigLinks
    (fst (RemoveDuplicate (Subscription.mk "" "" "" "" ["a"; "b"; "c"] "") true []))
  = ["a"; "b"; "c"].
Proof.
  apply (proj1 (RemoveDuplicate_stable
                  (Subscription.mk "" "" "" "" ["a"; "b"; "c"] "") true true [] [])).
  simpl. repeat constructor; set_solver.
Defined.

(** X4. With the verbose flag [RemoveDuplicate] logs one line whose
    count is the length of the input minus the number of its distinct
    strings, which is never negative; without the flag it logs
    nothing. *)
Theorem RemoveDuplicate_reports_removed (s : Subscription.t) (tr : trace) :
  let links := Subscription.ConfigLinks s in
  let removed := len links - Z.of_nat (size (list_to_set links : gset string)) in
  snd (RemoveDuplicate s true tr)
  = tr ++ [EvLog StdLog ("Removed %d duplicate configs!" +:+ nl) [AInt removed]]
  /\ 0 <= removed
  /\ snd (RemoveDuplicate s false tr) = tr.
Proof.
  intros links removed. unfold removed, len.
  rewrite <- length_keep_new.
  split; [|split; [|reflexivity]].
  - unfold RemoveDuplicate, bind, when, Printf, ret. simpl.
    fold links. now rewrite RemoveDuplicate_loop_keep_new.
  - assert (H : (length (keep_new ∅ links) <= length links)%nat); [|lia].
    generalize (∅ : gset string). induction links as [|x l IH]; intros seen.
    + simpl. lia.
    + simpl. destruct (decide (x ∈ seen)); simpl.
      * specialize (IH seen). lia.
      * specialize (IH ({[x]} ∪ seen)). lia.
Qed.

(** ** The output file *)

Section OutputFile.

Import strings.

Lemma append_assoc (a b c : string) : (a +:+ b) +:+ c = a +:+ (b +:+ c).
Proof.
  induction a as [|x a IH]; [reflexivity|].
  rewrite !append_cons. now f_equal.
Qed.

Lemma Split_line (x rest : string) :
  one_line x ->
  Split (x +:+ nl +:+ rest) "010" = x :: Split rest "010".
Proof.
  unfold one_line. induction x as [|c x IH]; intros Hx.
  - reflexivity.
  - rewrite append_cons. simpl.
    destruct (Ascii.eqb_spec c "010") as [->|Hc].
    + exfalso. apply Hx. now left.
    + rewrite IH; [reflexivity|]. intros Hin. apply Hx. now right.
Qed.

Lemma filter_lines_cons (x : string) (rest : list string) :
  trimmed x -> filter_lines (x :: rest) = x :: filter_lines rest.
Proof.
  intros [Ht Hne]. simpl. rewrite Ht. unfold eqb.
  destruct (String.eqb_spec x EmptyString); [contradiction|reflexivity].
Qed.

Lemma filter_lines_Split_Join (links : list string) :
  Forall trimmed links -> Forall one_line links ->
  filter_lines (Split (Join links nl +:+ nl) "010") = links.
Proof.
  intros Htrim Hline. induction Hline as [|x links Hx Hl IH]; [reflexivity|].
  apply Forall_cons in Htrim. destruct Htrim as [Htx Htrim].
  destruct links as [|y links].
  - simpl Join.
    replace (x +:+ nl) with (x +:+ nl +:+ EmptyString)
      by now rewrite (append_empty_r nl).
    rewrite (Split_line x EmptyString Hx).
    now rewrite (filter_lines_cons x _ Htx).
  - change (Join (x :: y :: links) nl) with (x +:+ nl +:+ Join (y :: links) nl).
    rewrite !append_assoc, (Split_line x _ Hx), (filter_lines_cons x _ Htx).
    f_equal. exact (IH Htrim).
Qed.

End OutputFile.

(** X5. [saveConfigsToFile] issues one write of the links joined by
    line feeds with a final line feed; when the links are trimmed, not
    empty and free of line feeds, as a retrieval returns them, reading
    that content back line by line through the filter of the retriever
    gives the same links. *)
Theorem saveConfigsToFile_round_trip (env : Env) (fc : FetchCommand)
    (configs : list database.SubscriptionConfig.t) (tr : trace) :
  let links := map database.SubscriptionConfig.ConfigLink configs in
  let content := strings.Join links nl +:+ nl in
  Forall trimmed links -> Forall one_line links ->
  saveConfigsToFile env fc configs tr
  = (fs_WriteIntoFile env
       (tr ++ [EvWriteIntoFile (FetchConfig.OutputFile (config fc)) content]),
     tr ++ [EvWriteIntoFile (FetchConfig.OutputFile (config fc)) content])
  /\ filter_lines (strings.Split content "010") = links.
Proof.
  intros links content Htrim Hline. split; [reflexivity|].
  now apply filter_lines_Split_Join.
Qed.

Lemma saveConfigsToFile_round_trip_witness :
  filter_lines
    (strings.Split (strings.Join ["vless://u@h:443#A"; "vmess://x"] nl +:+ nl)
                   "010")
  = ["vless://u@h:443#A"; "vmess://x"].
Proof.
  apply (proj2 (saveConfigsToFile_round_trip
                  (constant_env [] (serve "") None None None "")
                  (mkFetchCommand sample_config no_core)
                  [database.SubscriptionConfig.mk 0 (sql.NullInt64.mk 0 false)
                     "vless://u@h:443#A" NullString_zero NullString_zero
                     (sql.NullTime.mk 0 false);
                   database.SubscriptionConfig.mk 0 (sql.NullInt64.mk 0 false)
                     "vmess://x" NullString_zero NullString_zero
                     (sql.NullTime.mk 0 false)] []
                  ltac:(repeat constructor; discriminate)
                  ltac:(repeat constructor; unfold one_line; simpl;
                        intuition discriminate))).
Defined.


(** ** The single-source run *)

Lemma retrieval_not_Store (s : Subscription.t) (evs : list event) :
  Forall (retrieval_event s) evs -> List.filter is_Store evs = [].
Proof.
  induction 1 as [|e evs He _ IH]; [reflexivity|].
  simpl. destruct e; simpl in *; try contradiction; exact IH.
Qed.

Lemma retrieval_unlinked (s : Subscription.t) (evs : list event) :
  Forall (retrieval_event s) evs -> Forall unlinked_event evs.
Proof.
  intros H. eapply Forall_impl; [exact H|].
  intros e He. destruct e; simpl in *; try contradiction; exact I.
Qed.

Lemma FetchAll_split (env : Env) (s : Subscription.t) (tr : trace) :
  exists s' fetched evs,
    FetchAll env s tr = ((s', fetched), tr ++ evs)
    /\ Forall (retrieval_event s) evs.
Proof.
  destruct (FetchAll_events env s tr) as (evs & Htr & Hev & _).
  destruct (FetchAll env s tr) as [[s' fetched] tr1]. simpl in Htr. subst tr1.
  eauto.
Qed.

Lemma parseLinks_loop_owner c subID now rawLinks :
  Forall (fun conf => database.SubscriptionConfig.SubscriptionID conf = subID)
         (parseLinks_loop c subID now rawLinks).
Proof.
  destruct (parseLinks_loop_spec c subID now rawLinks) as [_ H].
  eapply Forall_impl; [exact H|]. simpl. tauto.
Qed.

Lemma parseLinks_loop_nonempty c subID now rawLinks :
  Forall trimmed rawLinks -> rawLinks <> [] ->
  (len (parseLinks_loop c subID now rawLinks) =? 0) = false
  /\ (len (parseLinks_loop c subID now rawLinks) >? 0) = true.
Proof.
  intros Htrim Hne.
  assert (E : length (parseLinks_loop c subID now rawLinks) = length rawLinks).
  { rewrite <- (length_map database.SubscriptionConfig.ConfigLink).
    now rewrite parseLinks_loop_trimmed. }
  unfold len. rewrite E. destruct rawLinks; [congruence|]. simpl length.
  split; [apply Z.eqb_neq|apply Z.gtb_lt]; lia.
Qed.

(** X6.  [doFetch] reports the two failures of a source with their own
    wrapping.  When the retrieval fails, the error is wrapped as
    "failed to fetch configurations" and nothing was stored or written
    since the start.  When links were fetched and the upsert fails, the
    error is wrapped as "failed to save configurations to database" and
    the run stops at the upsert: no timestamp, no file. *)
Theorem doFetch_failures (env : Env) (fc : FetchCommand) (sub : Subscription.t)
    (subscriptionID : sql.NullInt64.t) (tr : trace) :
  (forall sub' err tr1,
      FetchAll env sub tr = ((sub', Err err), tr1) ->
      doFetch env fc sub subscriptionID tr
      = (Some (Errorf "failed to fetch configurations: %w" [AErr err]), tr1)
      /\ exists evs, tr1 = tr ++ evs /\ List.filter is_Store evs = [])
  /\ (forall sub' rawLinks tr1 err,
         FetchAll env sub tr = ((sub', Ok rawLinks), tr1) ->
         rawLinks <> [] ->
         let dbConfigs :=
           parseLinks_loop (core fc) subscriptionID (time_Now env tr1) rawLinks in
         db_UpsertSubscriptionConfigs env
           (tr1 ++ [EvUpsertSubscriptionConfigs dbConfigs]) = Some err ->
         doFetch env fc sub subscriptionID tr
         = (Some (Errorf "failed to save configurations to database: %w" [AErr err]),
            tr1 ++ [EvUpsertSubscriptionConfigs dbConfigs])).
Proof.
  split.
  - intros sub' err tr1 Hfetch.
    destruct (FetchAll_split env sub tr) as (s' & f & evs & Hsplit & Hev).
    rewrite Hfetch in Hsplit. injection Hsplit as _ _ ->.
    split; [|exists evs; split; [reflexivity|eapply retrieval_not_Store, Hev]].
    unfold doFetch, bind. now rewrite Hfetch.
  - intros sub' rawLinks tr1 err Hfetch Hne dbConfigs Hup.
    destruct (parseLinks_loop_nonempty (core fc) subscriptionID
                (time_Now env tr1) rawLinks) as [Hlen _];
      [eapply FetchAll_trimmed, Hfetch|exact Hne|].
    unfold doFetch, parseLinks, UpsertSubscriptionConfigs, bind, call, now, ret.
    rewrite Hfetch, Hlen. unfold dbConfigs in Hup. now rewrite Hup.
Qed.

Lemma doFetch_failures_witness :
  fst (doFetch
         (constant_env [] (serve "vless://u@h:443#A")
            (Some (errors_New "database is locked")) None None "")
         (mkFetchCommand sample_config no_core)
         (Subscription.mk "" "https://up.example/sub" "" "" [] "")
         (sql.NullInt64.mk 0 false) [])
  = Some (Errorf "failed to save configurations to database: %w"
            [AErr (errors_New "database is locked")])
  /\ fst (doFetch
            (constant_env [] (Ok (mkResponse 500 (Ok ""))) None None None "")
            (mkFetchCommand sample_config no_core)
            (Subscription.mk "" "https://up.example/sub" "" "" [] "")
            (sql.NullInt64.mk 0 false) [])
     = Some (Errorf "failed to fetch configurations: %w"
               [AErr (Errorf "server returned HTTP %d for %s"
                        [AInt 500; AStr "https://up.example/sub"])]).
Proof.
  split.
  - edestruct (doFetch_failures
                 (constant_env [] (serve "vless://u@h:443#A")
                    (Some (errors_New "database is locked")) None None "")
                 (mkFetchCommand sample_config no_core)
                 (Subscription.mk "" "https://up.example/sub" "" "" [] "")
                 (sql.NullInt64.mk 0 false) []) as [_ Hsave].
    erewrite Hsave; [reflexivity|lazy; reflexivity|discriminate|reflexivity].
  - edestruct (doFetch_failures
                 (constant_env [] (Ok (mkResponse 500 (Ok ""))) None None None "")
                 (mkFetchCommand sample_config no_core)
                 (Subscription.mk "" "https://up.example/sub" "" "" [] "")
                 (sql.NullInt64.mk 0 false) []) as [Hfetch _].
    edestruct Hfetch as [-> _]; [lazy; reflexivity|reflexivity].
Defined.

Ltac trace_events :=
  eexists; split;
  [ repeat rewrite <- app_assoc; reflexivity
  | repeat first [ apply Forall_app; split
                 | apply Forall_cons; split
                 | apply Forall_nil ] ].

Lemma doFetch_unlinked (env : Env) (fc : FetchCommand) (sub : Subscription.t)
    (tr : trace) :
  exists evs,
    snd (doFetch env fc sub (sql.NullInt64.mk 0 false) tr) = tr ++ evs
    /\ Forall unlinked_event evs.
Proof.
  destruct (FetchAll_split env sub tr) as (s' & fetched & evs & Hfetch & Hev).
  apply retrieval_unlinked in Hev.
  unfold doFetch, parseLinks, UpsertSubscriptionConfigs, saveConfigsToFile,
    bind, call, Printf, now, ret.
  rewrite Hfetch. destruct fetched as [rawLinks|err]; simpl.
  - pose proof (parseLinks_loop_owner (core fc) (sql.NullInt64.mk 0 false)
                  (time_Now env (tr ++ evs)) rawLinks) as Hown.
    set (dbConfigs := parseLinks_loop _ _ _ rawLinks) in *.
    destruct (len dbConfigs =? 0); simpl.
    + trace_events; simpl; auto.
    + destruct (db_UpsertSubscriptionConfigs env _); simpl.
      * trace_events; simpl; auto.
      * destruct (negb (strings.eqb (FetchConfig.OutputFile (config fc)) EmptyString));
          simpl.
        -- destruct (fs_WriteIntoFile env _); simpl; trace_events; simpl; auto.
        -- trace_events; simpl; auto.
  - exists evs. split; [reflexivity|exact Hev].
Qed.

(** X7.  A run on a URL given on the command line (no subscription id)
    never reads or updates a subscription of the database: every event
    it adds is unlinked, the configs it upserts have no owner, and no
    timestamp is written. *)
Theorem by_url_run_unlinked (env : Env) (fc : FetchCommand) (tr : trace) :
  FetchConfig.SubscriptionID (config fc) = 0 ->
  exists evs,
    snd (fetchSingle env fc tr) = tr ++ evs
    /\ Forall unlinked_event evs
    /\ List.filter is_Touch evs = [].
Proof.
  intros Hid.
  assert (H : exists evs, snd (fetchSingle env fc tr) = tr ++ evs
                          /\ Forall unlinked_event evs).
  { unfold fetchSingle. rewrite Hid. simpl.
    unfold bind at 1. unfold Printf at 1. unfold bind at 1. unfold Printf at 1.
    match goal with |- context [doFetch env fc ?s _ ?t] =>
      destruct (doFetch_unlinked env fc s t) as (evs & Htr & Hev) end.
    rewrite Htr. trace_events; simpl; auto. }
  destruct H as (evs & Htr & Hev). exists evs. split; [exact Htr|].
  split; [exact Hev|].
  clear Htr. induction Hev as [|e evs He _ IH]; [reflexivity|].
  simpl. destruct e; simpl in *; try contradiction; exact IH.
Qed.

Lemma by_url_run_unlinked_witness :
  exists evs,
    snd (fetchSingle (constant_env [] (serve "vless://u@h:443#A") None None None "")
           (mkFetchCommand
              (FetchConfig.mk 0 "https://up.example/sub" "" "configs.txt" "" false "" 3)
              no_core) [])
    = [] ++ evs
    /\ Forall unlinked_event evs
    /\ List.filter is_Touch evs = [].
Proof.
  apply (by_url_run_unlinked
           (constant_env [] (serve "vless://u@h:443#A") None None None "")
           (mkFetchCommand
              (FetchConfig.mk 0 "https://up.example/sub" "" "configs.txt" "" false "" 3)
              no_core) []).
  reflexivity.
Defined.

(** X8.  A run by id alone, with no other flag of the group set and a
    valid worker count, whose subscription cannot be read from the
    database returns the error of the lookup unwrapped, and the lookup
    is all it did: no request, no log line, no write. *)
Theorem by_id_run_not_found (env : Env) (fc : FetchCommand) (given : Given.t)
    (tr : trace) (err : error) :
  let c := config fc in
  let id := FetchConfig.SubscriptionID c in
  id <> 0 ->
  1 <= FetchConfig.Workers c <= 20 ->
  ValidateFlagGroups c given = None ->
  db_GetSubscriptionByID env (tr ++ [EvGetSubscriptionByID id]) = Err err ->
  Execute env fc given tr = (Some err, tr ++ [EvGetSubscriptionByID id]).
Proof.
  intros c id Hid Hworkers Hgroup Hget.
  assert (Hsel : selector_given c = true).
  { unfold selector_given. fold id. apply Z.eqb_neq in Hid. now rewrite Hid. }
  apply Z.eqb_neq in Hid.
  assert (Hmode : FetchConfig.FetchAll c = false
                  /\ strings.eqb (FetchConfig.FileInput c) EmptyString = true).
  { revert Hgroup. unfold ValidateFlagGroups, set_flags. fold id. rewrite Hid.
    destruct (FetchConfig.FetchAll c);
      destruct (strings.eqb (FetchConfig.FileInput c) EmptyString);
      destruct (Given.all given); destruct (Given.file given);
      destruct (negb (strings.eqb (FetchConfig.SubscriptionURL c) EmptyString)
                || Given.url given);
      cbn [negb orb app]; intros H; try discriminate H; now split. }
  destruct Hmode as [Hall Hfile].
  unfold Execute. rewrite (validateFlags_selector fc Hsel). fold c.
  destruct (Z.ltb_spec (FetchConfig.Workers c) 1); [lia|].
  destruct (Z.gtb_spec (FetchConfig.Workers c) 20); [lia|].
  rewrite Hgroup.
  unfold runCommand. fold c. rewrite Hall, Hfile. cbn [negb].
  unfold fetchSingle. cbv zeta. fold c. fold id.
  rewrite Hid. cbn [negb].
  unfold bind, call. now rewrite Hget.
Qed.

Lemma by_id_run_not_found_witness :
  Execute (constant_env [] (serve "") None None None "")
          (mkFetchCommand by_id_config no_core)
          (Given.mk true false false false) []
  = (Some (errors_New "sql: no rows in result set"), [EvGetSubscriptionByID 1]).
Proof.
  apply (by_id_run_not_found (constant_env [] (serve "") None None None "")
           (mkFetchCommand by_id_config no_core)
           (Given.mk true false false false) []);
    [discriminate|simpl; lia|reflexivity|reflexivity].
Defined.

(** X9.  When a source yields links, the upsert succeeds and an output
    file is named, [doFetch] upserts one config per fetched link, in
    order, and then writes a file whose non-blank lines, read back, are
    exactly the fetched links; nothing is stored after the file. *)
Theorem doFetch_writes_fetched_links (env : Env) (fc : FetchCommand)
    (sub sub' : Subscription.t) (subscriptionID : sql.NullInt64.t)
    (tr tr1 : trace) (rawLinks : list string) :
  let dbConfigs :=
    parseLinks_loop (core fc) subscriptionID (time_Now env tr1) rawLinks in
  let content := strings.Join rawLinks nl +:+ nl in
  let fileName := FetchConfig.OutputFile (config fc) in
  FetchAll env sub tr = ((sub', Ok rawLinks), tr1) ->
  rawLinks <> [] ->
  db_UpsertSubscriptionConfigs env
    (tr1 ++ [EvUpsertSubscriptionConfigs dbConfigs]) = None ->
  fileName <> EmptyString ->
  map database.SubscriptionConfig.ConfigLink dbConfigs = rawLinks
  /\ filter_lines (strings.Split content "010") = rawLinks
  /\ exists between after,
      snd (doFetch env fc sub subscriptionID tr)
      = tr1 ++ EvUpsertSubscriptionConfigs dbConfigs :: between
          ++ EvWriteIntoFile fileName content :: after
      /\ List.filter is_Store after = [].
Proof.
  intros dbConfigs content fileName Hfetch Hne Hup Hfile.
  pose proof (FetchAll_trimmed _ _ _ _ _ _ Hfetch) as Htrim.
  pose proof (FetchAll_one_line _ _ _ _ _ _ Hfetch) as Hline.
  assert (Hlinks : map database.SubscriptionConfig.ConfigLink dbConfigs = rawLinks)
    by now apply parseLinks_loop_trimmed.
  split; [exact Hlinks|].
  split; [now apply filter_lines_Split_Join|].
  destruct (parseLinks_loop_nonempty (core fc) subscriptionID
              (time_Now env tr1) rawLinks Htrim Hne) as [Hlen _].
  unfold doFetch, parseLinks, UpsertSubscriptionConfigs,
    UpdateSubscriptionFetched, saveConfigsToFile, bind, call, Printf, now, ret.
  rewrite Hfetch, Hlen. unfold dbConfigs in Hup. rewrite Hup.
  fold dbConfigs. rewrite Hlinks. fold content. fold fileName.
  apply String.eqb_neq in Hfile. unfold strings.eqb. rewrite Hfile. cbn [negb].
  destruct (sql.NullInt64.Valid subscriptionID);
    [destruct (db_UpdateSubscriptionFetched env _)|]; cbn [fst snd];
    destruct (fs_WriteIntoFile env _); cbn [fst snd];
    repeat rewrite <- app_assoc; cbn [app].
  all: first
    [ eexists [_]; eexists; split; [cbn [app]; reflexivity|reflexivity]
    | eexists [_; _]; eexists; split; [cbn [app]; reflexivity|reflexivity]
    | eexists [_; _; _]; eexists; split; [cbn [app]; reflexivity|reflexivity] ].
Qed.

Lemma doFetch_writes_fetched_links_witness :
  exists tr1 configs between after,
    snd (doFetch (constant_env [] (serve "vless://u@h:443#A") None None None "")
           (mkFetchCommand sample_config no_core)
           (Subscription.mk "" "https://up.example/sub" "" "" [] "")
           (sql.NullInt64.mk 0 false) [])
    = tr1 ++ EvUpsertSubscriptionConfigs configs :: between
        ++ EvWriteIntoFile "configs.txt" ("vless://u@h:443#A" +:+ nl) :: after.
Proof.
  edestruct (doFetch_writes_fetched_links
               (constant_env [] (serve "vless://u@h:443#A") None None None "")
               (mkFetchCommand sample_config no_core)
               (Subscription.mk "" "https://up.example/sub" "" "" [] ""))
    as (_ & _ & between & after & Htr & _);
    [lazy; reflexivity|discriminate|reflexivity|discriminate|].
  eexists. eexists. exists between, after. exact Htr.
Defined.

(** ** The runs over several sources *)

Section Totals.

Context {T : Type}.
Variable task : T -> PoolVars -> M PoolVars.
Variable P : event -> Prop.
Variable Q : T -> Prop.

Hypothesis task_step : forall x v tr,
  Q x ->
  doneCount (fst (task x v tr)) = doneCount v + 1
  /\ failedCount v <= failedCount (fst (task x v tr)) <= failedCount v + 1
  /\ totalRaw (fst (task x v tr)) - len (allConfigs (fst (task x v tr)))
     = totalRaw v - len (allConfigs v)
  /\ exists evs, snd (task x v tr) = tr ++ evs /\ Forall P evs.

Lemma run_tasks_totals (l : list T) (v : PoolVars) (tr : trace) :
  Forall Q l ->
  doneCount (fst (run_tasks task l v tr)) = doneCount v + len l
  /\ failedCount v <= failedCount (fst (run_tasks task l v tr))
     <= failedCount v + len l
  /\ totalRaw (fst (run_tasks task l v tr))
     - len (allConfigs (fst (run_tasks task l v tr)))
     = totalRaw v - len (allConfigs v)
  /\ exists evs, snd (run_tasks task l v tr) = tr ++ evs /\ Forall P evs.
Proof.
  intros HQ. revert v tr. induction HQ as [|x l Hx _ IH]; intros v tr.
  - simpl. unfold len. simpl. repeat split; try lia.
    exists []. split; [now rewrite app_nil_r|constructor].
  - rewrite run_tasks_cons.
    destruct (task_step x v tr Hx) as (Hd & Hf & Ht & evs & Htr & Hev).
    destruct (IH (fst (task x v tr)) (snd (task x v tr)))
      as (Hd' & Hf' & Ht' & evs' & Htr' & Hev').
    unfold len in *. simpl length. repeat split; try lia.
    exists (evs ++ evs'). split; [now rewrite Htr', Htr, app_assoc|].
    apply Forall_app. now split.
Qed.

End Totals.

Lemma parseLinks_loop_len c subID now rawLinks :
  Forall trimmed rawLinks ->
  len (parseLinks_loop c subID now rawLinks) = len rawLinks.
Proof.
  intros Htrim. unfold len. f_equal.
  rewrite <- (length_map database.SubscriptionConfig.ConfigLink).
  now rewrite parseLinks_loop_trimmed.
Qed.

Lemma totals_add_configs v dbConfigs rawLinks :
  len dbConfigs = len rawLinks ->
  totalRaw (add_configs v dbConfigs rawLinks)
  - len (allConfigs (add_configs v dbConfigs rawLinks))
  = totalRaw v - len (allConfigs v).
Proof.
  unfold add_configs, len. simpl. rewrite length_app. lia.
Qed.

Lemma fetchFromFile_task_step (env : Env) (fc : FetchCommand) (n : Z)
    (x : string) (v : PoolVars) (tr : trace) :
  let task := fetchFromFile_task env fc n in
  doneCount (fst (task x v tr)) = doneCount v + 1
  /\ failedCount v <= failedCount (fst (task x v tr)) <= failedCount v + 1
  /\ totalRaw (fst (task x v tr)) - len (allConfigs (fst (task x v tr)))
     = totalRaw v - len (allConfigs v)
  /\ exists evs, snd (task x v tr) = tr ++ evs /\ Forall unlinked_event evs.
Proof.
  intros task. unfold task, fetchFromFile_task.
  unfold parseLinks, UpsertSubscriptionConfigs, bind, Printf, now, ret, call.
  cbv zeta.
  match goal with |- context [FetchAll env ?s ?t] =>
    destruct (FetchAll_split env s t) as (s' & fetched & evs & Hfetch & Hev);
    rewrite Hfetch
  end.
  apply retrieval_unlinked in Hev.
  destruct fetched as [rawLinks|err]; cbn [fst snd].
  - pose proof (FetchAll_trimmed _ _ _ _ _ _ Hfetch) as Htrim.
    pose proof (parseLinks_loop_len (core fc) (sql.NullInt64.mk 0 false)
                  (time_Now env ((tr ++ [EvLog Processing
                     ("[%d/%d] Fetching from %s" +:+ nl)
                     [AInt (doneCount (add_done v)); AInt n; AStr x]]) ++ evs))
                  rawLinks Htrim) as Hlen.
    pose proof (parseLinks_loop_owner (core fc) (sql.NullInt64.mk 0 false)
                  (time_Now env ((tr ++ [EvLog Processing
                     ("[%d/%d] Fetching from %s" +:+ nl)
                     [AInt (doneCount (add_done v)); AInt n; AStr x]]) ++ evs))
                  rawLinks) as Hown.
    set (dbConfigs := parseLinks_loop _ _ _ rawLinks) in *.
    destruct (len dbConfigs >? 0); cbn [fst snd].
    + match goal with |- context [db_UpsertSubscriptionConfigs env ?t] =>
        destruct (db_UpsertSubscriptionConfigs env t) end; cbn [fst snd].
      * repeat split; try (simpl; lia). trace_events; simpl; auto.
      * rewrite (totals_add_configs _ _ _ Hlen).
        repeat split; try (simpl; lia). trace_events; simpl; auto.
    + rewrite (totals_add_configs _ _ _ Hlen).
      repeat split; try (simpl; lia). trace_events; simpl; auto.
  - repeat split; try (simpl; lia). trace_events; simpl; auto.
Qed.

Lemma retrieval_enabled (subs : list database.Subscription.t)
    (sub : database.Subscription.t) (s : Subscription.t) (evs : list event) :
  In sub subs -> database.Subscription.Enabled sub = true ->
  Subscription.Url s = database.Subscription.URL sub ->
  Forall (retrieval_event s) evs -> Forall (enabled_event subs) evs.
Proof.
  intros Hin Hen Hurl H. eapply Forall_impl; [exact H|].
  intros e He. destruct e; simpl in *; try contradiction; try exact I.
  exists sub. rewrite <- Hurl. auto.
Qed.

Lemma fetchAllSubscriptions_task_step (env : Env) (fc : FetchCommand) (n : Z)
    (subs : list database.Subscription.t)
    (x : database.Subscription.t) (v : PoolVars) (tr : trace) :
  let task := fetchAllSubscriptions_task env fc n in
  In x subs /\ database.Subscription.Enabled x = true ->
  doneCount (fst (task x v tr)) = doneCount v + 1
  /\ failedCount v <= failedCount (fst (task x v tr)) <= failedCount v + 1
  /\ totalRaw (fst (task x v tr)) - len (allConfigs (fst (task x v tr)))
     = totalRaw v - len (allConfigs v)
  /\ exists evs, snd (task x v tr) = tr ++ evs /\ Forall (enabled_event subs) evs.
Proof.
  intros task [Hin Hen]. unfold task, fetchAllSubscriptions_task.
  unfold parseLinks, UpsertSubscriptionConfigs, UpdateSubscriptionFetched,
    bind, Printf, now, ret, call.
  cbv zeta.
  match goal with |- context [FetchAll env ?s ?t] =>
    destruct (FetchAll_split env s t) as (s' & fetched & evs & Hfetch & Hev);
    rewrite Hfetch
  end.
  apply (retrieval_enabled subs x) in Hev; [|exact Hin|exact Hen|reflexivity].
  assert (Hme : forall P : database.Subscription.t -> Prop, P x ->
                exists sub, In sub subs
                            /\ database.Subscription.Enabled sub = true /\ P sub)
    by (intros P HP; exists x; auto).
  destruct fetched as [rawLinks|err]; cbn [fst snd].
  - pose proof (FetchAll_trimmed _ _ _ _ _ _ Hfetch) as Htrim.
    match goal with |- context [parseLinks_loop ?c ?i ?t rawLinks] =>
      pose proof (parseLinks_loop_len c i t rawLinks Htrim) as Hlen;
      pose proof (parseLinks_loop_owner c i t rawLinks) as Hown;
      set (dbConfigs := parseLinks_loop c i t rawLinks) in *
    end.
    destruct (len dbConfigs >? 0); cbn [fst snd].
    + match goal with |- context [db_UpsertSubscriptionConfigs env ?t] =>
        destruct (db_UpsertSubscriptionConfigs env t) end; cbn [fst snd].
      * repeat split; try (simpl; lia).
        trace_events; simpl; auto; apply (Hme _ Hown).
      * match goal with |- context [db_UpdateSubscriptionFetched env ?t] =>
          destruct (db_UpdateSubscriptionFetched env t) end; cbn [fst snd];
          rewrite (totals_add_configs _ _ _ Hlen);
          (repeat split; try (simpl; lia));
          trace_events; simpl; auto;
          first [apply (Hme _ Hown) | apply (Hme (fun s => _ = database.Subscription.ID s) eq_refl)].
    + rewrite (totals_add_configs _ _ _ Hlen).
      repeat split; try (simpl; lia). trace_events; simpl; auto.
  - repeat split; try (simpl; lia). trace_events; simpl; auto.
Qed.

Lemma finish_batch_events (env : Env) (fc : FetchCommand) (v : PoolVars)
    (failure : Z -> error) (tr : trace) :
  exists evs,
    snd (finish_batch env fc v failure tr)
    = tr ++ EvLog Finished
              ("All done: %d links fetched, %d configs saved, %d failed." +:+ nl)
              [AInt (totalRaw v); AInt (len (allConfigs v)); AInt (failedCount v)]
         :: evs
    /\ Forall (fun e => match e with
                        | EvLog _ _ _ | EvWriteIntoFile _ _ => True
                        | _ => False
                        end) evs.
Proof.
  unfold finish_batch, saveConfigsToFile, bind, Printf, call, ret. cbv zeta.
  destruct (negb _ && _); cbn [fst snd].
  - match goal with |- context [fs_WriteIntoFile env ?t] =>
      destruct (fs_WriteIntoFile env t) end; cbn [fst snd].
    + eexists [_]. split; [now rewrite <- app_assoc|repeat constructor].
    + destruct (failedCount v >? 0); cbn [fst snd];
        (eexists [_; _]; split; [now repeat rewrite <- app_assoc|repeat constructor]).
  - destruct (failedCount v >? 0); cbn [fst snd];
      (exists []; split; [reflexivity|constructor]).
Qed.

Lemma len_nonempty {A} (l : list A) : l <> [] -> (len l =? 0) = false.
Proof.
  intros H. apply Z.eqb_neq. unfold len. destruct l; [congruence|].
  simpl length. lia.
Qed.

Lemma fetchFromFile_run (env : Env) (fc : FetchCommand) (tr : trace) :
  let fileName := FetchConfig.FileInput (config fc) in
  let urls :=
    filter_lines
      (strings.Split (fs_ReadFile env (tr ++ [EvParseFileByNewline fileName]))
                     "010") in
  let workers := FetchConfig.Workers (config fc) in
  let tr0 :=
    tr ++ [EvParseFileByNewline fileName;
           EvLog Processing
             ("Found %d URL(s) in %q — fetching with %d worker(s)..." +:+ nl)
             [AInt (len urls); AStr fileName;
              AInt (if workers >? len urls then len urls else workers)]] in
  let run :=
    run_tasks (fetchFromFile_task env fc (len urls))
              (pool_order env _ urls) PoolVars_zero tr0 in
  fetchFromFile env fc tr
  = if len urls =? 0
    then (Some (Errorf "no URLs found in file %q" [AStr fileName]),
          tr ++ [EvParseFileByNewline fileName])
    else finish_batch env fc (fst run)
           (fun failed =>
              Errorf "%d out of %d URLs failed to fetch"
                     [AInt failed; AInt (len urls)])
           (snd run).
Proof.
  intros fileName urls workers tr0 run.
  unfold fetchFromFile, ParseFileByNewline, bind, call, ret, Printf.
  fold fileName. fold urls. destruct (len urls =? 0); [reflexivity|].
  fold workers. rewrite <- app_assoc. simpl app. fold tr0. fold run.
  now destruct run.
Qed.

Lemma fetchAllSubscriptions_run (env : Env) (fc : FetchCommand) (tr : trace)
    (subs : list database.Subscription.t) :
  db_ListSubscriptions env (tr ++ [EvListSubscriptions]) = Ok subs ->
  let enabled := List.filter database.Subscription.Enabled subs in
  let workers := FetchConfig.Workers (config fc) in
  let tr0 :=
    tr ++ [EvListSubscriptions;
           EvLog Processing
             ("Fetching from %d enabled subscription(s) with %d worker(s)..." +:+ nl)
             [AInt (len enabled);
              AInt (if workers >? len enabled then len enabled else workers)]] in
  let run :=
    run_tasks (fetchAllSubscriptions_task env fc (len enabled))
              (pool_order env _ enabled) PoolVars_zero tr0 in
  fetchAllSubscriptions env fc tr
  = if len enabled =? 0
    then (None,
          tr ++ [EvListSubscriptions;
                 EvLog Warning
                   ("No enabled subscriptions found in the database." +:+ nl) []])
    else finish_batch env fc (fst run)
           (fun failed =>
              Errorf "%d out of %d subscriptions failed to fetch"
                     [AInt failed; AInt (len enabled)])
           (snd run).
Proof.
  intros Hlist enabled workers tr0 run.
  unfold fetchAllSubscriptions, bind, call, ret, Printf.
  rewrite Hlist. fold enabled. destruct (len enabled =? 0).
  - now rewrite <- app_assoc.
  - fold workers. rewrite <- app_assoc. simpl app. fold tr0. fold run.
    now destruct run.
Qed.

Lemma log_or_write_unlinked (evs : list event) :
  Forall (fun e => match e with
                   | EvLog _ _ _ | EvWriteIntoFile _ _ => True
                   | _ => False
                   end) evs ->
  Forall unlinked_event evs.
Proof.
  intros H. eapply Forall_impl; [exact H|].
  intros e He. destruct e; simpl in *; try contradiction; exact I.
Qed.

Lemma log_or_write_enabled subs (evs : list event) :
  Forall (fun e => match e with
                   | EvLog _ _ _ | EvWriteIntoFile _ _ => True
                   | _ => False
                   end) evs ->
  Forall (enabled_event subs) evs.
Proof.
  intros H. eapply Forall_impl; [exact H|].
  intros e He. destruct e; simpl in *; try contradiction; exact I.
Qed.

(** X10.  A run over the URLs of a file, with at least one URL and a pool
    that completes every task once: the final report gives the same
    number for the links fetched and for the configs saved, and a
    count of failures between zero and the number of URLs; when that
    count is positive the run returns an error. *)
Theorem file_run_totals (env : Env) (fc : FetchCommand) (tr : trace) :
  let fileName := FetchConfig.FileInput (config fc) in
  let urls :=
    filter_lines
      (strings.Split (fs_ReadFile env (tr ++ [EvParseFileByNewline fileName]))
                     "010") in
  urls <> [] ->
  Permutation (pool_order env _ urls) urls ->
  exists n failed before after,
    snd (fetchFromFile env fc tr)
    = tr ++ before
        ++ EvLog Finished
             ("All done: %d links fetched, %d configs saved, %d failed." +:+ nl)
             [AInt n; AInt n; AInt failed] :: after
    /\ 0 <= n
    /\ 0 <= failed <= len urls
    /\ (0 < failed -> fst (fetchFromFile env fc tr) <> None).
Proof.
  intros fileName urls Hne Hperm.
  rewrite (fetchFromFile_run env fc tr). fold fileName. fold urls.
  rewrite (len_nonempty urls Hne). cbv zeta.
  set (tr0 := tr ++ [_; _]).
  destruct (run_tasks_totals (fetchFromFile_task env fc (len urls))
              unlinked_event (fun _ => True)
              (fun x v t _ => fetchFromFile_task_step env fc (len urls) x v t)
              (pool_order env _ urls) PoolVars_zero tr0)
    as (_ & Hf & Ht & evs & Htr & _);
    [now apply Forall_forall|].
  destruct (run_tasks (fetchFromFile_task env fc (len urls))
              (pool_order env _ urls) PoolVars_zero tr0) as [v tr1].
  cbn [fst snd] in *. subst tr1.
  match goal with |- context [finish_batch env fc v ?f ?t] =>
    destruct (finish_batch_events env fc v f t) as (evs' & Htr' & _);
    destruct (finish_batch_result env fc v f t) as (Hfail & _)
  end.
  assert (Hn : totalRaw v = len (allConfigs v))
    by (unfold len in *; simpl in Ht; lia).
  rewrite Hn in Htr'.
  exists (len (allConfigs v)), (failedCount v).
  eexists (_ :: _ :: evs), evs'.
  split; [|split; [|split]].
  - rewrite Htr'. unfold tr0. now repeat rewrite <- app_assoc.
  - unfold len. lia.
  - unfold len in *. rewrite <- (Permutation_length Hperm). simpl in Hf. lia.
  - intros Hpos. destruct (Hfail Hpos) as [err ->]. discriminate.
Qed.

Lemma file_run_totals_witness :
  exists n failed before after,
    snd (fetchFromFile two_source_env (mkFetchCommand file_config no_core) [])
    = [] ++ before
        ++ EvLog Finished
             ("All done: %d links fetched, %d configs saved, %d failed." +:+ nl)
             [AInt n; AInt n; AInt failed] :: after
    /\ 0 <= n
    /\ 0 <= failed <= 2
    /\ (0 < failed ->
        fst (fetchFromFile two_source_env (mkFetchCommand file_config no_core) [])
        <> None).
Proof.
  apply (file_run_totals two_source_env (mkFetchCommand file_config no_core) []);
    [vm_compute; discriminate|apply Permutation_refl].
Defined.

(** X11.  A run over the URLs of a file never reads or updates a
    subscription of the database, whatever the file holds and in
    whatever order the pool completes the tasks: every event it adds is
    unlinked, and the configs it upserts have no owner. *)
Theorem file_run_unlinked (env : Env) (fc : FetchCommand) (tr : trace) :
  exists evs,
    snd (fetchFromFile env fc tr) = tr ++ evs
    /\ Forall unlinked_event evs.
Proof.
  rewrite (fetchFromFile_run env fc tr). cbv zeta.
  set (urls := filter_lines _).
  destruct (len urls =? 0).
  - cbn [snd]. trace_events; simpl; auto.
  - set (tr0 := tr ++ [_; _]).
    destruct (run_tasks_totals (fetchFromFile_task env fc (len urls))
                unlinked_event (fun _ => True)
                (fun x v t _ => fetchFromFile_task_step env fc (len urls) x v t)
                (pool_order env _ urls) PoolVars_zero tr0)
      as (_ & _ & _ & evs & Htr & Hev);
      [now apply Forall_forall|].
    destruct (run_tasks (fetchFromFile_task env fc (len urls))
                (pool_order env _ urls) PoolVars_zero tr0) as [v tr1].
    cbn [fst snd] in *. subst tr1.
    match goal with |- context [finish_batch env fc v ?f ?t] =>
      destruct (finish_batch_events env fc v f t) as (evs' & Htr' & Hev')
    end.
    rewrite Htr'. unfold tr0. apply log_or_write_unlinked in Hev'.
    trace_events; simpl; auto.
Qed.

(** X12.  A run over the enabled subscriptions, with at least one enabled
    and a pool that completes every task once: the final report gives
    the same number for the links fetched and for the configs saved,
    and a count of failures between zero and the number of enabled
    subscriptions; when that count is positive the run returns an
    error. *)
Theorem all_enabled_run_totals (env : Env) (fc : FetchCommand) (tr : trace)
    (subs : list database.Subscription.t) :
  db_ListSubscriptions env (tr ++ [EvListSubscriptions]) = Ok subs ->
  let enabled := List.filter database.Subscription.Enabled subs in
  enabled <> [] ->
  Permutation (pool_order env _ enabled) enabled ->
  exists n failed before after,
    snd (fetchAllSubscriptions env fc tr)
    = tr ++ before
        ++ EvLog Finished
             ("All done: %d links fetched, %d configs saved, %d failed." +:+ nl)
             [AInt n; AInt n; AInt failed] :: after
    /\ 0 <= n
    /\ 0 <= failed <= len enabled
    /\ (0 < failed -> fst (fetchAllSubscriptions env fc tr) <> None).
Proof.
  intros Hlist enabled Hne Hperm.
  rewrite (fetchAllSubscriptions_run env fc tr subs Hlist). fold enabled.
  rewrite (len_nonempty enabled Hne). cbv zeta.
  set (tr0 := tr ++ [_; _]).
  destruct (run_tasks_totals (fetchAllSubscriptions_task env fc (len enabled))
              (enabled_event subs)
              (fun x => In x subs /\ database.Subscription.Enabled x = true)
              (fun x v t => fetchAllSubscriptions_task_step env fc (len enabled)
                              subs x v t)
              (pool_order env _ enabled) PoolVars_zero tr0)
    as (_ & Hf & Ht & evs & Htr & _).
  { apply List.Forall_forall. intros x Hx.
    apply (Permutation_in _ Hperm) in Hx. now apply filter_In in Hx. }
  destruct (run_tasks (fetchAllSubscriptions_task env fc (len enabled))
              (pool_order env _ enabled) PoolVars_zero tr0) as [v tr1].
  cbn [fst snd] in *. subst tr1.
  match goal with |- context [finish_batch env fc v ?f ?t] =>
    destruct (finish_batch_events env fc v f t) as (evs' & Htr' & _);
    destruct (finish_batch_result env fc v f t) as (Hfail & _)
  end.
  assert (Hn : totalRaw v = len (allConfigs v))
    by (unfold len in *; simpl in Ht; lia).
  rewrite Hn in Htr'.
  exists (len (allConfigs v)), (failedCount v).
  eexists (_ :: _ :: evs), evs'.
  split; [|split; [|split]].
  - rewrite Htr'. unfold tr0. now repeat rewrite <- app_assoc.
  - unfold len. lia.
  - unfold len in *. rewrite <- (Permutation_length Hperm). simpl in Hf. lia.
  - intros Hpos. destruct (Hfail Hpos) as [err ->]. discriminate.
Qed.

Lemma all_enabled_run_totals_witness :
  exists n failed before after,
    snd (fetchAllSubscriptions
           (constant_env [sample_subscription] (serve "vless://u@h:443#A")
              None None None "")
           (mkFetchCommand sample_config no_core) [])
    = [] ++ before
        ++ EvLog Finished
             ("All done: %d links fetched, %d configs saved, %d failed." +:+ nl)
             [AInt n; AInt n; AInt failed] :: after
    /\ 0 <= n
    /\ 0 <= failed <= 1
    /\ (0 < failed ->
        fst (fetchAllSubscriptions
               (constant_env [sample_subscription] (serve "vless://u@h:443#A")
                  None None None "")
               (mkFetchCommand sample_config no_core) [])
        <> None).
Proof.
  apply (all_enabled_run_totals
           (constant_env [sample_subscription] (serve "vless://u@h:443#A")
              None None None "")
           (mkFetchCommand sample_config no_core) [] [sample_subscription]);
    [reflexivity|discriminate|apply Permutation_refl].
Defined.

(** X13.  A run over the enabled subscriptions whose listing succeeds,
    with a pool that only runs tasks that were submitted: the listing
    comes first, and everything after it concerns an enabled
    subscription of the list.  Each request goes to the URL of one,
    each upsert stores configs owned by one, each timestamp is written
    for one; a disabled subscription is never fetched or updated. *)
Theorem all_enabled_run_events (env : Env) (fc : FetchCommand) (tr : trace)
    (subs : list database.Subscription.t) :
  db_ListSubscriptions env (tr ++ [EvListSubscriptions]) = Ok subs ->
  let enabled := List.filter database.Subscription.Enabled subs in
  (forall sub, In sub (pool_order env _ enabled) -> In sub enabled) ->
  exists evs,
    snd (fetchAllSubscriptions env fc tr) = tr ++ EvListSubscriptions :: evs
    /\ Forall (enabled_event subs) evs.
Proof.
  intros Hlist enabled Hpool.
  rewrite (fetchAllSubscriptions_run env fc tr subs Hlist). fold enabled.
  cbv zeta. destruct (len enabled =? 0).
  - cbn [snd]. eexists [_]. split; [reflexivity|]. repeat constructor.
  - set (tr0 := tr ++ [_; _]).
    destruct (run_tasks_totals (fetchAllSubscriptions_task env fc (len enabled))
                (enabled_event subs)
                (fun x => In x subs /\ database.Subscription.Enabled x = true)
                (fun x v t => fetchAllSubscriptions_task_step env fc
                                (len enabled) subs x v t)
                (pool_order env _ enabled) PoolVars_zero tr0)
      as (_ & _ & _ & evs & Htr & Hev).
    { apply List.Forall_forall. intros x Hx.
      apply Hpool in Hx. now apply filter_In in Hx. }
    destruct (run_tasks (fetchAllSubscriptions_task env fc (len enabled))
                (pool_order env _ enabled) PoolVars_zero tr0) as [v tr1].
    cbn [fst snd] in *. subst tr1.
    match goal with |- context [finish_batch env fc v ?f ?t] =>
      destruct (finish_batch_events env fc v f t) as (evs' & Htr' & Hev')
    end.
    rewrite Htr'. unfold tr0. apply (log_or_write_enabled subs) in Hev'.
    eexists (_ :: evs ++ _ :: evs'). split.
    + repeat rewrite <- app_assoc. reflexivity.
    + constructor; [exact I|]. apply Forall_app. split; [exact Hev|].
      constructor; [exact I|exact Hev'].
Qed.

Lemma all_enabled_run_events_witness :
  exists evs,
    snd (fetchAllSubscriptions
           (constant_env
              [sample_subscription;
               database.Subscription.mk 2 "https://off.example/sub"
                 (sql.NullString.mk "" false) (sql.NullString.mk "" false) false
                 (sql.NullTime.mk 0 false)]
              (serve "vless://u@h:443#A") None None None "")
           (mkFetchCommand sample_config no_core) [])
    = [] ++ EvListSubscriptions :: evs
    /\ Forall (enabled_event
                 [sample_subscription;
                  database.Subscription.mk 2 "https://off.example/sub"
                    (sql.NullString.mk "" false) (sql.NullString.mk "" false) false
                    (sql.NullTime.mk 0 false)]) evs.
Proof.
  apply (all_enabled_run_events
           (constant_env
              [sample_subscription;
               database.Subscription.mk 2 "https://off.example/sub"
                 (sql.NullString.mk "" false) (sql.NullString.mk "" false) false
                 (sql.NullTime.mk 0 false)]
              (serve "vless://u@h:443#A") None None None "")
           (mkFetchCommand sample_config no_core) [] _);
    [reflexivity|intros sub H; exact H].
Defined.

(** ** The Wireguard decoder and its outbound *)

Section WireguardLink.

Import strings url.

Variable WireguardIdentifier : string.
Variable fields : list (Wireguard.field * string).
Variable Sscanf_d : string -> Z.

(** Escaping the user info and unescaping it as a path segment gives
    its text back. *)
Lemma PathUnescape_userinfo_text (u : option Userinfo) :
  PathUnescape (Userinfo_String u) = Ok (userinfo_text u).
Proof.
  unfold PathUnescape, Userinfo_String, userinfo_text.
  destruct u as [[username password passwordSet]|]; simpl; [|reflexivity].
  destruct passwordSet.
  - rewrite unescape_escape, append_cons, append_nil.
    rewrite (unescape_plain ":" _ eq_refl).
    rewrite <- (append_empty_r (escape password _)), unescape_escape.
    simpl. now rewrite append_empty_r.
  - rewrite <- (append_empty_r (escape username _)), unescape_escape.
    simpl. now rewrite append_empty_r.
Qed.

Lemma Parse_fields_absent (uri : URL) (fs : list (Wireguard.field * string))
    (w : Wireguard.t) :
  Forall (fun ft => Query uri !! snd ft = None) fs ->
  Wireguard.Parse_fields Sscanf_d uri fs w = Returns w.
Proof.
  induction 1 as [|[f tag] fs Hft _ IH]; [reflexivity|].
  simpl in *. now rewrite Hft.
Qed.

Lemma Parse_fields_LocalAddress (uri : URL)
    (fs : list (Wireguard.field * string)) (w w' : Wireguard.t) :
  Forall (fun ft => fst ft = Wireguard.FLocalAddress ->
                    Query uri !! snd ft = None) fs ->
  Wireguard.Parse_fields Sscanf_d uri fs w = Returns w' ->
  Wireguard.LocalAddress w' = Wireguard.LocalAddress w.
Proof.
  intros H. revert w. induction H as [|[f tag] fs Hft _ IH]; intros w.
  - simpl. now intros [= <-].
  - simpl in *. destruct (Query uri !! tag) as [[|value values]|].
    + discriminate.
    + destruct f; simpl; intros Hw'; apply IH in Hw'; try exact Hw';
        now specialize (Hft eq_refl).
    + apply IH.
Qed.

(** X14.  The Wireguard decoder always returns, it never panics.  It
    returns no error exactly when the link starts with the identifier
    and [url.Parse] accepts it: the user info always unescapes, and a
    query key always has a first value.  When it returns an error the
    receiver is left as it was. *)
Theorem Wireguard_Parse_returns (w : Wireguard.t) :
  exists w' r,
    Wireguard.Parse WireguardIdentifier fields Sscanf_d w = Returns (w', r)
    /\ (r = None <->
        HasPrefix (Wireguard.OrigLink w) WireguardIdentifier = true
        /\ exists uri, url.Parse (Wireguard.OrigLink w) = Ok uri)
    /\ (r <> None -> w' = w).
Proof.
  unfold Wireguard.Parse.
  destruct (HasPrefix (Wireguard.OrigLink w) WireguardIdentifier); simpl.
  - destruct (url.Parse (Wireguard.OrigLink w)) as [uri|err].
    + rewrite PathUnescape_userinfo_text.
      match goal with |- context [Wireguard.Parse_fields _ _ _ ?w0] =>
        destruct (Parse_fields_returns Sscanf_d uri fields w0) as [w1 ->] end.
      eexists _, None. split; [reflexivity|]. split; [|congruence].
      split; [eauto|reflexivity].
    + exists w, (Some err). split; [reflexivity|]. split; [|reflexivity].
      split; [discriminate|]. now intros [_ [uri [=]]].
  - eexists w, (Some _). split; [reflexivity|]. split; [|reflexivity].
    split; [discriminate|]. now intros [[=] _].
Qed.

(** X15.  For a link that decodes and whose query names no field of the
    struct, the secret key is the text of the user info of the link,
    its escapes decoded, and the endpoint is the host with its port;
    the public key, the local address, the MTU and the original link
    stay as they were. *)
Theorem Wireguard_Parse_key_and_endpoint (w : Wireguard.t) (uri : URL) :
  HasPrefix (Wireguard.OrigLink w) WireguardIdentifier = true ->
  url.Parse (Wireguard.OrigLink w) = Ok uri ->
  Forall (fun ft => Query uri !! snd ft = None) fields ->
  exists w',
    Wireguard.Parse WireguardIdentifier fields Sscanf_d w = Returns (w', None)
    /\ Wireguard.SecretKey w' = userinfo_text (User_ uri)
    /\ Wireguard.Endpoint w' = Host uri
    /\ Wireguard.PublicKey w' = Wireguard.PublicKey w
    /\ Wireguard.LocalAddress w' = Wireguard.LocalAddress w
    /\ Wireguard.Mtu w' = Wireguard.Mtu w
    /\ Wireguard.OrigLink w' = Wireguard.OrigLink w.
Proof.
  intros Hprefix Hparse Habsent. unfold Wireguard.Parse.
  rewrite Hprefix, Hparse, PathUnescape_userinfo_text. simpl.
  rewrite (Parse_fields_absent uri fields _ Habsent).
  eexists. split; [reflexivity|]. repeat split.
Qed.

(** X16.  A link that decodes but whose query gives no local address
    leaves the address empty, and building the outbound of the decoded
    value panics: the second local address is indexed without a
    check. *)
Theorem Wireguard_outbound_needs_addresses (link : string) (uri : URL)
    (allowInsecure : bool) :
  HasPrefix link WireguardIdentifier = true ->
  url.Parse link = Ok uri ->
  Forall (fun ft => fst ft = Wireguard.FLocalAddress ->
                    Query uri !! snd ft = None) fields ->
  exists w',
    Wireguard.Parse WireguardIdentifier fields Sscanf_d
                    (Wireguard.NewWireguard_t link) = Returns (w', None)
    /\ BuildOutboundDetourConfig w' allowInsecure = Panics.
Proof.
  intros Hprefix Hparse Habsent. unfold Wireguard.Parse.
  cbn [Wireguard.OrigLink Wireguard.NewWireguard_t].
  rewrite Hprefix, Hparse, PathUnescape_userinfo_text. cbn [negb].
  match goal with |- context [Wireguard.Parse_fields _ _ _ ?w0] =>
    destruct (Parse_fields_returns Sscanf_d uri fields w0) as [w1 Hw1];
    pose proof (Parse_fields_LocalAddress uri fields w0 w1 Habsent Hw1) as Hla;
    rewrite Hw1
  end.
  eexists. split; [reflexivity|].
  unfold BuildOutboundDetourConfig.
  cbn [Wireguard.LocalAddress Wireguard.SetString]. rewrite Hla.
  reflexivity.
Qed.

End WireguardLink.

Lemma Wireguard_Parse_returns_witness :
  exists w' r,
    sample_Parse "vless://secret@1.2.3.4:51820" = Returns (w', r)
    /\ (r = None <->
        strings.HasPrefix "vless://secret@1.2.3.4:51820" "wireguard://" = true
        /\ exists uri, url.Parse "vless://secret@1.2.3.4:51820" = Ok uri)
    /\ (r <> None -> w' = Wireguard.NewWireguard_t "vless://secret@1.2.3.4:51820").
Proof.
  apply (Wireguard_Parse_returns "wireguard://" sample_fields sample_Sscanf_d
           (Wireguard.NewWireguard_t "vless://secret@1.2.3.4:51820")).
Defined.


Lemma Wireguard_Parse_key_and_endpoint_witness :
  exists w',
    sample_Parse "wireguard://se%2Fcret@1.2.3.4:51820" = Returns (w', None)
    /\ Wireguard.SecretKey w' = "se/cret"
    /\ Wireguard.Endpoint w' = "1.2.3.4:51820".
Proof.
  destruct (Wireguard_Parse_key_and_endpoint "wireguard://" sample_fields
              sample_Sscanf_d
              (Wireguard.NewWireguard_t "wireguard://se%2Fcret@1.2.3.4:51820")
              (url.mkURL "wireguard" "" (Some (url.User "se/cret"))
                 "1.2.3.4:51820" "" "" false false "" "" "")
              eq_refl eq_refl)
    as (w' & HP & HK & HE & _).
  - repeat constructor.
  - exists w'. split; [exact HP|]. split; [exact HK|exact HE].
Defined.

Lemma Wireguard_outbound_needs_addresses_witness :
  exists w',
    sample_Parse "wireguard://secret@1.2.3.4:51820?publickey=abc"
    = Returns (w', None)
    /\ BuildOutboundDetourConfig w' false = Panics.
Proof.
  apply (Wireguard_outbound_needs_addresses "wireguard://" sample_fields
           sample_Sscanf_d "wireguard://secret@1.2.3.4:51820?publickey=abc"
           (url.mkURL "wireguard" "" (Some (url.User "secret"))
              "1.2.3.4:51820" "" "" false false "publickey=abc" "" "")
           false eq_refl eq_refl).
  repeat constructor; simpl; try discriminate; intros _; vm_compute; reflexivity.
Defined.

Lemma Contains_CountByte (s : string) (c : ascii) :
  strings.Contains s (String c EmptyString) = false
  <-> strings.CountByte s c = O.
Proof.
  unfold strings.Contains. induction s as [|a s IH].
  - simpl. tauto.
  - cbn [strings.Index strings.HasPrefix strings.CountByte].
    replace (strings.HasPrefix s EmptyString) with true by now destruct s.
    rewrite andb_true_r. destruct (Ascii.eqb a c); simpl.
    + split; [discriminate|lia].
    + destruct (strings.Index s (String c EmptyString)); simpl in *.
      * destruct IH as [_ IH]. split; [discriminate|]. intros H.
        now specialize (IH H).
      * destruct IH as [IH _]. split; [intros _; now apply IH|reflexivity].
Qed.

Lemma Split_length (s : string) (c : ascii) :
  length (strings.Split s c) = S (strings.CountByte s c).
Proof.
  induction s as [|a s IH]; [reflexivity|].
  simpl. destruct (Ascii.eqb a c); simpl.
  - now rewrite IH.
  - destruct (strings.Split s c); simpl in *; [discriminate|exact IH].
Qed.

(** X17.  [BuildOutboundDetourConfig] panics exactly when the local
    address holds no comma.  Otherwise it returns a config and never an
    error, tagged "proxy" with the protocol "wireguard". *)
Theorem BuildOutboundDetourConfig_panics (w : Wireguard.t)
    (allowInsecure : bool) :
  (BuildOutboundDetourConfig w allowInsecure = Panics
   <-> strings.Contains (Wireguard.LocalAddress w) "," = false)
  /\ forall r, BuildOutboundDetourConfig w allowInsecure = Returns r ->
       exists out,
         r = Ok out
         /\ conf.OutboundDetourConfig.Tag out = "proxy"
         /\ conf.OutboundDetourConfig.Protocol out = "wireguard".
Proof.
  unfold BuildOutboundDetourConfig.
  pose proof (Split_length (Wireguard.LocalAddress w) ",") as Hlen.
  rewrite Contains_CountByte.
  destruct (strings.Split (Wireguard.LocalAddress w) ",")
    as [|address0 [|address1 rest]]; simpl in Hlen.
  - discriminate.
  - split; [split; [lia|reflexivity]|discriminate].
  - split; [split; [discriminate|lia]|].
    intros r [= <-]. eexists. split; [reflexivity|]. split; reflexivity.
Qed.

Lemma BuildOutboundDetourConfig_panics_witness :
  BuildOutboundDetourConfig
    (Wireguard.mk "" "abc" "secret" "1.2.3.4:51820" "10.0.0.2/32" 1280 "") false
  = Panics.
Proof.
  apply (BuildOutboundDetourConfig_panics
           (Wireguard.mk "" "abc" "secret" "1.2.3.4:51820" "10.0.0.2/32" 1280 "")
           false).
  reflexivity.
Defined.

(** ** The rows of the show command *)

Lemma length_take (n : nat) (s : string) :
  String.length (strings.take n s) = Nat.min n (String.length s).
Proof.
  revert s. induction n as [|n IH]; intros [|c s]; simpl; auto.
Qed.

Lemma length_append (s t : string) :
  String.length (s +:+ t) = (String.length s + String.length t)%nat.
Proof.
  induction s as [|c s IH]; [reflexivity|].
  rewrite append_cons. simpl. now rewrite IH.
Qed.

Lemma take_drop (n : nat) (s : string) :
  strings.take n s +:+ strings.drop n s = s.
Proof.
  revert s. induction n as [|n IH]; intros [|c s]; try reflexivity.
  simpl. rewrite append_cons. now rewrite IH.
Qed.

Lemma take_append (n : nat) (p q : string) :
  String.length p = n -> strings.take n (p +:+ q) = p.
Proof.
  revert n. induction p as [|c p IH]; intros n <-.
  - reflexivity.
  - rewrite append_cons. simpl. now rewrite IH.
Qed.

(** X18.  A row of the table shows the URL in full with the verbose
    flag or when it has at most 50 bytes.  Otherwise it shows exactly
    50 bytes: the first 47 of the URL and three dots.  The remark
    shown is never empty. *)
Theorem show_row_displayURL (showVerbose : bool) (sub : database.Subscription.t)
    (configCount : Z) :
  let row := show_row showVerbose sub configCount in
  let u := database.Subscription.URL sub in
  let d := ShowRow.displayURL row in
  (showVerbose = false -> (String.length d <= 50)%nat)
  /\ (showVerbose = true \/ (String.length u <= 50)%nat -> d = u)
  /\ (showVerbose = false -> (50 < String.length u)%nat ->
      String.length d = 50%nat
      /\ exists rest, u = strings.take 47 d +:+ rest
                      /\ d = strings.take 47 d +:+ "...")
  /\ ShowRow.remark row <> EmptyString.
Proof.
  intros row u d. unfold d, row, show_row. cbn [ShowRow.displayURL ShowRow.remark].
  fold u.
  assert (Hcut : (50 < String.length u)%nat ->
                 strings.take 47 (strings.take 47 u +:+ "...") = strings.take 47 u).
  { intros Hlong. apply take_append. rewrite length_take. lia. }
  split; [|split; [|split]].
  - intros ->. cbn [negb andb].
    destruct (Z.gtb_spec (Z.of_nat (String.length u)) 50) as [Hlong|Hshort].
    + rewrite length_append, length_take. simpl String.length. lia.
    + lia.
  - intros [->|Hshort]; [reflexivity|].
    destruct (Z.gtb_spec (Z.of_nat (String.length u)) 50) as [Hlong|_]; [lia|].
    now rewrite andb_false_r.
  - intros -> Hlong. cbn [negb andb].
    destruct (Z.gtb_spec (Z.of_nat (String.length u)) 50) as [_|Hshort]; [|lia].
    split; [rewrite length_append, length_take; simpl String.length; lia|].
    rewrite (Hcut Hlong). exists (strings.drop 47 u).
    split; [now rewrite take_drop|reflexivity].
  - destruct (sql.NullString.Valid _ && negb _) eqn:E; [|discriminate].
    apply andb_true_iff in E. destruct E as [_ E].
    apply negb_true_iff in E. unfold strings.eqb in E.
    now apply String.eqb_neq in E.
Qed.

Lemma show_row_displayURL_witness :
  ShowRow.displayURL
    (show_row false
       (database.Subscription.mk 7
          "https://subscriptions.example.com/api/v1/client/subscribe?token=0123456789"
          (sql.NullString.mk "" false) (sql.NullString.mk "" false) true
          (sql.NullTime.mk 0 false)) 12)
  = "https://subscriptions.example.com/api/v1/client..."
  /\ ShowRow.displayURL (show_row false sample_subscription 0)
     = "https://up.example/sub".
Proof.
  split.
  - destruct (show_row_displayURL false
                (database.Subscription.mk 7
                   "https://subscriptions.example.com/api/v1/client/subscribe?token=0123456789"
                   (sql.NullString.mk "" false) (sql.NullString.mk "" false) true
                   (sql.NullTime.mk 0 false)) 12)
      as (_ & _ & Hlong & _).
    destruct Hlong as (_ & _ & _ & Hd); [reflexivity|simpl; lia|].
    rewrite Hd. reflexivity.
  - apply (show_row_displayURL false sample_subscription 0).
    right. simpl. lia.
Defined.

(** ** The add command *)

Lemma setPath_Scheme (u u' : url.URL) (p : string) :
  url.setPath u p = Ok u' -> url.Scheme u' = url.Scheme u.
Proof.
  unfold url.setPath. destruct (url.unescape p url.encodePath); [|discriminate].
  now intros [= <-].
Qed.

(** A request URI with a scheme parses the same way as a URL. *)
Lemma parse_request_absolute (rawURL : string) (u : url.URL) :
  url.parse rawURL true = Ok u -> url.IsAbs u = true ->
  url.parse rawURL false = Ok u.
Proof.
  unfold url.parse, url.IsAbs. intros H Habs.
  destruct (url.stringContainsCTLByte rawURL); [discriminate|].
  destruct (strings.eqb rawURL EmptyString); [discriminate|]. cbn [andb] in *.
  destruct (strings.eqb rawURL "*").
  { injection H as <-. discriminate. }
  destruct (url.getScheme rawURL) as [[scheme rest]|]; [|discriminate].
  cbv zeta in *.
  destruct (if strings.HasSuffix rest "?" && Nat.eqb (strings.CountByte rest "?") 1
            then _ else _) as [[rest' forceQuery] rawQuery].
  destruct (strings.eqb (strings.ToLower scheme) EmptyString) eqn:E.
  - exfalso. cbn [negb andb orb] in H. rewrite !andb_false_r in H.
    rewrite andb_true_r in H.
    destruct (negb (strings.HasPrefix rest' "/")); [discriminate|].
    cbn [andb] in H. apply setPath_Scheme in H. cbn [url.Scheme] in H.
    rewrite H, E in Habs. discriminate.
  - cbn [negb andb orb] in *. rewrite !andb_true_r in *.
    destruct (negb (strings.HasPrefix rest' "/")); [exact H|].
    cbn [andb] in *. exact H.
Qed.

Lemma Contains_Cut (s sep : string) :
  strings.Contains s sep = false ->
  strings.Cut s sep = (s, EmptyString, false).
Proof.
  unfold strings.Contains, strings.Cut.
  now destruct (strings.Index s sep).
Qed.

Lemma FetchAll_sends (env : Env) (s : Subscription.t) (tr : trace)
    (u : url.URL) :
  url.Parse (Subscription.Url s) = Ok u ->
  exists method rest,
    snd (FetchAll env s tr)
    = tr ++ EvSend method u (nonempty (Subscription.UserAgent s))
                   (nonempty (Subscription.Proxy s)) :: rest.
Proof.
  intros Hparse. unfold FetchAll. rewrite Hparse.
  set (s' := if strings.eqb (Subscription.Method s) EmptyString
             then Subscription.set_Method s "GET" else s).
  assert (Hua : Subscription.UserAgent s' = Subscription.UserAgent s)
    by (unfold s'; now destruct (strings.eqb _ _)).
  assert (Hpx : Subscription.Proxy s' = Subscription.Proxy s)
    by (unfold s'; now destruct (strings.eqb _ _)).
  rewrite Hua, Hpx. exists (Subscription.Method s').
  unfold bind, call, when, Printf, ret.
  destruct (http_Send env _) as [response|err]; cbn [fst snd].
  - destruct ((StatusCode response <? 200) || (StatusCode response >=? 300));
      cbn [fst snd]; [now exists []|].
    destruct (Body response) as [body|err]; cbn [fst snd]; [|now exists []].
    destruct (is_Ok (utils.Base64Decode body)); cbn [negb fst snd].
    + now exists [].
    + eexists [_]. now rewrite <- app_assoc.
  - now exists [].
Qed.

(** X19.  When [AddCmd] stores a URL, [url.ParseRequestURI] accepted
    it and the command returns what the database answered.  If the
    stored URL is absolute and holds no fragment mark, a later
    [FetchAll] on it does not reject it: a request is sent to that
    same parsed URL. *)
Theorem AddCmd_stored_URL (added : option error)
    (addURL addRemark addUserAgent : string) :
  In (AddSubscription addURL addRemark addUserAgent)
     (snd (AddCmd added addURL addRemark addUserAgent)) ->
  exists u,
    ParseRequestURI addURL = Ok u
    /\ fst (AddCmd added addURL addRemark addUserAgent) = added
    /\ (url.IsAbs u = true -> strings.Contains addURL "#" = false ->
        forall env s tr,
          Subscription.Url s = addURL ->
          exists method rest,
            snd (FetchAll env s tr)
            = tr ++ EvSend method u (nonempty (Subscription.UserAgent s))
                           (nonempty (Subscription.Proxy s)) :: rest).
Proof.
  unfold AddCmd. destruct (ParseRequestURI addURL) as [u|err] eqn:Hreq.
  - intros _. exists u. split; [reflexivity|].
    split; [now destruct added|].
    intros Habs Hfrag env s tr Hurl. apply FetchAll_sends. rewrite Hurl.
    unfold url.Parse. rewrite (Contains_Cut _ _ Hfrag).
    unfold ParseRequestURI in Hreq.
    destruct (url.parse addURL true) as [u'|] eqn:Hparse; [|discriminate].
    injection Hreq as ->.
    now rewrite (parse_request_absolute _ _ Hparse Habs).
  - intros [].
Qed.

Lemma AddCmd_stored_URL_witness :
  exists u method rest,
    ParseRequestURI "https://up.example/sub" = Ok u
    /\ snd (FetchAll (constant_env [] (serve "vless://u@h:443#A") None None None "")
              (Subscription.mk "" "https://up.example/sub" "" "" [] "") [])
       = [] ++ EvSend method u None None :: rest.
Proof.
  destruct (AddCmd_stored_URL None "https://up.example/sub" "My VPN" "clash")
    as (u & Hu & _ & Hfetch); [left; reflexivity|].
  injection Hu as <-.
  destruct (Hfetch eq_refl eq_refl
              (constant_env [] (serve "vless://u@h:443#A") None None None "")
              (Subscription.mk "" "https://up.example/sub" "" "" [] "") []
              eq_refl) as (method & rest & Htr).
  eexists. exists method, rest. split; [reflexivity|exact Htr].
Defined.

(** ** The command and its flag group *)

(** X20.  With flags that pass [validateFlags], the command runs a mode
    only when exactly one flag of the group id, url, all, file is set,
    and then it runs the mode of that flag: the all-enabled run for
    all, the file run for file, the single run for id or url.  With two
    or more flags of the group set it returns an error and does
    nothing, so the order of the tests in [runCommand] never decides
    between two selectors. *)
Theorem Execute_runs_one_mode (env : Env) (fc : FetchCommand) (given : Given.t)
    (tr : trace) :
  let c := config fc in
  validateFlags fc = None ->
  ((1 < length (set_flags c given))%nat ->
   exists err, Execute env fc given tr = (Some err, tr))
  /\ ((length (set_flags c given) <= 1)%nat ->
      exists flag,
        set_flags c given = [flag]
        /\ Execute env fc given tr
           = (if strings.eqb flag "all" then fetchAllSubscriptions env fc
              else if strings.eqb flag "file" then fetchFromFile env fc
              else fetchSingle env fc) tr).
Proof.
  intros c Hv.
  assert (Hsel : selector_given c = true).
  { destruct (selector_given c) eqn:Hs; [reflexivity|].
    rewrite (validateFlags_no_selector fc Hs) in Hv. discriminate. }
  unfold Execute. rewrite Hv. unfold ValidateFlagGroups, runCommand. fold c.
  revert Hsel. unfold selector_given, set_flags.
  destruct given as [gid gurl gall gfile].
  cbn [Given.id Given.url Given.all Given.file].
  destruct (FetchConfig.FetchAll c);
    destruct (strings.eqb (FetchConfig.FileInput c) EmptyString);
    destruct (FetchConfig.SubscriptionID c =? 0);
    destruct (strings.eqb (FetchConfig.SubscriptionURL c) EmptyString);
    destruct gid; destruct gurl; destruct gall; destruct gfile;
    cbn [negb orb andb app length]; intros Hsel; try discriminate Hsel.
  all: split; intros Hlen;
    first [ exfalso; lia
          | eexists; reflexivity
          | eexists; split; reflexivity ].
Qed.

Lemma Execute_runs_one_mode_witness :
  (exists err,
      Execute (constant_env [] (serve "") None None None "")
        (mkFetchCommand
           (FetchConfig.mk 1 "https://up.example/sub" "" "configs.txt" "" false "" 3)
           no_core)
        (Given.mk true true false false) []
      = (Some err, []))
  /\ exists flag,
      set_flags sample_config (Given.mk false false true false) = [flag]
      /\ Execute (constant_env [] (serve "") None None None "")
           (mkFetchCommand sample_config no_core)
           (Given.mk false false true false) []
         = (if strings.eqb flag "all"
            then fetchAllSubscriptions
                   (constant_env [] (serve "") None None None "")
                   (mkFetchCommand sample_config no_core)
            else if strings.eqb flag "file"
            then fetchFromFile
                   (constant_env [] (serve "") None None None "")
                   (mkFetchCommand sample_config no_core)
            else fetchSingle
                   (constant_env [] (serve "") None None None "")
                   (mkFetchCommand sample_config no_core)) [].
Proof.
  split.
  - apply (Execute_runs_one_mode (constant_env [] (serve "") None None None "")
             (mkFetchCommand
                (FetchConfig.mk 1 "https://up.example/sub" "" "configs.txt" ""
                   false "" 3) no_core)
             (Given.mk true true false false) []);
      [reflexivity|simpl; lia].
  - apply (Execute_runs_one_mode (constant_env [] (serve "") None None None "")
             (mkFetchCommand sample_config no_core)
             (Given.mk false false true false) []);
      [reflexivity|simpl; lia].
Defined.
